(** * A shallow embedding of tcpy.c (timed, verified, throttled copy)

    The program is modelled as code over an explicit world: a file
    system, the pending keyboard input, the clock readings, an oracle
    telling which system calls fail, the program's global variables and
    the list of observable events (log lines, mutating system calls,
    sleeps, keyboard polls) in the order they happen.

    Conventions of the model:
    - integers of the C code are [Z]; [unsigned long] and [TNSEC] are
      64-bit, their wrap-around is written out with [u64];
    - a path string of the code is kept as the code builds it (string
      concatenation); the file system resolves it to a list of
      components ([resolve]);
    - a directory listing is the snapshot taken by [opendir];
    - [malloc] is assumed to succeed and errno values are not modelled;
      the log lines print names without the display truncation of
      StringShortner; the error messages of [TimedCopy] use it as the
      code does;
    - the terminal set-up and restore calls of [main] are left out;
    - the [_WANT_FREEBSD11_STAT] birth-time block is compiled out, as it
      is in a default build. *)

From Stdlib Require Import ZArith List String Ascii Bool Lia.
Import ListNotations.
Open Scope string_scope.
Open Scope Z_scope.
Open Scope list_scope.

Infix "^^" := String.append (at level 60, right associativity).

(** ** Constants *)

Definition ERROR_TCPY := 1.
Definition ERROR_TCPY_USAGE := 2.
Definition ERROR_TCPY_MEM := 3.
Definition ERROR_TCPY_CIRC := 4.
Definition ERROR_TCPY_STOP := 5.

Definition COPYCOUNT := 50.
Definition LNBIGBUFFER := 32768.
Definition LNSZ := 300.
Definition ONESECINNANO := 1000000000.

Definition TCPY_MODE_COPY := 0.
Definition TCPY_MODE_DEL := 1.
Definition TCPY_MODE_MIRROR := 2.
Definition TCPY_MODE_SYNC := 3.

Definition S_IFDIR := 16384.   (* 0040000 *)
Definition S_IFREG := 32768.   (* 0100000 *)
Definition DT_DIR := 4.
Definition DT_REG := 8.

(** [unsigned long] / [unsigned long long] arithmetic (LP64). *)
Definition ULONG_BITS : nat := 64.
Definition u64 (x : Z) : Z := x mod 2 ^ 64.

(** ** Decimal and octal rendering used by the log lines *)

Fixpoint digits_rev (fuel : nat) (b n : Z) (acc : string) : string :=
  match fuel with
  | O => acc
  | S f =>
      let acc' := String (ascii_of_nat (48 + Z.to_nat (n mod b))) acc in
      if n / b =? 0 then acc' else digits_rev f b (n / b) acc'
  end.

Definition z_to_base (b z : Z) : string :=
  if z <? 0 then "-" ^^ digits_rev 70 b (- z) "" else digits_rev 70 b z "".

Definition z_to_string (z : Z) : string := z_to_base 10 z.
Definition z_to_octal (z : Z) : string := z_to_base 8 z.

(** ** ChecksumAdd *)

(** One iteration of the loop of [ChecksumAdd] on an unsigned long of
    [w] bits: remember bit 31 of the state ([iMsb = chk & 0x80000000]), XOR the low
    8 bits of the byte into the state, shift the state left by one bit and
    set bit 0 when [iMsb] was set. *)
Definition ChecksumStepW (w : nat) (chk : Z) (b : Z) : Z :=
  let iMsb := Z.land chk 2147483648 in
  let c1 := Z.lxor chk (Z.land b 255) in
  let c2 := Z.land (Z.shiftl c1 1) (Z.ones (Z.of_nat w)) in
  if iMsb =? 0 then c2 else Z.lor c2 1.

Definition ChecksumAddW (w : nat) (buf : list Z) (chk : Z) : Z :=
  fold_left (ChecksumStepW w) buf chk.

(** The program's [ChecksumAdd]: [unsigned long] is [ULONG_BITS] wide. *)
Definition ChecksumAdd (buf : list Z) (chk : Z) : Z :=
  ChecksumAddW ULONG_BITS buf chk.

(** The checksum the spec describes: XOR the low byte into a 32-bit word,
    then rotate the word left by one bit. *)
Definition rotl32 (x : Z) : Z :=
  Z.lor (Z.land (Z.shiftl x 1) (Z.ones 32)) (Z.shiftr x 31).

Definition spec_checksum_step (chk b : Z) : Z :=
  rotl32 (Z.lxor chk (Z.land b 255)).

Definition spec_checksum (buf : list Z) : Z :=
  fold_left spec_checksum_step buf 0.

(** ** Paths and the file system *)

Definition path := list string.

Definition path_eqb (p q : path) : bool :=
  if list_eq_dec string_dec p q then true else false.

(** Split a path string at its slashes. *)
Fixpoint split_slash (s : string) (cur : string) : list string :=
  match s with
  | EmptyString => [cur]
  | String c r =>
      if Ascii.eqb c "/"%char then cur :: split_slash r ""
      else split_slash r (cur ^^ String c "")
  end.

(** Interpret the components: empty and "." components are skipped, ".."
    goes to the parent. *)
Fixpoint norm_components (acc : path) (cs : list string) : path :=
  match cs with
  | [] => acc
  | c :: cs' =>
      if String.eqb c "" || String.eqb c "." then norm_components acc cs'
      else if String.eqb c ".." then norm_components (removelast acc) cs'
      else norm_components (acc ++ [c]) cs'
  end.

Definition resolve (cwd : path) (s : string) : path :=
  match s with
  | String c _ =>
      if Ascii.eqb c "/"%char then norm_components [] (split_slash s "")
      else norm_components cwd (split_slash s "")
  | EmptyString => norm_components cwd (split_slash s "")
  end.

(** A file system object: a directory or a regular file, with its device,
    inode and permission bits; a file has its bytes and its modification
    time (seconds, nanoseconds). *)
Inductive node :=
| NDir (dev ino perm : Z)
| NReg (dev ino perm : Z) (data : list Z) (sec nsec : Z).

(** The file system: resolved path to object, in directory order. *)
Definition fsys := list (path * node).

Fixpoint fs_lookup (k : path) (f : fsys) : option node :=
  match f with
  | [] => None
  | (k', n) :: f' => if path_eqb k k' then Some n else fs_lookup k f'
  end.

Definition fs_remove (k : path) (f : fsys) : fsys :=
  filter (fun kn => negb (path_eqb k (fst kn))) f.

(** Replace the object at [k], or add it at the end of the listing. *)
Definition fs_set (k : path) (n : node) (f : fsys) : fsys :=
  match fs_lookup k f with
  | Some _ => map (fun kn => if path_eqb k (fst kn) then (k, n) else kn) f
  | None => f ++ [(k, n)]
  end.

Definition node_dev (n : node) : Z :=
  match n with NDir d _ _ | NReg d _ _ _ _ _ => d end.

(** [struct stat], the fields the program reads. *)
Record stat := mkStat {
  st_mode : Z; st_size : Z; st_sec : Z; st_nsec : Z; st_dev : Z; st_ino : Z
}.

Definition stat0 : stat := mkStat 0 0 0 0 0 0.

(** [st_mode] is the file type and the 12 permission bits. *)
Definition stat_of_node (n : node) : stat :=
  match n with
  | NDir d i m => mkStat (Z.lor S_IFDIR (Z.land m 4095)) 512 0 0 d i
  | NReg d i m data s ns =>
      mkStat (Z.lor S_IFREG (Z.land m 4095)) (Z.of_nat (List.length data)) s ns d i
  end.

(** [struct dirent]: name and [d_type]. *)
Record dirent := mkDirent { d_name : string; d_type : Z }.

Definition dtype_of_node (n : node) : Z :=
  match n with NDir _ _ _ => DT_DIR | NReg _ _ _ _ _ _ => DT_REG end.

(** The entries of directory [d], as [readdir] returns them. *)
Definition dir_entries (d : path) (f : fsys) : list dirent :=
  mkDirent "." DT_DIR :: mkDirent ".." DT_DIR ::
  flat_map (fun kn =>
              match fst kn with
              | [] => []
              | _ => if path_eqb (removelast (fst kn)) d
                     then [mkDirent (last (fst kn) "") (dtype_of_node (snd kn))]
                     else []
              end) f.

(** ** Events, system calls and the world *)

(** Observable events, in order: log lines, mutating system calls (with
    the path string passed by the program), sleeps and keyboard polls. *)
Inductive event :=
| ELog (s : string)
| EMkdir (p : string)
| EUnlink (p : string)
| EOpenW (p : string)
| EWrite (p : string) (n : Z)
| EUtimens (p : string)
| ENanosleep (sec nsec : Z)
| EUsleep (us : Z)
| EPoll.

(** System calls whose failure is decided by the environment. *)
Inductive syscall :=
| SMkdir (p : path)
| SUnlink (p : path)
| SOpenR (p : path)
| SOpenW (p : path)
| SWrite (p : path)
| SUtimens (p : path)
| SOpendir (p : path).

(** The program's global variables ([giFaster] and [giTestRun] are set
    once by the argument parser; they are parameters of the model). *)
Record Globals := mkGlobals {
  giFileCount : Z;
  giPauseAfterVerif : Z;
  giNanoFastest : Z;
  giNanoPrev : Z;
  giCopyByteCount : Z;
  giTotalByteCount : Z;
  giSt_dev : Z;
  giSt_ino : Z;
  gszErr : string
}.

Definition globals0 : Globals := mkGlobals 0 0 0 0 0 0 0 0 "".

Record World := mkWorld {
  w_fs : fsys;
  w_cwd : path;
  w_next_ino : Z;
  w_now : Z * Z;
  w_polls : list (option Z);          (* successive select()/getchar() on stdin *)
  w_clock : list (Z * (Z * Z));       (* successive clock_gettime(): return value, timespec *)
  w_fails : syscall -> bool;
  w_glob : Globals;
  w_out : list event
}.

Definition set_fs (f : fsys) (w : World) : World :=
  mkWorld f (w_cwd w) (w_next_ino w) (w_now w) (w_polls w) (w_clock w)
          (w_fails w) (w_glob w) (w_out w).
Definition set_ino (i : Z) (w : World) : World :=
  mkWorld (w_fs w) (w_cwd w) i (w_now w) (w_polls w) (w_clock w)
          (w_fails w) (w_glob w) (w_out w).
Definition set_polls (l : list (option Z)) (w : World) : World :=
  mkWorld (w_fs w) (w_cwd w) (w_next_ino w) (w_now w) l (w_clock w)
          (w_fails w) (w_glob w) (w_out w).
Definition set_clock (l : list (Z * (Z * Z))) (w : World) : World :=
  mkWorld (w_fs w) (w_cwd w) (w_next_ino w) (w_now w) (w_polls w) l
          (w_fails w) (w_glob w) (w_out w).
Definition set_glob (g : Globals) (w : World) : World :=
  mkWorld (w_fs w) (w_cwd w) (w_next_ino w) (w_now w) (w_polls w) (w_clock w)
          (w_fails w) g (w_out w).
Definition add_out (e : event) (w : World) : World :=
  mkWorld (w_fs w) (w_cwd w) (w_next_ino w) (w_now w) (w_polls w) (w_clock w)
          (w_fails w) (w_glob w) (w_out w ++ [e]).

(** ** The monad: state passing, with [None] for a loop that runs out of
    fuel (a computation that does not terminate). *)

Definition M (A : Type) : Type := World -> option A * World.

Definition ret {A} (a : A) : M A := fun w => (Some a, w).

Definition bind {A B} (m : M A) (f : A -> M B) : M B :=
  fun w => match m w with
           | (Some a, w') => f a w'
           | (None, w') => (None, w')
           end.

Definition diverge {A} : M A := fun w => (None, w).

Notation "x <- m ;; k" := (bind m (fun x => k))
  (at level 61, m at next level, right associativity).
Notation "' p <- m ;; k" := (bind m (fun x => match x with p => k end))
  (at level 61, p pattern, m at next level, right associativity).
Notation "m ;; k" := (bind m (fun _ => k))
  (at level 61, right associativity).

Definition gets {A} (f : World -> A) : M A := fun w => (Some (f w), w).
Definition modify (f : World -> World) : M unit := fun w => (Some tt, f w).
Definition emit (e : event) : M unit := modify (add_out e).

Definition get_glob : M Globals := gets w_glob.
Definition put_glob (g : Globals) : M unit := modify (set_glob g).

(** ** System calls *)

Definition resolved (s : string) : M path := gets (fun w => resolve (w_cwd w) s).
Definition failing (c : syscall) : M bool := gets (fun w => w_fails w c).
Definition lookup_node (k : path) : M (option node) := gets (fun w => fs_lookup k (w_fs w)).
Definition update_fs (f : fsys -> fsys) : M unit := modify (fun w => set_fs (f (w_fs w)) w).

Definition fresh_ino : M Z :=
  i <- gets w_next_ino;; modify (set_ino (i + 1));; ret i.

Definition is_slash (o : option ascii) : bool :=
  match o with Some c => Ascii.eqb c "/"%char | None => false end.

(** [stat()]: no side effect; [None] when the path does not exist. *)
Definition sys_stat (s : string) : M (option stat) :=
  k <- resolved s;; n <- lookup_node k;; ret (option_map stat_of_node n).

(** [stat(s, buf)] where the buffer is kept when the call fails. *)
Definition stat_into (s : string) (buf : stat) : M stat :=
  o <- sys_stat s;; ret (match o with Some st => st | None => buf end).

Definition sys_unlink (s : string) : M bool :=
  emit (EUnlink s);;
  k <- resolved s;; fl <- failing (SUnlink k);; n <- lookup_node k;;
  match n with
  | Some (NReg _ _ _ _ _ _) =>
      if fl then ret false else update_fs (fs_remove k);; ret true
  | _ => ret false
  end.

Definition sys_mkdir (s : string) (mode : Z) : M bool :=
  emit (EMkdir s);;
  k <- resolved s;; fl <- failing (SMkdir k);; n <- lookup_node k;;
  par <- lookup_node (removelast k);;
  match k, n, par with
  | _ :: _, None, Some (NDir d _ _) =>
      if fl then ret false
      else i <- fresh_ino;; update_fs (fs_set k (NDir d i (Z.land mode 511)));; ret true
  | _, _, _ => ret false
  end.

(** [open(s, O_RDONLY)]; the descriptor is the path, reads carry the
    offset. *)
Definition sys_open_read (s : string) : M bool :=
  k <- resolved s;; fl <- failing (SOpenR k);; n <- lookup_node k;;
  match n with Some _ => ret (negb fl) | None => ret false end.

(** [read(fd, buf, LNBIGBUFFER)] at offset [off]: the bytes read (a read
    of a directory fails, and behaves like end of file for the loops). *)
Definition sys_read (s : string) (off : Z) : M (list Z) :=
  k <- resolved s;; n <- lookup_node k;;
  match n with
  | Some (NReg _ _ _ data _ _) =>
      ret (firstn (Z.to_nat LNBIGBUFFER) (skipn (Z.to_nat off) data))
  | _ => ret []
  end.

(** [open(s, O_WRONLY|O_CREAT|O_TRUNC, mode)]. *)
Definition sys_open_write (s : string) (mode : Z) : M bool :=
  emit (EOpenW s);;
  k <- resolved s;; fl <- failing (SOpenW k);; n <- lookup_node k;;
  par <- lookup_node (removelast k);; now <- gets w_now;;
  if fl then ret false else
  match k, n, par with
  | _, Some (NReg d i m _ _ _), _ =>
      update_fs (fs_set k (NReg d i m [] (fst now) (snd now)));; ret true
  | _ :: _, None, Some (NDir d _ _) =>
      i <- fresh_ino;;
      update_fs (fs_set k (NReg d i (Z.land mode 511) [] (fst now) (snd now)));;
      ret true
  | _, _, _ => ret false
  end.

(** [write(fd, buf, n)]: the count written, or -1. *)
Definition sys_write (s : string) (buf : list Z) : M Z :=
  let len := Z.of_nat (List.length buf) in
  emit (EWrite s len);;
  k <- resolved s;; fl <- failing (SWrite k);; n <- lookup_node k;;
  now <- gets w_now;;
  match n with
  | Some (NReg d i m data _ _) =>
      if fl then ret (-1)
      else update_fs (fs_set k (NReg d i m (data ++ buf) (fst now) (snd now)));;
           ret len
  | _ => ret (-1)
  end.

(** [utimensat(AT_FDCWD, s, {UTIME_OMIT, mtime}, 0)]. *)
Definition sys_utimens (s : string) (mtime : Z * Z) : M bool :=
  emit (EUtimens s);;
  k <- resolved s;; fl <- failing (SUtimens k);; n <- lookup_node k;;
  match n with
  | Some (NReg d i m data _ _) =>
      if fl then ret false
      else update_fs (fs_set k (NReg d i m data (fst mtime) (snd mtime)));; ret true
  | _ => ret false
  end.

(** [opendir()] followed by the [readdir()] calls: the listing. *)
Definition sys_opendir (s : string) : M (option (list dirent)) :=
  k <- resolved s;; fl <- failing (SOpendir k);; n <- lookup_node k;;
  f <- gets w_fs;;
  match n with
  | Some (NDir _ _ _) => if fl then ret None else ret (Some (dir_entries k f))
  | _ => ret None
  end.

(** [select()] on stdin with a zero timeout, then [getchar()] when input is
    pending: the character read, or [None] when nothing is pending. *)
Definition sys_select_getchar : M (option Z) :=
  emit EPoll;;
  l <- gets w_polls;;
  match l with
  | [] => ret None
  | x :: r => modify (set_polls r);; ret x
  end.

(** [clock_gettime()]: return value and the [timespec] (seconds,
    nanoseconds) left in the buffer. *)
Definition sys_clock_gettime : M (Z * (Z * Z)) :=
  l <- gets w_clock;;
  match l with
  | [] => ret (0, (0, 0))
  | x :: r => modify (set_clock r);; ret x
  end.

Definition nanosleep (sec nsec : Z) : M unit := emit (ENanosleep sec nsec).
Definition usleep (us : Z) : M unit := emit (EUsleep us).
Definition EchoPrint (s : string) : M unit := emit (ELog s).

(** ** Updates of the global variables *)

Definition set_err (s : string) : M unit :=
  g <- get_glob;;
  put_glob (mkGlobals (giFileCount g) (giPauseAfterVerif g) (giNanoFastest g)
              (giNanoPrev g) (giCopyByteCount g) (giTotalByteCount g)
              (giSt_dev g) (giSt_ino g) s).

Definition set_pause_after_verif (v : Z) : M unit :=
  g <- get_glob;;
  put_glob (mkGlobals (giFileCount g) v (giNanoFastest g)
              (giNanoPrev g) (giCopyByteCount g) (giTotalByteCount g)
              (giSt_dev g) (giSt_ino g) (gszErr g)).

Definition set_throttle (prev fastest : Z) : M unit :=
  g <- get_glob;;
  put_glob (mkGlobals (giFileCount g) (giPauseAfterVerif g) fastest
              prev (giCopyByteCount g) (giTotalByteCount g)
              (giSt_dev g) (giSt_ino g) (gszErr g)).

Definition set_counts (files copied total : Z) : M unit :=
  g <- get_glob;;
  put_glob (mkGlobals files (giPauseAfterVerif g) (giNanoFastest g)
              (giNanoPrev g) copied total
              (giSt_dev g) (giSt_ino g) (gszErr g)).

Definition set_guard (dev ino : Z) : M unit :=
  g <- get_glob;;
  put_glob (mkGlobals (giFileCount g) (giPauseAfterVerif g) (giNanoFastest g)
              (giNanoPrev g) (giCopyByteCount g) (giTotalByteCount g)
              dev ino (gszErr g)).

(** ** StringShortner (lines 270-293): a string of [iMax] characters or
    more keeps its first and last [iMax / 2] characters around " ... "
    ([iMax - 5] when the string is at most 5 characters longer than
    [iMax]); C's [/] truncates. *)
Definition StringShortner (pLongSz : string) (iMax : Z) : string :=
  let i := Z.of_nat (String.length pLongSz) in
  if i <? iMax then pLongSz
  else
    let iMax := if i <=? iMax + 5 then iMax - 5 else iMax in
    let iMax := Z.quot iMax 2 in
    String.substring 0 (Z.to_nat iMax) pLongSz ^^ " ... "
    ^^ String.substring (Z.to_nat (i - iMax)) (Z.to_nat iMax) pLongSz.

(** ** The program *)

Section Program.

(** [-f] and [-t] of the command line. *)
Variable giFaster : bool.
Variable giTestRun : bool.

(** *** KeyboardCheck

    The [do { ... } while (!iErr && iPause)] loop; [fuel] bounds the
    number of iterations. *)
Fixpoint kc_loop (fuel : nat) (iPause : bool) (iErr : Z) : M Z :=
  match fuel with
  | O => diverge
  | S f =>
      r <- sys_select_getchar;;
      ' (iPause, iErr) <-
        match r with
        | None => ret (iPause, iErr)
        | Some i =>
            ' (iPause, iErr) <-
              (if (i =? 32) || (i =? 112) || (i =? 80) then
                 let p := negb iPause in
                 (if p then EchoPrint "Pause..." else EchoPrint "Resume...");;
                 ret (p, iErr)
               else if (i =? 27) || (i =? 113) || (i =? 81) then
                 ret (iPause, ERROR_TCPY_STOP)
               else if (i =? 118) || (i =? 86) then
                 set_pause_after_verif 1;;
                 EchoPrint "Pause Requested!";;
                 ret (iPause, iErr)
               else ret (iPause, iErr));;
            (if iPause then usleep 3000 else ret tt);;
            ret (iPause, iErr)
        end;;
      if (iErr =? 0) && iPause then kc_loop f iPause iErr else ret iErr
  end.

Definition KeyboardCheck (fuel : nat) (iInducedPause : bool) : M Z :=
  (if iInducedPause then EchoPrint "Pause..." else ret tt);;
  kc_loop fuel iInducedPause 0.

(** *** NanoTime *)

Definition NanoTime : M Z :=
  ' (r, (sec, nsec)) <- sys_clock_gettime;;
  if negb (r =? 0) then ret (u64 (sec * ONESECINNANO + nsec)) else ret 0.

(** *** DirectoryExist, FilenameExist *)

Definition DirectoryExist (s : string) (buf : stat) : M (bool * stat) :=
  o <- sys_stat s;;
  match o with
  | Some st => ret (negb (Z.land (st_mode st) S_IFDIR =? 0), st)
  | None => ret (false, buf)
  end.

Definition FilenameExist (s : string) (buf : stat) : M (bool * stat) :=
  o <- sys_stat s;;
  match o with
  | Some st => ret (negb (Z.land (st_mode st) S_IFREG =? 0), st)
  | None => ret (false, buf)
  end.

(** *** DirectoryValidate *)

(** [while (i && pSzDirname[i] != '/') i--;] *)
Fixpoint scan_back (c : string) (j : nat) : nat :=
  match j with
  | O => O
  | S j' => if is_slash (String.get j c) then j else scan_back c j'
  end.

(** The stat buffer [pStat2] is threaded through the recursion. *)
Fixpoint DirectoryValidate (fuel : nat) (s : string) (buf : stat) : M (Z * stat) :=
  match fuel with
  | O => diverge
  | S f =>
      let i := String.length s in
      if Nat.eqb i 0 then ret (0, stat0)
      else
        ' (ex, buf) <- DirectoryExist s buf;;
        if ex then ret (0, buf)
        else
          let '(c, i) := if is_slash (String.get (i - 1)%nat s)
                         then (String.substring 0 (i - 1) s, (i - 1)%nat)
                         else (s, i) in
          let j := scan_back c i in
          ' (iErr, buf) <-
            (if is_slash (String.get j c) then
               if Nat.eqb j 0 then st <- stat_into "/" buf;; ret (0, st)
               else DirectoryValidate f (String.substring 0 j c) buf
             else st <- stat_into "." buf;; ret (0, st));;
          if iErr =? 0 then
            EchoPrint ("mkdir(" ^^ c ^^ ", Mode=0" ^^ z_to_octal (st_mode buf) ^^ ")");;
            ok <- sys_mkdir c (st_mode buf);;
            if ok then st <- stat_into c buf;; ret (0, st)
            else set_err ("Could Not Create " ^^ c);; ret (ERROR_TCPY, buf)
          else ret (iErr, buf)
  end.

(** *** FilenameChecksum *)

Fixpoint fc_loop (fuel : nat) (s : string) (off chk : Z) : M (Z * Z) :=
  match fuel with
  | O => diverge
  | S f =>
      buf <- sys_read s off;;
      let iRead := Z.of_nat (List.length buf) in
      let chk := if 0 <? iRead then ChecksumAdd buf chk else chk in
      iErr <- KeyboardCheck fuel false;;
      if (iRead =? LNBIGBUFFER) && (iErr =? 0) then fc_loop f s (off + iRead) chk
      else ret (iErr, chk)
  end.

(** Error code and checksum. *)
Definition FilenameChecksum (fuel : nat) (s : string) : M (Z * Z) :=
  ok <- sys_open_read s;;
  if ok then fc_loop fuel s 0 0
  else set_err ("Could Not Open " ^^ s);; ret (ERROR_TCPY, 0).

(** *** TimedCopyFile *)

(** Lines 515-535: probe both endpoints; an absent destination gets a
    zero size and zero modification time.  Returns the error code, the
    source stat, whether the destination exists and its stat. *)
Definition zero_size_times (st : stat) : stat :=
  mkStat (st_mode st) 0 0 0 (st_dev st) (st_ino st).

Definition tcf_probe (src dst : string) : M (Z * stat * bool * stat) :=
  ' (iExistSource, sS) <- FilenameExist src stat0;;
  iErr <- (if iExistSource then ret 0
           else set_err ("File " ^^ src ^^ " Not Found!");; ret ERROR_TCPY);;
  ' (iExistDest, sD) <- FilenameExist dst stat0;;
  ret (iErr, sS, iExistDest, if iExistDest then sD else zero_size_times sD).

(** Lines 537-548: checksums of both files when the sizes are equal and
    nonzero (not in a test run).  Returns the error code and the source
    and destination checksums. *)
Definition tcf_precheck (fuel : nat) (src dst : string) (iErr : Z) (sS sD : stat)
  : M (Z * Z * Z) :=
  if (iErr =? 0) && negb (st_size sS =? 0) && negb (st_size sD =? 0)
     && (st_size sS =? st_size sD) then
    EchoPrint ("Verify " ^^ src ^^ " to " ^^ dst);;
    if giTestRun then ret (iErr, 0, 0)
    else
      ' (e, cS) <- FilenameChecksum fuel src;;
      if e =? 0 then ' (e, cD) <- FilenameChecksum fuel dst;; ret (e, cS, cD)
      else ret (e, cS, 0)
  else ret (iErr, 0, 0).

(** Lines 550-555: the comparison. *)
Definition tcf_differ (sS sD : stat) (cS cD : Z) : bool :=
  negb (st_size sS =? st_size sD) || negb (st_sec sS =? st_sec sD)
  || negb (st_nsec sS =? st_nsec sD) || negb (cS =? cD).

(** Lines 559-569: the log line of the stale-destination deletion. *)
Definition delete_line (dst : string) (sS sD : stat) (cS cD : Z) : string :=
  "Delete " ^^ dst ^^ " (diff"
  ^^ (if st_size sS =? st_size sD then ""
      else " " ^^ z_to_string (st_size sD - st_size sS) ^^ " bytes")
  ^^ (if st_sec sS =? st_sec sD then "" else " sec")
  ^^ (if st_nsec sS =? st_nsec sD then "" else " nsec")
  ^^ (if cS =? cD then "" else " chk")
  ^^ ")".

(** Lines 557-578. *)
Definition tcf_delete_dest (dst : string) (iExistDest : bool) (line : string) : M Z :=
  if iExistDest then
    EchoPrint line;;
    if giTestRun then ret 0
    else ok <- sys_unlink dst;;
         if ok then ret 0
         else set_err ("Could Not Delete " ^^ dst);; ret ERROR_TCPY
  else ret 0.

(** The throttle arithmetic of lines 615-617 and 627-631 ([TNSEC] is
    unsigned 64-bit). *)
Definition throttle_delay (prev fastest iRead : Z) : Z :=
  let iNano := u64 (prev - fastest) in
  if iRead =? LNBIGBUFFER then iNano else u64 (iNano * u64 iRead) / LNBIGBUFFER.

(** [iRead] is converted to [TNSEC] by the division. *)
Definition normalize_duration (d iRead : Z) : Z :=
  if iRead =? LNBIGBUFFER then d else u64 (d * LNBIGBUFFER) / u64 iRead.

Definition next_fastest (fastest prev : Z) : Z :=
  if (fastest =? 0) || (prev <? fastest) then prev else fastest.

(** Lines 627-631: record the normalized duration of the last write,
    timed by the readings [t0] and [t1], and the fastest one. *)
Definition update_throttle (t0 t1 iRead : Z) : M unit :=
  let prev := normalize_duration (u64 (t1 - t0)) iRead in
  g <- get_glob;;
  set_throttle prev (next_fastest (giNanoFastest g) prev).

(** Lines 611-638: one buffer of the copy loop, [iRead > 0] bytes.
    Returns the error code and the destination checksum. *)
Definition tcf_copy_step (dst : string) (buf : list Z) (chk : Z) : M (Z * Z) :=
  let iRead := Z.of_nat (List.length buf) in
  g <- get_glob;;
  set_counts (giFileCount g) (giCopyByteCount g + iRead) (giTotalByteCount g + iRead);;
  g <- get_glob;;
  let iNano := throttle_delay (giNanoPrev g) (giNanoFastest g) iRead in
  (if giFaster then ret tt else nanosleep (iNano / ONESECINNANO) (iNano mod ONESECINNANO));;
  let chk := ChecksumAdd buf chk in
  t0 <- NanoTime;;
  iWrite <- sys_write dst buf;;
  t1 <- NanoTime;;
  update_throttle t0 t1 iRead;;
  if iWrite =? iRead then ret (0, chk)
  else set_err ("Write to file " ^^ dst ^^ " Failed");; ret (ERROR_TCPY, chk).

(** Lines 606-643: the copy loop from offset [off]. *)
Fixpoint tcf_copy_loop (fuel : nat) (src dst : string) (off chk : Z) : M (Z * Z) :=
  match fuel with
  | O => diverge
  | S f =>
      buf <- sys_read src off;;
      let iRead := Z.of_nat (List.length buf) in
      ' (iErr, chk) <- (if 0 <? iRead then tcf_copy_step dst buf chk else ret (0, chk));;
      iErr <- (if iErr =? 0 then KeyboardCheck fuel false else ret iErr);;
      if (iRead =? LNBIGBUFFER) && (iErr =? 0) then tcf_copy_loop f src dst (off + iRead) chk
      else ret (iErr, chk)
  end.

(** Lines 579-696, entered with no error: copy, integrity check, retime.
    Returns the error code and the accepted source checksum. *)
Definition tcf_copy (fuel : nat) (src dst : string) (sS : stat) (cS : Z) : M (Z * Z) :=
  EchoPrint ("Copy " ^^ src ^^ " to " ^^ dst);;
  if giTestRun then ret (0, cS)
  else
    okS <- sys_open_read src;;
    iErr <- (if okS then ret 0 else set_err ("Could Not Open " ^^ src);; ret ERROR_TCPY);;
    iErr <- (if iErr =? 0 then
               okD <- sys_open_write dst (st_mode sS);;
               if okD then ret 0 else set_err ("Could Not Create " ^^ dst);; ret ERROR_TCPY
             else ret iErr);;
    ' (iErr, cD) <- (if iErr =? 0 then tcf_copy_loop fuel src dst 0 0 else ret (iErr, 0));;
    ' (iErr, cS) <-
      (if iErr =? 0 then
         if cS =? 0 then ret (0, cD)
         else if cS =? cD then ret (0, cS)
         else set_err ("Source " ^^ src ^^ " Check Failed!");; ret (ERROR_TCPY, cS)
       else ret (iErr, cS));;
    (if iErr =? 0 then ret tt
     else ok <- sys_unlink dst;;
          if ok then ret tt else EchoPrint ("WARNING: Failed to delete " ^^ dst));;
    if iErr =? 0 then
      ok <- sys_utimens dst (st_sec sS, st_nsec sS);;
      if ok then ret (0, cS) else set_err ("Time Set of " ^^ src ^^ " Failed!");; ret (ERROR_TCPY, cS)
    else ret (iErr, cS).

(** Lines 698-715: re-verification of the destination. *)
Definition tcf_reverify (fuel : nat) (dst : string) (iErr cS : Z) : M Z :=
  if iErr =? 0 then
    EchoPrint ("Verify " ^^ dst);;
    if giTestRun then ret 0
    else
      ' (iErr, cD) <- FilenameChecksum fuel dst;;
      if (iErr =? 0) && negb (cS =? cD) then
        set_err ("Destination " ^^ dst ^^ " Check Failed!");;
        ok <- sys_unlink dst;;
        (if ok then ret tt else EchoPrint ("WARNING: Failed to delete " ^^ dst));;
        ret ERROR_TCPY
      else ret iErr
  else ret iErr.

(** Lines 515-716: everything before the deletion of the source. *)
Definition tcf_transfer (fuel : nat) (src dst : string) : M Z :=
  ' (iErr, sS, iExistDest, sD) <- tcf_probe src dst;;
  ' (iErr, cS, cD) <- tcf_precheck fuel src dst iErr sS sD;;
  if (iErr =? 0) && tcf_differ sS sD cS cD then
    iErr <- tcf_delete_dest dst iExistDest (delete_line dst sS sD cS cD);;
    ' (iErr, cS) <- (if iErr =? 0 then tcf_copy fuel src dst sS cS else ret (iErr, cS));;
    tcf_reverify fuel dst iErr cS
  else ret iErr.

(** Lines 718-730: Move mode deletes the source. *)
Definition tcf_delete_source (iMode : Z) (src dst : string) (iErr : Z) : M Z :=
  if (iErr =? 0) && (iMode =? TCPY_MODE_DEL) then
    EchoPrint ("Delete " ^^ src);;
    if giTestRun then ret 0
    else ok <- sys_unlink src;;
         if ok then ret 0
         else set_err ("Failed to delete " ^^ dst);; ret ERROR_TCPY
  else ret iErr.

(** Lines 732-766: counters and pacing. *)
Definition tcf_bookkeeping (fuel : nat) (iErr : Z) : M Z :=
  if iErr =? 0 then
    g <- get_glob;;
    let files := giFileCount g + 1 in
    set_counts files (giCopyByteCount g) (giTotalByteCount g);;
    if negb (giPauseAfterVerif g =? 0) then
      set_counts 0 0 (giTotalByteCount g);;
      set_pause_after_verif 0;;
      KeyboardCheck fuel true
    else if (files >=? COPYCOUNT) && negb giFaster then
      EchoPrint (z_to_string COPYCOUNT ^^ " files done, 10 sec. Pause...");;
      usleep 10000000;;
      set_counts 0 (giCopyByteCount g) (giTotalByteCount g);;
      ret 0
    else if giCopyByteCount g >? 1073741824 then
      let copied := giCopyByteCount g * 30 / 1024 in
      let gb := z_to_string (giTotalByteCount g / 1073741824) in
      (if giFaster then EchoPrint (gb ^^ " Gb done.")
       else EchoPrint (gb ^^ " Gb done, " ^^ z_to_string (copied / 1000000)
                       ^^ " sec. Pause..."));;
      (if giFaster then ret tt else usleep copied);;
      set_counts 0 0 (giTotalByteCount g);;
      ret 0
    else ret 0
  else ret iErr.

Definition TimedCopyFile (fuel : nat) (iMode : Z) (src dst : string) : M Z :=
  iErr <- tcf_transfer fuel src dst;;
  iErr <- tcf_delete_source iMode src dst iErr;;
  tcf_bookkeeping fuel iErr.

(** *** TimedCopy *)

(** Lines 872-876: append a slash unless the path ends with one. *)
Definition ensure_slash (s : string) : string :=
  if is_slash (String.get (String.length s - 1)%nat s) then s else s ^^ "/".

(** Lines 857-901: one directory entry of the copy pass; [rec] is the
    recursive call on a sub-directory. *)
Definition tc_entry (fuel : nat) (iMode : Z) (sd dd : string)
           (rec : string -> string -> M Z) (e : dirent) : M Z :=
  let n := d_name e in
  if String.eqb n "." || String.eqb n ".." then ret 0
  else if Nat.ltb (Z.to_nat LNSZ) (String.length n) then
    set_err ("Name " ^^ n ^^ " Too Long!");; ret ERROR_TCPY
  else if Z.land (d_type e) DT_DIR =? DT_DIR then
    let s := ensure_slash (sd ^^ n) in
    let d := ensure_slash (dd ^^ n) in
    ' (iErr, _) <- DirectoryValidate fuel d stat0;;
    if iErr =? 0 then rec s d else ret iErr
  else if Z.land (d_type e) DT_REG =? DT_REG then
    TimedCopyFile fuel iMode (sd ^^ n) (dd ^^ n)
  else ret 0.

(** The [do ... while (pDirEntry && !iErr)] loop. *)
Fixpoint tc_walk (entry : dirent -> M Z) (es : list dirent) : M Z :=
  match es with
  | [] => ret 0
  | e :: es' => iErr <- entry e;; if iErr =? 0 then tc_walk entry es' else ret iErr
  end.

(** Lines 916-939: the mirror cleanup loop. *)
Fixpoint tc_cleanup_walk (sd dd : string) (es : list dirent) : M unit :=
  match es with
  | [] => ret tt
  | e :: es' =>
      (if Z.land (d_type e) DT_REG =? DT_REG then
         ' (ex, _) <- FilenameExist (sd ^^ d_name e) stat0;;
         if ex then ret tt
         else EchoPrint ("Delete " ^^ dd ^^ d_name e);;
              if giTestRun then ret tt
              else ok <- sys_unlink (dd ^^ d_name e);;
                   if ok then ret tt
                   else EchoPrint ("WARNING: Failed to delete " ^^ dd ^^ d_name e)
       else ret tt);;
      tc_cleanup_walk sd dd es'
  end.

(** Lines 910-943. *)
Definition tc_mirror_cleanup (sd dd : string) : M unit :=
  o <- sys_opendir dd;;
  match o with
  | Some es => tc_cleanup_walk sd dd es
  | None => ret tt
  end.

(** Lines 827-831: the traversal guard is recorded while it is (0, 0). *)
Definition record_guard (dev ino : Z) : M unit :=
  g <- get_glob;;
  if (giSt_dev g =? 0) && (giSt_ino g =? 0) then set_guard dev ino else ret tt.

Fixpoint TimedCopy (fuel : nat) (iMode : Z) (sd sf dd df : string) : M Z :=
  match fuel with
  | O => diverge
  | S fuel' =>
      if negb (String.eqb sd dd) then
        ' (ex, st) <- DirectoryExist sd stat0;;
        g <- get_glob;;
        let iErr :=
          if ex then
            if (st_dev st =? giSt_dev g) && (st_ino st =? giSt_ino g)
            then ERROR_TCPY_CIRC else 0
          else ERROR_TCPY_USAGE in
        iErr <- (if iErr =? 0 then
                   ' (ex, st) <- DirectoryExist dd stat0;;
                   if ex then record_guard (st_dev st) (st_ino st);; ret 0
                   else ret ERROR_TCPY_USAGE
                 else ret iErr);;
        if iErr =? 0 then
          if negb (String.eqb sf "") then TimedCopyFile fuel iMode (sd ^^ sf) (dd ^^ df)
          else
            o <- sys_opendir sd;;
            iErr <- (match o with
                     | Some es =>
                         tc_walk (tc_entry fuel' iMode sd dd
                                    (fun s d => TimedCopy fuel' iMode s "" d "")) es
                     | None => ret 0
                     end);;
            (if (iErr =? 0) && (iMode =? TCPY_MODE_MIRROR) && String.eqb sf ""
             then tc_mirror_cleanup sd dd else ret tt);;
            ret iErr
        else ret iErr
      else if negb (String.eqb sf "") then
        if negb (String.eqb sf df) then TimedCopyFile fuel iMode (sd ^^ sf) (dd ^^ df)
        else set_err ("Can't copy the " ^^ StringShortner sf (LNSZ - 60) ^^ " file on itself!");;
             ret ERROR_TCPY
      else set_err ("Can't copy the " ^^ StringShortner sd (LNSZ - 60) ^^ " directory on itself!");;
           ret ERROR_TCPY
  end.

End Program.

(** ** Display and command line *)

(** ** main *)

(** [printf()] of a line: its text (without the surrounding newlines). *)
Definition printf_line (s : string) : M unit := emit (ELog s).

(** The variables of [main] set by the parsing loop: [iErr], [iMode],
    [giFaster], [giTestRun], and the source and destination buffers
    ([None] while the pointer is [NULL]), each a directory part and a
    file part. *)
Record ParseState := mkParse {
  ps_err : Z;
  ps_mode : Z;
  ps_faster : bool;
  ps_test : bool;
  ps_src : option (string * string);
  ps_dst : option (string * string)
}.

Definition ps_set_err (e : Z) (p : ParseState) : ParseState :=
  mkParse e (ps_mode p) (ps_faster p) (ps_test p) (ps_src p) (ps_dst p).
Definition ps_set_mode (m : Z) (p : ParseState) : ParseState :=
  mkParse (ps_err p) m (ps_faster p) (ps_test p) (ps_src p) (ps_dst p).
Definition ps_set_faster (p : ParseState) : ParseState :=
  mkParse (ps_err p) (ps_mode p) true (ps_test p) (ps_src p) (ps_dst p).
Definition ps_set_test (p : ParseState) : ParseState :=
  mkParse (ps_err p) (ps_mode p) (ps_faster p) true (ps_src p) (ps_dst p).
Definition ps_set_src (s : string * string) (p : ParseState) : ParseState :=
  mkParse (ps_err p) (ps_mode p) (ps_faster p) (ps_test p) (Some s) (ps_dst p).
Definition ps_set_dst (e : Z) (d : string * string) (p : ParseState) : ParseState :=
  mkParse e (ps_mode p) (ps_faster p) (ps_test p) (ps_src p) (Some d).

(** [j = strlen(pSz); while (j && pSz[j] != '/') j--;] then the split:
    up to and including the slash, and the rest; "./" and the whole
    argument when there is no slash. *)
Definition split_path (pSz : string) : string * string :=
  let j := scan_back pSz (String.length pSz) in
  if is_slash (String.get j pSz) then
    (String.substring 0 (S j) pSz, String.substring (S j) (String.length pSz - S j) pSz)
  else ("./", pSz).

(** [strcpy(pDir, arg)] and a slash appended when it is not empty and
    does not end with one. *)
Definition dir_arg (s : string) : string :=
  if Nat.eqb (String.length s) 0 then s
  else if is_slash (String.get (String.length s - 1) s) then s else s ^^ "/".

Definition starts_dash (s : string) : bool :=
  match s with String c _ => Ascii.eqb c "-"%char | EmptyString => false end.

(** Lines 1086-1209: a path argument, the source when none was seen yet,
    else the destination. *)
Definition parse_path (fuel : nat) (p : ParseState) (a : string) : M ParseState :=
  match ps_src p with
  | Some (_, sf) =>
      ' (fe, _) <- FilenameExist a stat0;;
      if fe then
        if negb (String.eqb sf "") then ret (ps_set_dst (ps_err p) (split_path a) p)
        else ret (ps_set_err ERROR_TCPY_USAGE p)
      else
        ' (de, _) <- DirectoryExist a stat0;;
        if de then ret (ps_set_dst (ps_err p) (dir_arg a, "") p)
        else if starts_dash a then ret (ps_set_err ERROR_TCPY_USAGE p)
        else if negb (String.eqb sf "") then
          let j := scan_back a (String.length a) in
          if is_slash (String.get j a) then
            let dd := String.substring 0 (S j) a in
            ' (iErr, _) <- DirectoryValidate fuel dd stat0;;
            ret (ps_set_dst iErr (dd, String.substring (S j) (String.length a - S j) a) p)
          else ret (ps_set_dst (ps_err p) ("./", a) p)
        else
          let dd := dir_arg a in
          ' (iErr, _) <- DirectoryValidate fuel dd stat0;;
          ret (ps_set_dst iErr (dd, "") p)
  | None =>
      ' (fe, _) <- FilenameExist a stat0;;
      if fe then ret (ps_set_src (split_path a) p)
      else
        ' (de, _) <- DirectoryExist a stat0;;
        if de then ret (ps_set_src (dir_arg a, "") p)
        else ret (ps_set_err ERROR_TCPY_USAGE p)
  end.

(** Lines 1045-1084: one argument. *)
Definition parse_arg (fuel : nat) (p : ParseState) (a : string) : M ParseState :=
  if String.eqb a "-del" then
    ret (if negb (ps_mode p =? 0) then ps_set_err ERROR_TCPY_USAGE p
         else ps_set_mode TCPY_MODE_DEL p)
  else if String.eqb a "-mir" then
    ret (if negb (ps_mode p =? 0) then ps_set_err ERROR_TCPY_USAGE p
         else ps_set_mode TCPY_MODE_MIRROR p)
  else if String.eqb a "-sync" then
    if negb (ps_mode p =? 0) then ret (ps_set_err ERROR_TCPY_USAGE p)
    else set_err "Not Yet Implemented!";; ret (ps_set_err ERROR_TCPY p)
  else if String.eqb a "-f" then ret (ps_set_faster p)
  else if String.eqb a "-t" then ret (ps_set_test p)
  else parse_path fuel p a.

(** [for (i = 1 ; i < argc && !iErr ; i++)] *)
Fixpoint parse_args (fuel : nat) (p : ParseState) (args : list string) : M ParseState :=
  match args with
  | [] => ret p
  | a :: r =>
      if ps_err p =? 0 then p' <- parse_arg fuel p a;; parse_args fuel p' r
      else ret p
  end.

Definition USAGE_TEXT : string :=
  "USAGE: tcpy [-del|-mir] [-f] [-t] <src-file>|<src-dir> [<dest-file>|<dest-dir>]".

(** Lines 1276-1306: the message of the error code. *)
Definition report_msg (iErr : Z) (err : string) : string :=
  if iErr =? 0 then "Done!"
  else if iErr =? ERROR_TCPY then "ERROR: " ^^ err
  else if iErr =? ERROR_TCPY_USAGE then USAGE_TEXT
  else if iErr =? ERROR_TCPY_MEM then "ERROR: Out Of Memory!"
  else if iErr =? ERROR_TCPY_CIRC then "ERROR: Circular Directory Copy Atempted!"
  else if iErr =? ERROR_TCPY_STOP then "WARNING: Terminated by the user!"
  else "ERROR: Unexpected Code " ^^ z_to_string iErr.

(** [main(argc, argv)]: [argv] includes the program name.  The terminal
    set-up and restore calls, and the sizing of the buffers, are not
    modelled; [malloc] succeeds. *)
Definition main (fuel : nat) (argv : list string) : M Z :=
  set_err "";;
  let argc := Z.of_nat (List.length argv) in
  let p0 := mkParse (if (argc <? 2) || (argc >? 6) then ERROR_TCPY_USAGE else 0)
                    TCPY_MODE_COPY false false None None in
  p <- parse_args fuel p0 (tl argv);;
  let iErr :=
    if ps_err p =? 0 then
      match ps_src p with
      | Some (_, sf) =>
          if negb (String.eqb sf "") && (ps_mode p >? TCPY_MODE_DEL)
          then ERROR_TCPY_USAGE else 0
      | None => ERROR_TCPY_USAGE
      end
    else ps_err p in
  iErr <-
    (if iErr =? 0 then
       match ps_src p with
       | Some (sd, sf) =>
           let '(dd, df) := match ps_dst p with Some d => d | None => ("./", "") end in
           let df := if negb (String.eqb sf "") && String.eqb df "" then sf else df in
           (if ps_test p then printf_line "*** TEST RUN ***" else ret tt);;
           TimedCopy (ps_faster p) (ps_test p) fuel (ps_mode p) sd sf dd df
       | None => ret iErr
       end
     else ret iErr);;
  EchoPrint "";;
  g <- get_glob;;
  printf_line (report_msg iErr (gszErr g));;
  ret 0.

(** * Reasoning about runs *)

(** [Sat R m]: every run of [m] relates its initial and final worlds by
    [R] (also a run cut short by a non-terminating loop). *)
Definition Sat (R : World -> World -> Prop) {A} (m : M A) : Prop :=
  forall w, R w (snd (m w)).

Create HintDb sat discriminated.

Section SatRules.

Variable R : World -> World -> Prop.
Hypothesis R_refl : forall w, R w w.
Hypothesis R_trans : forall a b c, R a b -> R b c -> R a c.

Lemma sat_ret {A} (a : A) : Sat R (ret a).
Proof using R_refl R_trans. intros w; apply R_refl. Qed.

Lemma sat_diverge {A} : Sat R (@diverge A).
Proof using R_refl R_trans. intros w; apply R_refl. Qed.

Lemma sat_gets {A} (f : World -> A) : Sat R (gets f).
Proof using R_refl R_trans. intros w; apply R_refl. Qed.

Lemma sat_bind {A B} (m : M A) (f : A -> M B) :
  Sat R m -> (forall a, Sat R (f a)) -> Sat R (bind m f).
Proof using R_refl R_trans.
  intros Hm Hf w; unfold bind.
  specialize (Hm w); destruct (m w) as [[a|] w1]; simpl in *; [|exact Hm].
  eapply R_trans; [exact Hm | apply Hf].
Qed.

End SatRules.

Ltac sat_step :=
  cbv beta iota;
  lazymatch goal with
  | |- forall _, _ => intro
  | |- Sat _ (bind _ _) => apply sat_bind; [assumption | assumption | | intro]
  | |- Sat _ (ret _) => apply sat_ret; assumption
  | |- Sat _ diverge => apply sat_diverge; assumption
  | |- Sat _ (gets _) => apply sat_gets; assumption
  | |- Sat _ (if ?b then _ else _) => case_eq b; intros ?
  | |- Sat _ (match ?x with _ => _ end) => destruct x
  | |- Sat _ _ => solve [eauto with sat]
  end.

Ltac sat_solve := repeat sat_step.

(** Functions built only from reads of the world satisfy every preorder. *)
Section ReadOnly.

Variable R : World -> World -> Prop.
Hypothesis R_refl : forall w, R w w.
Hypothesis R_trans : forall a b c, R a b -> R b c -> R a c.

Lemma sat_resolved s : Sat R (resolved s).
Proof using R_refl R_trans. unfold resolved; sat_solve. Qed.
Lemma sat_failing c : Sat R (failing c).
Proof using R_refl R_trans. unfold failing; sat_solve. Qed.
Lemma sat_lookup_node k : Sat R (lookup_node k).
Proof using R_refl R_trans. unfold lookup_node; sat_solve. Qed.
Lemma sat_get_glob : Sat R get_glob.
Proof using R_refl R_trans. unfold get_glob; sat_solve. Qed.
Lemma sat_sys_stat s : Sat R (sys_stat s).
Proof using R_refl R_trans. unfold sys_stat; sat_solve; eauto using sat_resolved, sat_lookup_node. Qed.
Lemma sat_stat_into s b : Sat R (stat_into s b).
Proof using R_refl R_trans. unfold stat_into; sat_solve; eauto using sat_sys_stat. Qed.
Lemma sat_sys_open_read s : Sat R (sys_open_read s).
Proof using R_refl R_trans. unfold sys_open_read; sat_solve; eauto using sat_resolved, sat_lookup_node, sat_failing. Qed.
Lemma sat_sys_read s o : Sat R (sys_read s o).
Proof using R_refl R_trans. unfold sys_read; sat_solve; eauto using sat_resolved, sat_lookup_node. Qed.
Lemma sat_sys_opendir s : Sat R (sys_opendir s).
Proof using R_refl R_trans. unfold sys_opendir; sat_solve; eauto using sat_resolved, sat_lookup_node, sat_failing. Qed.

End ReadOnly.

(** Events that are not a mutating file system call. *)
Definition benign (e : event) : bool :=
  match e with
  | ELog _ | ENanosleep _ _ | EUsleep _ | EPoll => true
  | _ => false
  end.

(** ** A relation kept by every step of the program is kept by the
    whole run.  The mutating calls other than [mkdir] are only needed
    when the run is not a test run. *)
Section Generic.

Variable giFaster giTestRun : bool.
Variable R : World -> World -> Prop.
Hypothesis R_refl : forall w, R w w.
Hypothesis R_trans : forall a b c, R a b -> R b c -> R a c.

Hypothesis H_emit : forall e, benign e = true -> Sat R (emit e).
Hypothesis H_mkdir : forall s m, Sat R (sys_mkdir s m).
Hypothesis H_unlink : giTestRun = false -> forall s, Sat R (sys_unlink s).
Hypothesis H_open_write : giTestRun = false -> forall s m, Sat R (sys_open_write s m).
Hypothesis H_write : giTestRun = false -> forall s b, Sat R (sys_write s b).
Hypothesis H_utimens : giTestRun = false -> forall s t, Sat R (sys_utimens s t).
Hypothesis H_throttle : giTestRun = false -> forall t0 t1 n, Sat R (update_throttle t0 t1 n).
Hypothesis H_select : Sat R sys_select_getchar.
Hypothesis H_clock : Sat R sys_clock_gettime.
Hypothesis H_err : forall s, Sat R (set_err s).
Hypothesis H_pav : forall v, Sat R (set_pause_after_verif v).
Hypothesis H_counts : forall a b c, Sat R (set_counts a b c).
Hypothesis H_guard : forall d i, Sat R (record_guard d i).

Lemma g_echo s : Sat R (EchoPrint s).
Proof. apply H_emit; reflexivity. Qed.
Lemma g_usleep u : Sat R (usleep u).
Proof. apply H_emit; reflexivity. Qed.
Lemma g_nanosleep a b : Sat R (nanosleep a b).
Proof. apply H_emit; reflexivity. Qed.

#[local] Hint Resolve g_echo g_usleep g_nanosleep H_mkdir H_unlink H_open_write
  H_write H_utimens H_throttle H_select H_clock H_err H_pav H_counts H_guard : sat.
#[local] Hint Resolve sat_resolved sat_failing sat_lookup_node sat_get_glob
  sat_sys_stat sat_stat_into sat_sys_open_read sat_sys_read sat_sys_opendir : sat.

Lemma g_kc_loop fuel p e : Sat R (kc_loop fuel p e).
Proof. revert p e; induction fuel; intros; simpl; sat_solve. Qed.
#[local] Hint Resolve g_kc_loop : sat.

Lemma g_KeyboardCheck fuel b : Sat R (KeyboardCheck fuel b).
Proof. unfold KeyboardCheck; sat_solve. Qed.
#[local] Hint Resolve g_KeyboardCheck : sat.

Lemma g_NanoTime : Sat R NanoTime.
Proof. unfold NanoTime; sat_solve. Qed.
#[local] Hint Resolve g_NanoTime : sat.

Lemma g_DirectoryExist s b : Sat R (DirectoryExist s b).
Proof. unfold DirectoryExist; sat_solve. Qed.
Lemma g_FilenameExist s b : Sat R (FilenameExist s b).
Proof. unfold FilenameExist; sat_solve. Qed.
#[local] Hint Resolve g_DirectoryExist g_FilenameExist : sat.

Lemma g_DirectoryValidate fuel s b : Sat R (DirectoryValidate fuel s b).
Proof. revert s b; induction fuel; intros; simpl; sat_solve. Qed.
#[local] Hint Resolve g_DirectoryValidate : sat.

Lemma g_fc_loop fuel s o c : Sat R (fc_loop fuel s o c).
Proof. revert o c; induction fuel; intros; simpl; sat_solve. Qed.
#[local] Hint Resolve g_fc_loop : sat.
Lemma g_FilenameChecksum fuel s : Sat R (FilenameChecksum fuel s).
Proof. unfold FilenameChecksum; sat_solve. Qed.
#[local] Hint Resolve g_FilenameChecksum : sat.

Lemma g_tcf_probe s d : Sat R (tcf_probe s d).
Proof. unfold tcf_probe; sat_solve. Qed.
Lemma g_tcf_precheck fuel s d e a b : Sat R (tcf_precheck giTestRun fuel s d e a b).
Proof. unfold tcf_precheck; sat_solve. Qed.
Lemma g_tcf_delete_dest d b l : Sat R (tcf_delete_dest giTestRun d b l).
Proof. unfold tcf_delete_dest; sat_solve. Qed.
#[local] Hint Resolve g_tcf_probe g_tcf_precheck g_tcf_delete_dest : sat.

Lemma g_tcf_copy_step d b c :
  giTestRun = false -> Sat R (tcf_copy_step giFaster d b c).
Proof. intros; unfold tcf_copy_step; sat_solve. Qed.
#[local] Hint Resolve g_tcf_copy_step : sat.

Lemma g_tcf_copy_loop fuel s d o c :
  giTestRun = false -> Sat R (tcf_copy_loop giFaster fuel s d o c).
Proof. intros; revert o c; induction fuel; intros; simpl; sat_solve. Qed.
#[local] Hint Resolve g_tcf_copy_loop : sat.

Lemma g_tcf_copy fuel s d st c : Sat R (tcf_copy giFaster giTestRun fuel s d st c).
Proof. unfold tcf_copy; sat_solve. Qed.
Lemma g_tcf_reverify fuel d e c : Sat R (tcf_reverify giTestRun fuel d e c).
Proof. unfold tcf_reverify; sat_solve. Qed.
#[local] Hint Resolve g_tcf_copy g_tcf_reverify : sat.

Lemma g_tcf_transfer fuel s d : Sat R (tcf_transfer giFaster giTestRun fuel s d).
Proof. unfold tcf_transfer; sat_solve. Qed.
Lemma g_tcf_delete_source m s d e : Sat R (tcf_delete_source giTestRun m s d e).
Proof. unfold tcf_delete_source; sat_solve. Qed.
Lemma g_tcf_bookkeeping fuel e : Sat R (tcf_bookkeeping giFaster fuel e).
Proof. unfold tcf_bookkeeping; sat_solve. Qed.
#[local] Hint Resolve g_tcf_transfer g_tcf_delete_source g_tcf_bookkeeping : sat.

Lemma g_TimedCopyFile fuel m s d : Sat R (TimedCopyFile giFaster giTestRun fuel m s d).
Proof. unfold TimedCopyFile; sat_solve. Qed.
#[local] Hint Resolve g_TimedCopyFile : sat.

Lemma g_tc_walk (entry : dirent -> M Z) es :
  (forall e, Sat R (entry e)) -> Sat R (tc_walk entry es).
Proof. intros He; induction es; simpl; sat_solve. Qed.

Lemma g_tc_entry fuel m sd dd rec e :
  (forall s d, Sat R (rec s d)) ->
  Sat R (tc_entry giFaster giTestRun fuel m sd dd rec e).
Proof. intros; unfold tc_entry; sat_solve. Qed.

Lemma g_tc_cleanup_walk sd dd es : Sat R (tc_cleanup_walk giTestRun sd dd es).
Proof. induction es; simpl; sat_solve. Qed.
#[local] Hint Resolve g_tc_cleanup_walk : sat.
Lemma g_tc_mirror_cleanup sd dd : Sat R (tc_mirror_cleanup giTestRun sd dd).
Proof. unfold tc_mirror_cleanup; sat_solve. Qed.
#[local] Hint Resolve g_tc_mirror_cleanup : sat.

Lemma g_TimedCopy fuel m sd sf dd df :
  Sat R (TimedCopy giFaster giTestRun fuel m sd sf dd df).
Proof.
  revert m sd sf dd df; induction fuel; intros; simpl; sat_solve.
  apply g_tc_walk; intros; apply g_tc_entry; intros; apply IHfuel.
Qed.

End Generic.

(** * Relations and predicates on worlds *)

(** Steps that keep the working directory and the failure oracle, and
    only append to the observable events. *)
Definition R_base (w w' : World) : Prop :=
  w_cwd w' = w_cwd w /\ w_fails w' = w_fails w /\ exists l, w_out w' = w_out w ++ l.

(** Events a test run may produce: those of [benign] and [mkdir]. *)
Definition dry_ok (e : event) : bool :=
  benign e || match e with EMkdir _ => true | _ => false end.

Definition is_dir (n : node) : bool :=
  match n with NDir _ _ _ => true | NReg _ _ _ _ _ _ => false end.

(** A test-run step: only [dry_ok] events, every existing object kept, and
    every new object a directory. *)
Definition R_dry (w w' : World) : Prop :=
  (exists l, w_out w' = w_out w ++ l /\ forallb dry_ok l = true)
  /\ (forall k n, fs_lookup k (w_fs w) = Some n -> fs_lookup k (w_fs w') = Some n)
  /\ (forall k n, fs_lookup k (w_fs w') = Some n ->
                  fs_lookup k (w_fs w) = Some n \/ is_dir n = true).

(** Events of [DirectoryValidate]: log lines and [mkdir] calls. *)
Definition dv_event (e : event) : bool :=
  match e with ELog _ | EMkdir _ => true | _ => false end.

(** A [R_dry] step whose events are all [dv_event]s. *)
Definition R_dv (w w' : World) : Prop :=
  R_dry w w' /\ exists l, w_out w' = w_out w ++ l /\ forallb dv_event l = true.

(** The throttle variables: [0 <= giNanoFastest <= giNanoPrev < 2^64], and
    [giNanoPrev] is 0 while no fastest duration is recorded. *)
Definition thr_inv (g : Globals) : Prop :=
  0 <= giNanoFastest g <= giNanoPrev g /\ giNanoPrev g < 2 ^ 64
  /\ (giNanoFastest g = 0 -> giNanoPrev g = 0).

Definition R_thr (w w' : World) : Prop := thr_inv (w_glob w) -> thr_inv (w_glob w').

(** The traversal guard, once set, does not change. *)
Definition guard_set (g : Globals) : Prop := giSt_dev g <> 0 \/ giSt_ino g <> 0.

Definition R_guard (w w' : World) : Prop :=
  guard_set (w_glob w) ->
  giSt_dev (w_glob w') = giSt_dev (w_glob w) /\ giSt_ino (w_glob w') = giSt_ino (w_glob w).

(** Events that create or fill a file. *)
Definition creates_file (e : event) : bool :=
  match e with EOpenW _ | EWrite _ _ => true | _ => false end.

(** Worlds agreeing on the object at [ks], for a fixed working directory. *)
Definition R_src (c ks : path) (w w' : World) : Prop :=
  w_cwd w = c ->
  w_cwd w' = c /\ w_fails w' = w_fails w /\ fs_lookup ks (w_fs w') = fs_lookup ks (w_fs w).

Definition R_fs (w w' : World) : Prop := w_fs w' = w_fs w.

(** The world [w] after the events [l]. *)
Definition add_outs (l : list event) (w : World) : World :=
  mkWorld (w_fs w) (w_cwd w) (w_next_ino w) (w_now w) (w_polls w) (w_clock w)
          (w_fails w) (w_glob w) (w_out w ++ l).

(** Directory entry names that are one path component. *)
Fixpoint no_slash (s : string) : bool :=
  match s with
  | EmptyString => true
  | String c r => negb (Ascii.eqb c "/"%char) && no_slash r
  end.

Definition name_okb (n : string) : bool :=
  negb (String.eqb n "") && negb (String.eqb n ".") && negb (String.eqb n "..") && no_slash n.

Definition is_reg (o : option node) : bool :=
  match o with Some (NReg _ _ _ _ _ _) => true | _ => false end.

(** [s] names an existing directory. *)
Definition dir_at (w : World) (s : string) : bool :=
  match fs_lookup (resolve (w_cwd w) s) (w_fs w) with Some n => is_dir n | None => false end.

(** [k] names an object directly inside the directory [kd]. *)
Definition is_child (kd k : path) : bool :=
  match k with [] => false | _ => path_eqb (removelast k) kd end.

Definition reg_entry (e : dirent) : bool := Z.land (d_type e) DT_REG =? DT_REG.


(** * Concrete worlds *)

(** Root is the working directory; nothing fails. *)
Definition mk_world (f : fsys) (polls : list (option Z)) (clock : list (Z * (Z * Z))) : World :=
  mkWorld f [] 100 (200, 0) polls clock (fun _ => false) globals0 [].

(** [s/f] and [d/f] with the same mtime, different sizes and contents. *)
Definition fs_c1 : fsys :=
  [([], NDir 1 2 493); (["s"], NDir 1 3 493); (["s"; "f"], NReg 1 4 420 [1; 2; 3] 100 5);
   (["d"], NDir 1 5 493); (["d"; "f"], NReg 1 6 420 [5] 100 5)].
Definition w_c1 : World := mk_world fs_c1 [] [].

(** A source tree with a sub-directory, a destination without it. *)
Definition fs_c3 : fsys :=
  [([], NDir 1 2 493); (["s"], NDir 1 3 493); (["s"; "f"], NReg 1 4 420 [1; 2; 3] 100 5);
   (["s"; "sub"], NDir 1 5 493); (["s"; "sub"; "g"], NReg 1 7 420 [9] 7 7);
   (["d"], NDir 1 6 493); (["d"; "x"], NReg 1 8 420 [1] 1 1)].
Definition w_c3 : World := mk_world fs_c3 [] [].

(** Clock readings that succeed. *)
Definition fs_c4 : fsys :=
  [([], NDir 1 2 493); (["d"], NDir 1 3 493); (["d"; "f"], NReg 1 4 420 [] 10 0)].
Definition w_c4 : World := mk_world fs_c4 [] [(0, (1, 0)); (0, (1, 500000))].


(** A source file and no destination file. *)
Definition fs_c6 : fsys :=
  [([], NDir 1 2 493); (["s"], NDir 1 3 493); (["s"; "f"], NReg 1 4 420 [1; 2; 3] 100 5);
   (["d"], NDir 1 5 493)].
Definition w_c6 : World := mk_world fs_c6 [] [].

(** Source [{a, b}], destination [{a, b, c}], [a] and [b] equal. *)
Definition fs_c8 : fsys :=
  [([], NDir 1 2 493); (["s"], NDir 1 3 493);
   (["s"; "a"], NReg 1 4 420 [1; 2] 10 0); (["s"; "b"], NReg 1 5 420 [3] 11 0);
   (["d"], NDir 1 6 493);
   (["d"; "a"], NReg 1 7 420 [1; 2] 10 0); (["d"; "b"], NReg 1 8 420 [3] 11 0);
   (["d"; "c"], NReg 1 9 420 [4] 12 0)].
Definition w_c8 : World := mk_world fs_c8 [] [].

(** Keyboard: nothing pending twice, then a space. *)
Definition w_c9 : World := mk_world [] [None; None; Some 32] [].

(** An empty source file with mtime (0, 0), no destination file. *)
Definition fs_c10 : fsys :=
  [([], NDir 1 2 493); (["s"], NDir 1 3 493); (["s"; "e"], NReg 1 4 420 [] 0 0);
   (["d"], NDir 1 5 493)].
Definition w_c10 : World := mk_world fs_c10 [] [].

(** Keyboard: a 'v' pending. *)
Definition w_key_v : World := mk_world [] [Some 118] [].

(** A regular file [f] in the working directory. *)
Definition fs_self : fsys := [([], NDir 1 2 493); (["f"], NReg 1 3 420 [1; 2] 10 0)].
Definition w_self : World := mk_world fs_self [] [].

(** A file of the working directory with a name of 250 characters. *)
Fixpoint repeat_char (n : nat) (c : ascii) : string :=
  match n with O => EmptyString | S n' => String c (repeat_char n' c) end.
Definition long_name : string := repeat_char 250 "a"%char.
Definition w_long : World :=
  mk_world [([], NDir 1 2 493); ([long_name], NReg 1 3 420 [1; 2] 10 0)] [] [].

(** 49 files copied since the last pause. *)
Definition w_count49 : World :=
  set_glob (mkGlobals 49 0 0 0 0 0 0 0 "") (mk_world [] [] []).

(** * Lemmas *)


Lemma path_eqb_true p q : path_eqb p q = true <-> p = q.
Proof. unfold path_eqb; destruct (list_eq_dec string_dec p q); split; congruence. Qed.

Lemma path_eqb_refl p : path_eqb p p = true.
Proof. apply path_eqb_true; reflexivity. Qed.

Lemma path_eqb_false p q : p <> q -> path_eqb p q = false.
Proof. intros H; destruct (path_eqb p q) eqn:E; [apply path_eqb_true in E; congruence | reflexivity]. Qed.

Lemma fs_lookup_remove k k' f :
  fs_lookup k' (fs_remove k f) = if path_eqb k' k then None else fs_lookup k' f.
Proof.
  induction f as [|[k1 n1] f IH]; simpl.
  - destruct (path_eqb k' k); reflexivity.
  - destruct (path_eqb k k1) eqn:E1; simpl.
    + apply path_eqb_true in E1; subst k1. rewrite IH.
      destruct (path_eqb k' k); reflexivity.
    + rewrite IH. destruct (path_eqb k' k1) eqn:E2; [|reflexivity].
      apply path_eqb_true in E2; subst k1.
      destruct (path_eqb k' k) eqn:E3; [|reflexivity].
      apply path_eqb_true in E3; subst k'. rewrite path_eqb_refl in E1; discriminate.
Qed.

Lemma fs_lookup_map_set k n k' f :
  fs_lookup k' (map (fun kn => if path_eqb k (fst kn) then (k, n) else kn) f)
  = match fs_lookup k f with
    | Some _ => if path_eqb k' k then Some n else fs_lookup k' f
    | None => fs_lookup k' f
    end.
Proof.
  induction f as [|[k1 n1] f IH]; simpl; [reflexivity|].
  destruct (path_eqb k k1) eqn:E1; simpl.
  - apply path_eqb_true in E1; subst k1. rewrite ?path_eqb_refl.
    destruct (path_eqb k' k) eqn:E; [reflexivity|].
    rewrite IH; destruct (fs_lookup k f); rewrite ?E; reflexivity.
  - rewrite IH. destruct (path_eqb k' k1) eqn:E2.
    + apply path_eqb_true in E2; subst k1.
      destruct (fs_lookup k f); [|reflexivity].
      destruct (path_eqb k' k) eqn:E3; [|reflexivity].
      apply path_eqb_true in E3; subst k'. rewrite path_eqb_refl in E1; discriminate.
    + reflexivity.
Qed.

Lemma fs_lookup_app k l1 l2 :
  fs_lookup k (l1 ++ l2) = match fs_lookup k l1 with Some n => Some n | None => fs_lookup k l2 end.
Proof.
  induction l1 as [|[k1 n1] l1 IH]; simpl; [reflexivity|].
  destruct (path_eqb k k1); [reflexivity | exact IH].
Qed.

Lemma fs_lookup_set k n k' f :
  fs_lookup k' (fs_set k n f) = if path_eqb k' k then Some n else fs_lookup k' f.
Proof.
  unfold fs_set. destruct (fs_lookup k f) eqn:E.
  - rewrite fs_lookup_map_set, E. reflexivity.
  - rewrite fs_lookup_app. destruct (fs_lookup k' f) eqn:E'.
    + destruct (path_eqb k' k) eqn:E2; [|reflexivity].
      apply path_eqb_true in E2; subst; congruence.
    + simpl. destruct (path_eqb k' k); reflexivity.
Qed.

Lemma bind_run {A B} (m : M A) (f : A -> M B) w a w1 :
  m w = (Some a, w1) -> bind m f w = f a w1.
Proof. intros H; unfold bind; rewrite H; reflexivity. Qed.

Lemma bind_stop {A B} (m : M A) (f : A -> M B) w w1 :
  m w = (None, w1) -> bind m f w = (None, w1).
Proof. intros H; unfold bind; rewrite H; reflexivity. Qed.

(** Opening a primitive: its definition, down to the world. *)
Ltac open_prim :=
  unfold sys_mkdir, sys_unlink, sys_open_write, sys_write, sys_utimens,
    update_throttle, sys_select_getchar, sys_clock_gettime, set_err,
    set_pause_after_verif, set_counts, set_throttle, record_guard, set_guard,
    EchoPrint, usleep, nanosleep,
    emit, update_fs, fresh_ino, put_glob, get_glob, resolved, failing,
    lookup_node, bind, ret, gets, modify;
  cbn -[fs_set fs_remove resolve];
  repeat match goal with
         | |- context [match ?x with _ => _ end] =>
             lazymatch x with
             | context [match _ with _ => _ end] => fail
             | _ => destruct x eqn:?
             end
         end; cbn -[fs_set fs_remove resolve] in *.


Lemma R_base_refl w : R_base w w.
Proof. repeat split; exists []; rewrite app_nil_r; reflexivity. Qed.
Lemma R_base_trans a b c : R_base a b -> R_base b c -> R_base a c.
Proof.
  intros (H1 & H2 & l1 & H3) (H4 & H5 & l2 & H6); repeat split; try congruence.
  exists (l1 ++ l2); rewrite H6, H3, app_assoc; reflexivity.
Qed.

Ltac base_tac :=
  unfold R_base; cbn; repeat split;
  first [ exists []; rewrite ?app_nil_r; reflexivity
        | eexists; rewrite <- ?app_assoc; reflexivity ].

Lemma base_TimedCopy gF gT fuel m sd sf dd df :
  Sat R_base (TimedCopy gF gT fuel m sd sf dd df).
Proof.
  apply g_TimedCopy; [exact R_base_refl | exact R_base_trans | ..];
    unfold Sat; intros; open_prim; base_tac.
Qed.




Lemma R_dry_refl w : R_dry w w.
Proof. split; [exists []; rewrite app_nil_r; split; reflexivity | split; auto]. Qed.
Lemma R_dry_trans a b c : R_dry a b -> R_dry b c -> R_dry a c.
Proof.
  intros [(l1 & H1 & F1) [P1 Q1]] [(l2 & H2 & F2) [P2 Q2]]; split; [|split; [auto|]].
  - exists (l1 ++ l2); rewrite H2, H1, app_assoc, forallb_app, F1, F2; split; reflexivity.
  - intros k n Hk. destruct (Q2 k n Hk) as [Hb|Hd]; [apply Q1, Hb | right; exact Hd].
Qed.

Ltac fs_keep_tac :=
  intros ?k ?n ?Hk; cbn; rewrite ?fs_lookup_set, ?fs_lookup_remove;
  repeat match goal with
         | |- context [path_eqb ?a ?b] =>
             let E := fresh "E" in
             destruct (path_eqb a b) eqn:E; [apply path_eqb_true in E; subst|]
         end; congruence.

Ltac fs_new_dir_tac :=
  intros ?k ?n ?Hk; cbn in Hk; rewrite ?fs_lookup_set in Hk;
  repeat match type of Hk with
         | context [path_eqb ?a ?b] =>
             let E := fresh "E" in
             destruct (path_eqb a b) eqn:E; [injection Hk as <-; right; reflexivity|]
         end; left; exact Hk.

Ltac dry_tac :=
  unfold R_dry; cbn; split;
  [ first [ exists []; rewrite app_nil_r; split; reflexivity
          | eexists; rewrite <- ?app_assoc; split; [reflexivity|];
            cbn; unfold dry_ok;
            repeat match goal with Hb : benign _ = true |- _ => rewrite Hb end;
            reflexivity ]
  | split; [fs_keep_tac | fs_new_dir_tac] ].

Lemma dry_TimedCopy gF fuel m sd sf dd df :
  Sat R_dry (TimedCopy gF true fuel m sd sf dd df).
Proof.
  apply g_TimedCopy; [exact R_dry_refl | exact R_dry_trans | ..];
    unfold Sat; intros; try discriminate; open_prim; dry_tac.
Qed.



Lemma u64_range x : 0 <= u64 x < 2 ^ 64.
Proof. unfold u64; apply Z.mod_pos_bound; lia. Qed.

Lemma normalize_duration_range d n :
  0 <= d < 2 ^ 64 -> 0 <= normalize_duration d n < 2 ^ 64.
Proof.
  intros Hd; unfold normalize_duration.
  destruct (n =? LNBIGBUFFER); [exact Hd|].
  pose proof (u64_range (d * LNBIGBUFFER)) as Ha; pose proof (u64_range n) as Hb.
  set (a := u64 (d * LNBIGBUFFER)) in *; set (b := u64 n) in *.
  destruct (Z.eq_dec b 0) as [->|Hb0]; [rewrite Z.div_0_r; lia|].
  assert (0 <= a / b) by (apply Z.div_pos; lia).
  assert (a / b * b <= a) by (rewrite Z.mul_comm; apply Z.mul_div_le; lia).
  nia.
Qed.

Lemma thr_inv_update g t0 t1 n :
  thr_inv g ->
  let prev := normalize_duration (u64 (t1 - t0)) n in
  let f := next_fastest (giNanoFastest g) prev in
  0 <= f <= prev /\ prev < 2 ^ 64 /\ (f = 0 -> prev = 0).
Proof.
  intros (H1 & H2 & H3) prev f.
  pose proof (normalize_duration_range (u64 (t1 - t0)) n (u64_range _)) as Hp.
  fold prev in Hp. unfold f, next_fastest.
  destruct (giNanoFastest g =? 0) eqn:E0; simpl.
  - lia.
  - destruct (prev <? giNanoFastest g) eqn:E1.
    + lia.
    + apply Z.eqb_neq in E0; apply Z.ltb_ge in E1. lia.
Qed.

Lemma thr_TimedCopy gF gT fuel m sd sf dd df :
  Sat R_thr (TimedCopy gF gT fuel m sd sf dd df).
Proof.
  apply g_TimedCopy; [intros w H; exact H | intros a b c Hab Hbc H; auto | ..];
    unfold Sat, R_thr; intros; open_prim; try assumption.
  all: try (apply (thr_inv_update _ t0 t1 n); assumption).
Qed.



Lemma guard_TimedCopy gF gT fuel m sd sf dd df :
  Sat R_guard (TimedCopy gF gT fuel m sd sf dd df).
Proof.
  apply g_TimedCopy;
    [intros w H; split; reflexivity
    | intros a b c Hab Hbc H; destruct (Hab H) as [E1 E2];
      unfold guard_set in *; rewrite <- E1, <- E2 in H; destruct (Hbc H); split; congruence
    | ..];
    unfold Sat, R_guard; intros; open_prim; try (split; reflexivity).
  apply andb_true_iff in Heqb; destruct Heqb as [E1 E2];
    apply Z.eqb_eq in E1, E2; unfold guard_set in H; lia.
Qed.

Ltac guard_prim :=
  unfold Sat, R_guard; intros; open_prim; try (split; reflexivity);
  lazymatch goal with
  | E : (_ =? 0) && (_ =? 0) = true |- _ =>
      apply andb_true_iff in E; destruct E as [E1 E2];
      apply Z.eqb_eq in E1, E2; unfold guard_set in *; lia
  | |- ?g => fail 100 "left" g
  end.

Lemma R_guard_refl w : R_guard w w.
Proof. intros _; split; reflexivity. Qed.
Lemma R_guard_trans a b c : R_guard a b -> R_guard b c -> R_guard a c.
Proof.
  intros Hab Hbc H; destruct (Hab H) as [E1 E2];
    unfold guard_set in *; rewrite <- E1, <- E2 in H; destruct (Hbc H); split; congruence.
Qed.

Lemma guard_TimedCopyFile gF gT fuel m s d : Sat R_guard (TimedCopyFile gF gT fuel m s d).
Proof. apply g_TimedCopyFile; [exact R_guard_refl | exact R_guard_trans | ..]; guard_prim. Qed.

Lemma guard_tc_mirror_cleanup gT sd dd : Sat R_guard (tc_mirror_cleanup gT sd dd).
Proof.
  apply g_tc_mirror_cleanup; [exact R_guard_refl | exact R_guard_trans | ..]; guard_prim.
Qed.

Lemma guard_tc_walk gF gT fuel m sd dd es :
  Sat R_guard (tc_walk (tc_entry gF gT fuel m sd dd
                          (fun s d => TimedCopy gF gT fuel m s "" d "")) es).
Proof.
  apply g_tc_walk; [exact R_guard_refl | exact R_guard_trans | ..];
    [guard_prim ..|].
  intros e. apply g_tc_entry; [exact R_guard_refl | exact R_guard_trans | ..];
    [guard_prim ..|].
  intros; apply guard_TimedCopy.
Qed.


Lemma land_lor_same a b : Z.land (Z.lor a b) a = a.
Proof.
  apply Z.bits_inj'; intros n _. rewrite Z.land_spec, Z.lor_spec.
  destruct (Z.testbit a n); [reflexivity | apply andb_false_r].
Qed.

Lemma sys_stat_run s w :
  sys_stat s w = (Some (option_map stat_of_node (fs_lookup (resolve (w_cwd w) s) (w_fs w))), w).
Proof. reflexivity. Qed.

Lemma DirectoryExist_dir s b w d i p :
  fs_lookup (resolve (w_cwd w) s) (w_fs w) = Some (NDir d i p) ->
  DirectoryExist s b w = (Some (true, stat_of_node (NDir d i p)), w).
Proof.
  intros H. unfold DirectoryExist. rewrite (bind_run _ _ _ _ _ (sys_stat_run s w)), H.
  cbn [option_map stat_of_node st_mode]. rewrite land_lor_same. reflexivity.
Qed.

Lemma FilenameExist_reg s b w d i p data sec nsec :
  fs_lookup (resolve (w_cwd w) s) (w_fs w) = Some (NReg d i p data sec nsec) ->
  FilenameExist s b w = (Some (true, stat_of_node (NReg d i p data sec nsec)), w).
Proof.
  intros H. unfold FilenameExist. rewrite (bind_run _ _ _ _ _ (sys_stat_run s w)), H.
  cbn [option_map stat_of_node st_mode]. rewrite land_lor_same. reflexivity.
Qed.

Lemma FilenameExist_none s b w :
  fs_lookup (resolve (w_cwd w) s) (w_fs w) = None ->
  FilenameExist s b w = (Some (false, b), w).
Proof.
  intros H. unfold FilenameExist. rewrite (bind_run _ _ _ _ _ (sys_stat_run s w)), H.
  reflexivity.
Qed.

Lemma TimedCopy_circular gF gT fuel m sd sf dd df w d i p :
  String.eqb sd dd = false ->
  fs_lookup (resolve (w_cwd w) sd) (w_fs w) = Some (NDir d i p) ->
  giSt_dev (w_glob w) = d -> giSt_ino (w_glob w) = i ->
  TimedCopy gF gT (S fuel) m sd sf dd df w = (Some ERROR_TCPY_CIRC, w).
Proof.
  intros Hsd Hl Hd Hi. cbn [TimedCopy]. rewrite Hsd. cbn [negb].
  rewrite (bind_run _ _ _ _ _ (DirectoryExist_dir _ stat0 _ _ _ _ Hl)).
  unfold get_glob, bind, gets, ret. cbn -[Z.land Z.lor]. rewrite Hd, Hi, !Z.eqb_refl. reflexivity.
Qed.



Lemma tcf_probe_reg_none src dst w d i p data sec nsec :
  fs_lookup (resolve (w_cwd w) src) (w_fs w) = Some (NReg d i p data sec nsec) ->
  fs_lookup (resolve (w_cwd w) dst) (w_fs w) = None ->
  tcf_probe src dst w
  = (Some (0, stat_of_node (NReg d i p data sec nsec), false, zero_size_times stat0), w).
Proof.
  intros Hs Hd. unfold tcf_probe.
  rewrite (bind_run _ _ _ _ _ (FilenameExist_reg _ stat0 _ _ _ _ _ _ _ Hs)).
  cbv beta iota. unfold bind at 1, ret at 1. cbv beta iota.
  rewrite (bind_run _ _ _ _ _ (FilenameExist_none _ stat0 _ Hd)). reflexivity.
Qed.

Lemma tcf_bookkeeping_ok gF fuel w :
  giPauseAfterVerif (w_glob w) = 0 ->
  exists w', tcf_bookkeeping gF fuel 0 w = (Some 0, w') /\ w_fs w' = w_fs w
             /\ exists l, w_out w' = w_out w ++ l /\ forallb benign l = true.
Proof.
  intros H. unfold tcf_bookkeeping. cbn [Z.eqb].
  unfold get_glob, set_counts, set_pause_after_verif, put_glob, EchoPrint, usleep,
    emit, modify, gets, bind, ret. cbn -[z_to_string Z.mul Z.div].
  rewrite H. cbn -[z_to_string Z.mul Z.div].
  repeat match goal with |- context [if ?b then _ else _] => destruct b end.
  all: eexists; (split; [reflexivity|]); (split; [reflexivity|]);
    cbn; rewrite <- ?app_assoc;
    first [ exists []; rewrite app_nil_r; split; reflexivity
          | eexists; split; reflexivity ].
Qed.

Lemma EchoPrint_run s w : EchoPrint s w = (Some tt, add_out (ELog s) w).
Proof. reflexivity. Qed.

Lemma sys_unlink_reg s w d i p data sec nsec :
  fs_lookup (resolve (w_cwd w) s) (w_fs w) = Some (NReg d i p data sec nsec) ->
  w_fails w (SUnlink (resolve (w_cwd w) s)) = false ->
  sys_unlink s w
  = (Some true, set_fs (fs_remove (resolve (w_cwd w) s) (w_fs w)) (add_out (EUnlink s) w)).
Proof.
  intros Hl Hf. unfold sys_unlink, emit, modify, resolved, failing, lookup_node, gets, bind, ret, update_fs.
  cbn -[resolve fs_remove]. rewrite Hf, Hl. reflexivity.
Qed.

Lemma tcf_transfer_empty_absent gF gT fuel src dst w d i p :
  fs_lookup (resolve (w_cwd w) src) (w_fs w) = Some (NReg d i p [] 0 0) ->
  fs_lookup (resolve (w_cwd w) dst) (w_fs w) = None ->
  tcf_transfer gF gT fuel src dst w = (Some 0, w).
Proof.
  intros Hs Hd. unfold tcf_transfer.
  rewrite (bind_run _ _ _ _ _ (tcf_probe_reg_none _ _ _ _ _ _ _ _ _ Hs Hd)).
  reflexivity.
Qed.

Lemma tcf_delete_source_move_ok src dst w d i p data sec nsec :
  fs_lookup (resolve (w_cwd w) src) (w_fs w) = Some (NReg d i p data sec nsec) ->
  w_fails w (SUnlink (resolve (w_cwd w) src)) = false ->
  tcf_delete_source false TCPY_MODE_DEL src dst 0 w
  = (Some 0, set_fs (fs_remove (resolve (w_cwd w) src) (w_fs w))
                    (add_out (EUnlink src) (add_out (ELog ("Delete " ^^ src)) w))).
Proof.
  intros Hl Hf. unfold tcf_delete_source. cbn [Z.eqb andb TCPY_MODE_DEL Pos.eqb].
  rewrite (bind_run _ _ _ _ _ (EchoPrint_run _ _)); cbv beta iota.
  rewrite (bind_run _ _ _ _ _
             (sys_unlink_reg src (add_out (ELog ("Delete " ^^ src)) w) _ _ _ _ _ _ Hl Hf)).
  reflexivity.
Qed.


Section OnDest.

Variable giFaster giTestRun : bool.
Variable dst : string.
Variable R : World -> World -> Prop.
Hypothesis R_refl : forall w, R w w.
Hypothesis R_trans : forall a b c, R a b -> R b c -> R a c.

Hypothesis H_emit : forall e, benign e = true -> Sat R (emit e).
Hypothesis H_unlink : giTestRun = false -> Sat R (sys_unlink dst).
Hypothesis H_open_write : giTestRun = false -> forall m, Sat R (sys_open_write dst m).
Hypothesis H_write : giTestRun = false -> forall b, Sat R (sys_write dst b).
Hypothesis H_utimens : giTestRun = false -> forall t, Sat R (sys_utimens dst t).
Hypothesis H_throttle : giTestRun = false -> forall t0 t1 n, Sat R (update_throttle t0 t1 n).
Hypothesis H_select : Sat R sys_select_getchar.
Hypothesis H_clock : Sat R sys_clock_gettime.
Hypothesis H_err : forall s, Sat R (set_err s).
Hypothesis H_pav : forall v, Sat R (set_pause_after_verif v).
Hypothesis H_counts : forall a b c, Sat R (set_counts a b c).

Lemma d_echo s : Sat R (EchoPrint s).
Proof. apply H_emit; reflexivity. Qed.
Lemma d_nanosleep a b : Sat R (nanosleep a b).
Proof. apply H_emit; reflexivity. Qed.

#[local] Hint Resolve d_echo d_nanosleep H_unlink H_open_write H_write H_utimens
  H_throttle H_select H_clock H_err H_pav H_counts : sat.
#[local] Hint Resolve sat_resolved sat_failing sat_lookup_node sat_get_glob
  sat_sys_stat sat_stat_into sat_sys_open_read sat_sys_read sat_sys_opendir : sat.
#[local] Hint Resolve g_KeyboardCheck g_NanoTime g_FilenameChecksum g_tcf_probe
  g_tcf_precheck : sat.

Lemma d_tcf_delete_dest b l : Sat R (tcf_delete_dest giTestRun dst b l).
Proof. unfold tcf_delete_dest; sat_solve. Qed.
Lemma d_tcf_copy_step b c :
  giTestRun = false -> Sat R (tcf_copy_step giFaster dst b c).
Proof. intros; unfold tcf_copy_step; sat_solve. Qed.
#[local] Hint Resolve d_tcf_delete_dest d_tcf_copy_step : sat.
Lemma d_tcf_copy_loop fuel s o c :
  giTestRun = false -> Sat R (tcf_copy_loop giFaster fuel s dst o c).
Proof. intros; revert o c; induction fuel; intros; simpl; sat_solve. Qed.
#[local] Hint Resolve d_tcf_copy_loop : sat.
Lemma d_tcf_copy fuel s st c : Sat R (tcf_copy giFaster giTestRun fuel s dst st c).
Proof. unfold tcf_copy; sat_solve. Qed.
Lemma d_tcf_reverify fuel e c : Sat R (tcf_reverify giTestRun fuel dst e c).
Proof. unfold tcf_reverify; sat_solve. Qed.
#[local] Hint Resolve d_tcf_copy d_tcf_reverify : sat.
Lemma d_tcf_transfer fuel s : Sat R (tcf_transfer giFaster giTestRun fuel s dst).
Proof. unfold tcf_transfer; sat_solve. Qed.

End OnDest.


Lemma R_src_refl c ks w : R_src c ks w w.
Proof. intros H; auto. Qed.
Lemma R_src_trans c ks a b d : R_src c ks a b -> R_src c ks b d -> R_src c ks a d.
Proof.
  intros H1 H2 Ha. destruct (H1 Ha) as (Hb & F1 & L1). destruct (H2 Hb) as (Hd & F2 & L2).
  repeat split; congruence.
Qed.


Lemma src_transfer gF fuel src dst c :
  resolve c dst <> resolve c src ->
  Sat (R_src c (resolve c src)) (tcf_transfer gF false fuel src dst).
Proof.
  intros Hne.
  apply d_tcf_transfer; [apply R_src_refl | apply R_src_trans | ..];
    unfold Sat, R_src; intros; open_prim;
    match goal with Hc : w_cwd _ = c |- _ => rewrite ?Hc in * end;
    repeat split; try assumption;
    rewrite ?fs_lookup_set, ?fs_lookup_remove, ?path_eqb_false by congruence;
    reflexivity.
Qed.

Lemma src_TimedCopyFile_error gF fuel src dst w e w1 :
  resolve (w_cwd w) dst <> resolve (w_cwd w) src ->
  tcf_transfer gF false fuel src dst w = (Some e, w1) ->
  e <> 0 ->
  TimedCopyFile gF false fuel TCPY_MODE_DEL src dst w = (Some e, w1)
  /\ fs_lookup (resolve (w_cwd w) src) (w_fs w1) = fs_lookup (resolve (w_cwd w) src) (w_fs w).
Proof.
  intros Hne Ht He. split.
  - unfold TimedCopyFile. rewrite (bind_run _ _ _ _ _ Ht).
    unfold tcf_delete_source, tcf_bookkeeping.
    apply Z.eqb_neq in He. rewrite He. cbn [andb]. unfold bind at 1, ret at 1.
    cbv beta iota. unfold bind, ret. rewrite He. reflexivity.
  - specialize (src_transfer gF fuel src dst (w_cwd w) Hne w); rewrite Ht.
    intros HS; apply (HS eq_refl).
Qed.

Lemma FilenameExist_run s b w :
  FilenameExist s b w
  = (Some (match fs_lookup (resolve (w_cwd w) s) (w_fs w) with
           | Some n => (negb (Z.land (st_mode (stat_of_node n)) S_IFREG =? 0), stat_of_node n)
           | None => (false, b)
           end), w).
Proof.
  unfold FilenameExist. rewrite (bind_run _ _ _ _ _ (sys_stat_run s w)).
  destruct (fs_lookup (resolve (w_cwd w) s) (w_fs w)); reflexivity.
Qed.

Lemma dir_not_reg p : Z.land (Z.lor S_IFDIR (Z.land p 4095)) S_IFREG = 0.
Proof.
  rewrite Z.land_lor_distr_l, <- Z.land_assoc. change (Z.land 4095 S_IFREG) with 0.
  rewrite Z.land_0_r. reflexivity.
Qed.

Lemma tcf_probe_no_source src dst w :
  (forall d i p data sec nsec,
     fs_lookup (resolve (w_cwd w) src) (w_fs w) <> Some (NReg d i p data sec nsec)) ->
  exists sS ex sD w', tcf_probe src dst w = (Some (ERROR_TCPY, sS, ex, sD), w').
Proof.
  intros Hn. unfold tcf_probe.
  rewrite (bind_run _ _ _ _ _ (FilenameExist_run src stat0 w)).
  destruct (fs_lookup (resolve (w_cwd w) src) (w_fs w)) as [[d i p|d i p data sec nsec]|];
    [| exfalso; eapply Hn; reflexivity |]; cbv beta iota;
    cbn [stat_of_node st_mode]; rewrite ?dir_not_reg; cbn [Z.eqb negb].
  all: unfold set_err, get_glob, put_glob, gets, modify, bind, ret; cbv beta iota zeta.
  all: rewrite FilenameExist_run; cbv beta iota zeta.
  all: match goal with |- context [match ?x with _ => _ end] => destruct x end.
  all: do 4 eexists; reflexivity.
Qed.

Lemma tcf_transfer_ok_source gF gT fuel src dst w w1 :
  tcf_transfer gF gT fuel src dst w = (Some 0, w1) ->
  exists d i p data sec nsec,
    fs_lookup (resolve (w_cwd w) src) (w_fs w) = Some (NReg d i p data sec nsec).
Proof.
  intros Ht.
  destruct (fs_lookup (resolve (w_cwd w) src) (w_fs w)) as [[d i p|d i p data sec nsec]|] eqn:E;
    [| eauto 7 |].
  all: exfalso; destruct (tcf_probe_no_source src dst w) as (sS & ex & sD & w' & Hp);
    [intros; rewrite E; discriminate|].
  all: revert Ht; unfold tcf_transfer; rewrite (bind_run _ _ _ _ _ Hp); cbv beta iota.
  all: unfold tcf_precheck; cbn [Z.eqb andb ERROR_TCPY]; unfold bind at 1, ret at 1; cbv beta iota.
  all: unfold ret; discriminate.
Qed.

Lemma fs_bookkeeping gF fuel e : Sat R_fs (tcf_bookkeeping gF fuel e).
Proof.
  apply g_tcf_bookkeeping; [intros w; reflexivity | unfold R_fs; intros a b c H1 H2; congruence | ..];
    unfold Sat, R_fs; intros; open_prim; reflexivity.
Qed.


Lemma u64_id x : 0 <= x < 2 ^ 64 -> u64 x = x.
Proof. intros; unfold u64; apply Z.mod_small; assumption. Qed.

Lemma throttle_delay_facts g n :
  thr_inv g -> 0 < n <= LNBIGBUFFER ->
  let d := throttle_delay (giNanoPrev g) (giNanoFastest g) n in
  u64 (giNanoPrev g - giNanoFastest g) = giNanoPrev g - giNanoFastest g
  /\ 0 <= d
  /\ (giNanoFastest g = 0 -> d = 0)
  /\ (n = LNBIGBUFFER -> d = giNanoPrev g - giNanoFastest g)
  /\ ((giNanoPrev g - giNanoFastest g) * n < 2 ^ 64 ->
      d = (giNanoPrev g - giNanoFastest g) * n / LNBIGBUFFER).
Proof.
  intros (H1 & H2 & H3) Hn d.
  assert (Hs : u64 (giNanoPrev g - giNanoFastest g) = giNanoPrev g - giNanoFastest g)
    by (apply u64_id; lia).
  assert (Hn' : u64 n = n) by (apply u64_id; unfold LNBIGBUFFER in *; lia).
  unfold d, throttle_delay. rewrite Hs, Hn'.
  split; [reflexivity|]. split; [|split; [|split]].
  - destruct (n =? LNBIGBUFFER); [lia|].
    apply Z.div_pos; [apply u64_range | unfold LNBIGBUFFER; lia].
  - intros H0. rewrite H0, (H3 H0). destruct (n =? LNBIGBUFFER); reflexivity.
  - intros ->. rewrite Z.eqb_refl. reflexivity.
  - intros Hp. destruct (n =? LNBIGBUFFER) eqn:E.
    + apply Z.eqb_eq in E. subst n. unfold LNBIGBUFFER. rewrite Z.div_mul by lia. reflexivity.
    + rewrite u64_id by nia. reflexivity.
Qed.

Lemma tcf_copy_step_events gF dst buf chk w :
  let g := w_glob w in
  let d := throttle_delay (giNanoPrev g) (giNanoFastest g) (Z.of_nat (List.length buf)) in
  w_out (snd (tcf_copy_step gF dst buf chk w))
  = w_out w ++ (if gF then [] else [ENanosleep (d / ONESECINNANO) (d mod ONESECINNANO)])
            ++ [EWrite dst (Z.of_nat (List.length buf))].
Proof.
  intros g d. unfold tcf_copy_step, NanoTime.
  open_prim. all: destruct gF; cbn; rewrite <- ?app_assoc; reflexivity.
Qed.

Open Scope Z_scope.

Lemma testbit_high c n : 0 <= c < 2 ^ 32 -> 32 <= n -> Z.testbit c n = false.
Proof.
  intros Hc Hn. destruct (Z.eq_dec c 0) as [->|Hc0]; [apply Z.bits_0|].
  apply Z.bits_above_log2; [lia|].
  assert (Z.log2 c < 32) by (apply Z.log2_lt_pow2; lia). lia.
Qed.

Lemma ChecksumStepW_32 c b :
  0 <= c < 2 ^ 32 -> ChecksumStepW 32 c b = spec_checksum_step c b.
Proof.
  intros Hc. unfold ChecksumStepW, spec_checksum_step, rotl32.
  set (x := Z.lxor c (Z.land b 255)).
  assert (Hx : forall n, 0 <= n -> Z.testbit x n = xorb (Z.testbit c n) (Z.testbit b n && (n <? 8))).
  { intros n Hn. subst x. rewrite Z.lxor_spec, Z.land_spec.
    change 255 with (Z.ones 8). rewrite Z.testbit_ones_nonneg by lia. reflexivity. }
  assert (E1 : (Z.land c 2147483648 =? 0) = negb (Z.testbit c 31)).
  { change 2147483648 with (2 ^ 31).
    destruct (Z.testbit c 31) eqn:T; cbn [negb].
    - apply Z.eqb_neq; intros H0.
      assert (Z.testbit (Z.land c (2 ^ 31)) 31 = true)
        by (rewrite Z.land_spec, Z.pow2_bits_true by lia; rewrite T; reflexivity).
      rewrite H0, Z.bits_0 in H; discriminate.
    - apply Z.eqb_eq. apply Z.bits_inj'; intros n Hn.
      rewrite Z.land_spec, Z.pow2_bits_eqb, Z.bits_0 by lia.
      destruct (Z.eqb_spec 31 n); [subst; rewrite T; reflexivity | apply andb_false_r]. }
  assert (E2 : Z.shiftr x 31 = if Z.testbit c 31 then 1 else 0).
  { apply Z.bits_inj'; intros n Hn.
    rewrite Z.shiftr_spec, Hx by lia.
    destruct (Z.eq_dec n 0) as [->|Hn0].
    - replace (0 + 31) with 31 by lia.
      rewrite (proj2 (Z.ltb_ge _ _)) by lia. rewrite andb_false_r, xorb_false_r.
      destruct (Z.testbit c 31); reflexivity.
    - rewrite testbit_high, (proj2 (Z.ltb_ge _ _)) by lia. rewrite andb_false_r.
      destruct n as [|p|p]; try lia. destruct (Z.testbit c 31); simpl; reflexivity. }
  rewrite E1, E2. destruct (Z.testbit c 31); simpl; [reflexivity|].
  rewrite Z.lor_0_r; reflexivity.
Qed.

Lemma ChecksumStepW_32_range c b : 0 <= ChecksumStepW 32 c b < 2 ^ 32.
Proof.
  unfold ChecksumStepW.
  assert (H2 : 0 <= Z.land (Z.shiftl (Z.lxor c (Z.land b 255)) 1) (Z.ones (Z.of_nat 32)) < 2 ^ 32).
  { rewrite Z.land_ones by lia. apply Z.mod_pos_bound. lia. }
  destruct (_ =? 0); [exact H2|].
  set (c2 := Z.land _ _) in *.
  split; [apply Z.lor_nonneg; lia|].
  destruct (Z.eq_dec c2 0) as [->|Hc2]; [reflexivity|].
  assert (Hp : 0 < Z.lor c2 1).
  { assert (0 <= Z.lor c2 1) by (apply Z.lor_nonneg; lia).
    destruct (Z.eq_dec (Z.lor c2 1) 0) as [E|]; [apply Z.lor_eq_0_iff in E; lia | lia]. }
  apply Z.log2_lt_pow2; [exact Hp|].
  rewrite Z.log2_lor by lia.
  assert (Z.log2 c2 < 32) by (apply Z.log2_lt_pow2; lia).
  simpl (Z.log2 1). lia.
Qed.

Lemma ChecksumAddW_32_spec buf : ChecksumAddW 32 buf 0 = spec_checksum buf.
Proof.
  unfold ChecksumAddW, spec_checksum.
  assert (G : forall c, 0 <= c < 2 ^ 32 ->
            fold_left (ChecksumStepW 32) buf c = fold_left spec_checksum_step buf c).
  { induction buf as [|b buf IH]; intros c Hc; simpl; [reflexivity|].
    rewrite <- ChecksumStepW_32 by exact Hc. apply IH, ChecksumStepW_32_range. }
  apply G; lia.
Qed.


Lemma add_outs_app l1 l2 w : add_outs l2 (add_outs l1 w) = add_outs (l1 ++ l2) w.
Proof. unfold add_outs; cbn; rewrite app_assoc; reflexivity. Qed.

Lemma add_out_outs e w : add_out e w = add_outs [e] w.
Proof. reflexivity. Qed.

Lemma KeyboardCheck_idle f w :
  w_polls w = [] -> KeyboardCheck (S f) false w = (Some 0, add_outs [EPoll] w).
Proof.
  intros H. unfold KeyboardCheck. cbn [kc_loop].
  unfold sys_select_getchar, emit, modify, gets, bind, ret. cbn -[kc_loop]. rewrite H. reflexivity.
Qed.

Lemma sys_read_reg s off w d i p data sec nsec :
  fs_lookup (resolve (w_cwd w) s) (w_fs w) = Some (NReg d i p data sec nsec) ->
  sys_read s off w = (Some (firstn (Z.to_nat LNBIGBUFFER) (skipn (Z.to_nat off) data)), w).
Proof. intros H. unfold sys_read, resolved, lookup_node, gets, bind, ret. cbn -[resolve]. rewrite H. reflexivity. Qed.

Lemma ChecksumAdd_app a b c : ChecksumAdd (a ++ b) c = ChecksumAdd b (ChecksumAdd a c).
Proof. unfold ChecksumAdd, ChecksumAddW. apply fold_left_app. Qed.

Lemma fc_loop_reg fuel s o chk w d i p data sec nsec :
  fs_lookup (resolve (w_cwd w) s) (w_fs w) = Some (NReg d i p data sec nsec) ->
  w_polls w = [] ->
  (o <= List.length data)%nat ->
  (List.length data < o + Z.to_nat LNBIGBUFFER * fuel)%nat ->
  exists n, fc_loop fuel s (Z.of_nat o) chk w
            = (Some (0, ChecksumAdd (skipn o data) chk), add_outs (repeat EPoll n) w).
Proof.
  revert o chk w. induction fuel as [|f IH]; intros o chk w Hl Hp Ho Hf; [lia|].
  cbn [fc_loop]. rewrite (bind_run _ _ _ _ _ (sys_read_reg _ _ _ _ _ _ _ _ _ Hl)).
  rewrite Nat2Z.id. cbv beta iota zeta.
  set (buf := firstn (Z.to_nat LNBIGBUFFER) (skipn o data)).
  assert (Hchk : (if 0 <? Z.of_nat (List.length buf) then ChecksumAdd buf chk else chk)
                 = ChecksumAdd buf chk).
  { destruct buf; reflexivity. }
  rewrite Hchk. clear Hchk.
  rewrite (bind_run _ _ _ _ _ (KeyboardCheck_idle _ _ Hp)). cbn [Z.eqb andb].
  rewrite andb_true_r.
  assert (Hlen : List.length buf = Nat.min (Z.to_nat LNBIGBUFFER) (List.length data - o))
    by (unfold buf; rewrite length_firstn, length_skipn; reflexivity).
  destruct (Z.of_nat (List.length buf) =? LNBIGBUFFER) eqn:E.
  - apply Z.eqb_eq in E.
    assert (Hb : List.length buf = Z.to_nat LNBIGBUFFER) by lia.
    replace (Z.of_nat o + Z.of_nat (List.length buf)) with (Z.of_nat (o + List.length buf)) by lia.
    destruct (IH (o + List.length buf)%nat (ChecksumAdd buf chk) (add_outs [EPoll] w))
      as [n Hn]; [exact Hl | exact Hp | unfold LNBIGBUFFER in *; lia | unfold LNBIGBUFFER in *; lia |].
    assert (Hc : ChecksumAdd (skipn (o + List.length buf) data) (ChecksumAdd buf chk)
                 = ChecksumAdd (skipn o data) chk).
    { rewrite <- ChecksumAdd_app, Hb, Nat.add_comm, <- skipn_skipn. unfold buf.
      rewrite firstn_skipn. reflexivity. }
    exists (S n). rewrite Hn, add_outs_app, Hc. reflexivity.
  - exists 1%nat.
    assert (Hs : buf = skipn o data).
    { unfold buf. apply firstn_all2. rewrite length_skipn.
      apply Z.eqb_neq in E. unfold LNBIGBUFFER in *; lia. }
    rewrite Hs. reflexivity.
Qed.

Lemma sys_open_read_ok s w n :
  fs_lookup (resolve (w_cwd w) s) (w_fs w) = Some n ->
  w_fails w (SOpenR (resolve (w_cwd w) s)) = false ->
  sys_open_read s w = (Some true, w).
Proof.
  intros Hl Hf. unfold sys_open_read, resolved, failing, lookup_node, gets, bind, ret.
  cbn -[resolve]. rewrite Hf, Hl. reflexivity.
Qed.

Lemma FilenameChecksum_reg fuel s w d i p data sec nsec :
  fs_lookup (resolve (w_cwd w) s) (w_fs w) = Some (NReg d i p data sec nsec) ->
  w_fails w (SOpenR (resolve (w_cwd w) s)) = false ->
  w_polls w = [] ->
  (List.length data < Z.to_nat LNBIGBUFFER * fuel)%nat ->
  exists n, FilenameChecksum fuel s w
            = (Some (0, ChecksumAdd data 0), add_outs (repeat EPoll n) w).
Proof.
  intros Hl Hf Hp Hfu. unfold FilenameChecksum.
  rewrite (bind_run _ _ _ _ _ (sys_open_read_ok _ _ _ Hl Hf)). cbv beta iota.
  apply (fc_loop_reg fuel s 0 0 w d i p data sec nsec Hl Hp); lia.
Qed.

Lemma tcf_probe_reg_reg src dst w nS nD :
  fs_lookup (resolve (w_cwd w) src) (w_fs w) = Some nS ->
  fs_lookup (resolve (w_cwd w) dst) (w_fs w) = Some nD ->
  (forall d i p, nS <> NDir d i p) -> (forall d i p, nD <> NDir d i p) ->
  tcf_probe src dst w = (Some (0, stat_of_node nS, true, stat_of_node nD), w).
Proof.
  intros Hs Hd HS HD. unfold tcf_probe.
  rewrite (bind_run _ _ _ _ _ (FilenameExist_run src stat0 w)), Hs.
  destruct nS as [a b c|a b c ds ss ns]; [exfalso; eapply HS; reflexivity|].
  cbv beta iota. cbn [stat_of_node st_mode]. rewrite land_lor_same.
  change (negb (S_IFREG =? 0)) with true.
  unfold bind at 1, ret at 1. cbv beta iota.
  rewrite (bind_run _ _ _ _ _ (FilenameExist_run dst stat0 w)), Hd.
  destruct nD as [a' b' c'|a' b' c' dd sd nd]; [exfalso; eapply HD; reflexivity|].
  cbv beta iota. cbn [stat_of_node st_mode]. rewrite land_lor_same. reflexivity.
Qed.

Lemma forallb_benign_repeat n : forallb benign (repeat EPoll n) = true.
Proof. induction n; [reflexivity | exact IHn]. Qed.

Lemma tcf_precheck_reg fuel src dst w a b c ds ss ns a' b' c' dd sd nd :
  fs_lookup (resolve (w_cwd w) src) (w_fs w) = Some (NReg a b c ds ss ns) ->
  fs_lookup (resolve (w_cwd w) dst) (w_fs w) = Some (NReg a' b' c' dd sd nd) ->
  (forall k, w_fails w k = false) ->
  w_polls w = [] ->
  (List.length ds < Z.to_nat LNBIGBUFFER * fuel)%nat ->
  (List.length dd < Z.to_nat LNBIGBUFFER * fuel)%nat ->
  let zs := Z.of_nat (List.length ds) in
  let zd := Z.of_nat (List.length dd) in
  let both := negb (zs =? 0) && negb (zd =? 0) && (zs =? zd) in
  exists l, forallb benign l = true
    /\ tcf_precheck false fuel src dst 0 (stat_of_node (NReg a b c ds ss ns))
         (stat_of_node (NReg a' b' c' dd sd nd)) w
       = (Some (0, if both then ChecksumAdd ds 0 else 0, if both then ChecksumAdd dd 0 else 0),
          add_outs l w).
Proof.
  intros Hs Hd Hf Hp Hs' Hd' zs zd both. unfold tcf_precheck.
  cbn [stat_of_node st_size]. fold zs zd. change ((0 =? 0) && ?x) with x. fold both.
  destruct both.
  - rewrite (bind_run _ _ _ _ _ (EchoPrint_run _ _)). cbv beta iota.
    destruct (FilenameChecksum_reg fuel src (add_out (ELog ("Verify " ^^ src ^^ " to " ^^ dst)) w)
                _ _ _ _ _ _ Hs (Hf _) Hp Hs') as [n1 H1].
    rewrite (bind_run _ _ _ _ _ H1). cbv beta iota. change (0 =? 0) with true. cbv iota.
    destruct (FilenameChecksum_reg fuel dst
                (add_outs (repeat EPoll n1) (add_out (ELog ("Verify " ^^ src ^^ " to " ^^ dst)) w))
                _ _ _ _ _ _ Hd (Hf _) Hp Hd') as [n2 H2].
    rewrite (bind_run _ _ _ _ _ H2).
    exists (ELog ("Verify " ^^ src ^^ " to " ^^ dst) :: repeat EPoll n1 ++ repeat EPoll n2).
    split.
    + cbn [forallb benign andb]. rewrite forallb_app, !forallb_benign_repeat. reflexivity.
    + rewrite add_out_outs, !add_outs_app. reflexivity.
  - exists []. split; [reflexivity|]. unfold add_outs; rewrite app_nil_r. destruct w; reflexivity.
Qed.

Lemma bind_assoc_run {A B C} (m : M A) (f : A -> M B) (g : B -> M C) w :
  bind (bind m f) g w = bind m (fun x => bind (f x) g) w.
Proof. unfold bind. destruct (m w) as [[a|] w1]; reflexivity. Qed.

Lemma bind_ret_run {A B} (a : A) (f : A -> M B) w : bind (ret a) f w = f a w.
Proof. reflexivity. Qed.

Ltac run_binds := repeat (rewrite ?bind_assoc_run, ?bind_ret_run; cbv beta iota).

Lemma base_prim_emit e : Sat R_base (emit e).
Proof. intros w; open_prim; base_tac. Qed.
Lemma base_prim_echo s : Sat R_base (EchoPrint s).
Proof. intros w; open_prim; base_tac. Qed.
Lemma base_prim_set_err s : Sat R_base (set_err s).
Proof. intros w; open_prim; base_tac. Qed.
Lemma base_prim_unlink s : Sat R_base (sys_unlink s).
Proof. intros w; open_prim; base_tac. Qed.
Lemma base_prim_utimens s t : Sat R_base (sys_utimens s t).
Proof. intros w; open_prim; base_tac. Qed.
Lemma base_tcf_copy_loop gF fuel s d o c : Sat R_base (tcf_copy_loop gF fuel s d o c).
Proof.
  apply (g_tcf_copy_loop gF false); [exact R_base_refl | exact R_base_trans | .. | reflexivity];
    unfold Sat; intros; open_prim; base_tac.
Qed.
Lemma base_tcf_reverify fuel d e c : Sat R_base (tcf_reverify false fuel d e c).
Proof.
  apply g_tcf_reverify; [exact R_base_refl | exact R_base_trans | ..];
    unfold Sat; intros; open_prim; base_tac.
Qed.
#[local] Hint Resolve base_prim_emit base_prim_echo base_prim_set_err base_prim_unlink
  base_prim_utimens base_tcf_copy_loop base_tcf_reverify : sat.

Lemma open_write_prefix {A} s md (K : bool -> M A) w :
  (forall a, Sat R_base (K a)) ->
  exists l, w_out (snd (bind (sys_open_write s md) K w)) = w_out w ++ EOpenW s :: l.
Proof.
  intros HK.
  assert (H1 : exists l1, w_out (snd (sys_open_write s md w)) = w_out w ++ EOpenW s :: l1).
  { unfold sys_open_write. open_prim; eexists; rewrite <- ?app_assoc; reflexivity. }
  destruct H1 as [l1 H1]. unfold bind at 1.
  destruct (sys_open_write s md w) as [[a|] w1]; cbn [snd] in *.
  - destruct (HK a w1) as (_ & _ & l2 & H2). rewrite H2, H1, <- app_assoc. eexists; reflexivity.
  - rewrite H1. eexists; reflexivity.
Qed.

Lemma ChecksumAdd_nil c : ChecksumAdd [] c = c.
Proof. reflexivity. Qed.

Lemma chk_pair ds dd :
  let zs := Z.of_nat (List.length ds) in
  let zd := Z.of_nat (List.length dd) in
  let both := negb (zs =? 0) && negb (zd =? 0) && (zs =? zd) in
  ((if both then ChecksumAdd ds 0 else 0) =? (if both then ChecksumAdd dd 0 else 0))
  = negb (zs =? zd) || (ChecksumAdd ds 0 =? ChecksumAdd dd 0).
Proof.
  intros zs zd both. unfold both.
  destruct (zs =? zd) eqn:E; [|rewrite andb_false_r; reflexivity].
  destruct (zs =? 0) eqn:E0.
  - apply Z.eqb_eq in E, E0. unfold zs, zd in *.
    assert (ds = []) by (apply length_zero_iff_nil; lia).
    assert (dd = []) by (apply length_zero_iff_nil; lia). subst. reflexivity.
  - apply Z.eqb_eq in E. rewrite <- E, E0. reflexivity.
Qed.

Lemma tcf_delete_dest_reg dst line w d i p data sec nsec :
  fs_lookup (resolve (w_cwd w) dst) (w_fs w) = Some (NReg d i p data sec nsec) ->
  w_fails w (SUnlink (resolve (w_cwd w) dst)) = false ->
  tcf_delete_dest false dst true line w
  = (Some 0, set_fs (fs_remove (resolve (w_cwd w) dst) (w_fs w))
                    (add_out (EUnlink dst) (add_out (ELog line) w))).
Proof.
  intros Hl Hf. unfold tcf_delete_dest.
  rewrite (bind_run _ _ _ _ _ (EchoPrint_run _ _)); cbv beta iota.
  rewrite (bind_run _ _ _ _ _ (sys_unlink_reg dst (add_out (ELog line) w) _ _ _ _ _ _ Hl Hf)).
  reflexivity.
Qed.




Lemma append_nil_r' (a : string) : a ^^ "" = a.
Proof. induction a; cbn; [reflexivity | rewrite IHa; reflexivity]. Qed.

Lemma append_assoc' (a b c : string) : (a ^^ b) ^^ c = a ^^ (b ^^ c).
Proof. induction a; cbn; [reflexivity | rewrite IHa; reflexivity]. Qed.

Lemma split_slash_nonempty s cur : split_slash s cur <> [].
Proof.
  revert cur; induction s as [|c r IH]; intros cur; cbn; [discriminate|].
  destruct (Ascii.eqb c "/"%char); [discriminate | apply IH].
Qed.

Lemma split_slash_app_slash d t cur :
  split_slash (d ^^ String "/" t) cur
  = removelast (split_slash d cur) ++ last (split_slash d cur) "" :: split_slash t "".
Proof.
  revert cur; induction d as [|c r IH]; intros cur; cbn [String.append split_slash].
  - reflexivity.
  - destruct (Ascii.eqb c "/"%char).
    + rewrite IH. pose proof (split_slash_nonempty r "") as Hn.
      destruct (split_slash r "") as [|x xs] eqn:E; [congruence|].
      cbn [removelast last]. destruct xs; reflexivity.
    + apply IH.
Qed.

Lemma split_slash_no_slash n cur : no_slash n = true -> split_slash n cur = [cur ^^ n].
Proof.
  revert cur; induction n as [|c r IH]; intros cur H; cbn in *.
  - rewrite append_nil_r'. reflexivity.
  - apply andb_prop in H as [H1 H2]. apply negb_true_iff in H1. rewrite H1.
    rewrite IH by exact H2. rewrite append_assoc'. reflexivity.
Qed.

Lemma norm_components_app acc l1 l2 :
  norm_components acc (l1 ++ l2) = norm_components (norm_components acc l1) l2.
Proof.
  revert acc; induction l1 as [|c l1 IH]; intros acc; cbn [app norm_components]; [reflexivity|].
  destruct (String.eqb c "" || String.eqb c "."); [apply IH|].
  destruct (String.eqb c ".."); apply IH.
Qed.

Lemma resolve_eq cwd s :
  resolve cwd s = norm_components (if is_slash (String.get 0 s) then [] else cwd) (split_slash s "").
Proof. destruct s as [|c r]; [reflexivity|]. cbn [String.get is_slash resolve]. destruct (Ascii.eqb c "/"%char); reflexivity. Qed.

Lemma norm_components_name acc n :
  name_okb n = true -> norm_components acc [n] = acc ++ [n].
Proof.
  unfold name_okb; intros H. repeat (apply andb_prop in H as [H ?]).
  cbn. apply negb_true_iff in H. rewrite H.
  repeat match goal with Hb : negb _ = true |- _ => apply negb_true_iff in Hb; rewrite Hb end.
  reflexivity.
Qed.

Lemma resolve_app_name cwd d n :
  name_okb n = true ->
  resolve cwd (d ^^ String "/" n) = resolve cwd (d ^^ "/") ++ [n].
Proof.
  intros Hn. rewrite !resolve_eq.
  assert (Hg : String.get 0 (d ^^ String "/" n) = String.get 0 (d ^^ "/")) by (destruct d; reflexivity).
  rewrite Hg. rewrite !split_slash_app_slash.
  rewrite (split_slash_no_slash n "")
    by (unfold name_okb in Hn; repeat (apply andb_prop in Hn as [? Hn]); assumption).
  cbn [split_slash String.append].
  replace (removelast (split_slash d "") ++ [last (split_slash d "") ""; ""])
    with ((removelast (split_slash d "") ++ [last (split_slash d "") ""]) ++ [""])
    by (rewrite <- app_assoc; reflexivity).
  replace (removelast (split_slash d "") ++ [last (split_slash d "") ""; n])
    with ((removelast (split_slash d "") ++ [last (split_slash d "") ""]) ++ [n])
    by (rewrite <- app_assoc; reflexivity).
  rewrite !norm_components_app, norm_components_name by exact Hn. reflexivity.
Qed.




Lemma FilenameExist_is_reg s b w :
  fst (FilenameExist s b w) = Some (is_reg (fs_lookup (resolve (w_cwd w) s) (w_fs w)),
    match fs_lookup (resolve (w_cwd w) s) (w_fs w) with Some n => stat_of_node n | None => b end)
  /\ snd (FilenameExist s b w) = w.
Proof.
  rewrite FilenameExist_run. destruct (fs_lookup _ _) as [[d i p|d i p data sec nsec]|]; cbn [fst snd];
    [cbn [stat_of_node st_mode]; rewrite dir_not_reg
    |cbn [stat_of_node st_mode]; rewrite land_lor_same|]; split; reflexivity.
Qed.

Lemma path_app_tail_neq a b x y : a <> b -> path_eqb (a ++ [x]) (b ++ [y]) = false.
Proof.
  intros H. apply path_eqb_false. intros E. apply app_inj_tail in E as [E _]. congruence.
Qed.

Lemma cleanup_step sd0 dd0 e es w :
  reg_entry e = true -> name_okb (d_name e) = true ->
  resolve (w_cwd w) (sd0 ^^ "/") <> resolve (w_cwd w) (dd0 ^^ "/") ->
  exists w1,
    tc_cleanup_walk false (sd0 ^^ "/") (dd0 ^^ "/") (e :: es) w
    = tc_cleanup_walk false (sd0 ^^ "/") (dd0 ^^ "/") es w1
    /\ w_cwd w1 = w_cwd w /\ w_fails w1 = w_fails w
    /\ forall k, fs_lookup k (w_fs w1)
       = if path_eqb k (resolve (w_cwd w) (dd0 ^^ "/") ++ [d_name e])
            && is_reg (fs_lookup k (w_fs w))
            && negb (is_reg (fs_lookup (resolve (w_cwd w) (sd0 ^^ "/") ++ [d_name e]) (w_fs w)))
            && negb (w_fails w (SUnlink k))
         then None else fs_lookup k (w_fs w).
Proof.
  intros Hr Hn Hne. set (n := d_name e) in *.
  assert (Hs : resolve (w_cwd w) ((sd0 ^^ "/") ^^ n) = resolve (w_cwd w) (sd0 ^^ "/") ++ [n])
    by (rewrite append_assoc'; apply resolve_app_name; exact Hn).
  assert (Hd : resolve (w_cwd w) ((dd0 ^^ "/") ^^ n) = resolve (w_cwd w) (dd0 ^^ "/") ++ [n])
    by (rewrite append_assoc'; apply resolve_app_name; exact Hn).
  set (ksd := resolve (w_cwd w) (sd0 ^^ "/")) in *.
  set (kd := resolve (w_cwd w) (dd0 ^^ "/")) in *.
  cbn [tc_cleanup_walk]. unfold reg_entry in Hr. rewrite Hr. fold n.
  destruct (FilenameExist_is_reg ((sd0 ^^ "/") ^^ n) stat0 w) as [F1 F2].
  rewrite Hs in F1.
  destruct (FilenameExist ((sd0 ^^ "/") ^^ n) stat0 w) as [o w0] eqn:EF.
  cbn [fst snd] in F1, F2. subst o w0.
  unfold bind at 1 2. rewrite EF. cbv beta iota.
  destruct (is_reg (fs_lookup (ksd ++ [n]) (w_fs w))) eqn:Ex.
  - exists w. split; [reflexivity|]. split; [reflexivity|]. split; [reflexivity|].
    intros k. rewrite andb_false_r, andb_false_l. reflexivity.
  - rewrite (bind_run _ _ _ _ _ (EchoPrint_run _ _)). cbv beta iota.
    unfold bind at 1.
    destruct (sys_unlink ((dd0 ^^ "/") ^^ n) (add_out (ELog ("Delete " ^^ (dd0 ^^ "/") ^^ n)) w))
      as [o w1] eqn:EU.
    assert (HU : w_cwd w1 = w_cwd w /\ w_fails w1 = w_fails w /\ o <> None
                 /\ forall k, fs_lookup k (w_fs w1)
                    = if path_eqb k (kd ++ [n]) && is_reg (fs_lookup k (w_fs w))
                         && negb (w_fails w (SUnlink k)) then None else fs_lookup k (w_fs w)).
    { revert EU. unfold sys_unlink, emit, modify, resolved, failing, lookup_node, update_fs,
        gets, bind, ret. cbn -[resolve fs_remove String.append]. rewrite Hd.
      intros EU. destruct (fs_lookup (kd ++ [n]) (w_fs w)) as [[| ]|] eqn:El;
        [| destruct (w_fails w (SUnlink (kd ++ [n]))) eqn:Ef |];
        injection EU as <- <-; cbn -[resolve fs_remove]; (split; [reflexivity|]);
        (split; [reflexivity|]); (split; [discriminate|]); intros k;
        rewrite ?fs_lookup_remove;
        destruct (path_eqb k (kd ++ [n])) eqn:Ek; try reflexivity;
        apply path_eqb_true in Ek; subst k; rewrite ?El, ?Ef; reflexivity. }
    destruct HU as (Hc & Hf & Ho & Hl).
    destruct o as [ok|]; [|exfalso; apply Ho; reflexivity]. cbv beta iota.
    assert (Hk : forall k, fs_lookup k (w_fs w1)
       = if path_eqb k (kd ++ [n]) && is_reg (fs_lookup k (w_fs w))
            && negb false && negb (w_fails w (SUnlink k))
         then None else fs_lookup k (w_fs w))
      by (intros k; rewrite Hl; cbn [negb]; rewrite andb_true_r; reflexivity).
    destruct ok.
    + exists w1. split; [reflexivity|]. split; [exact Hc|]. split; [exact Hf|]. exact Hk.
    + exists (add_out (ELog ("WARNING: Failed to delete " ^^ (dd0 ^^ "/") ^^ n)) w1).
      split; [reflexivity|]. split; [exact Hc|]. split; [exact Hf|]. exact Hk.
Qed.

Lemma cleanup_skip sd dd e es w :
  reg_entry e = false ->
  tc_cleanup_walk false sd dd (e :: es) w = tc_cleanup_walk false sd dd es w.
Proof. unfold reg_entry. intros H. cbn [tc_cleanup_walk]. rewrite H. reflexivity. Qed.

Lemma cleanup_walk_spec sd0 dd0 es w :
  (forall e, In e es -> reg_entry e = true -> name_okb (d_name e) = true) ->
  resolve (w_cwd w) (sd0 ^^ "/") <> resolve (w_cwd w) (dd0 ^^ "/") ->
  exists w',
    tc_cleanup_walk false (sd0 ^^ "/") (dd0 ^^ "/") es w = (Some tt, w')
    /\ w_cwd w' = w_cwd w /\ w_fails w' = w_fails w
    /\ forall k, fs_lookup k (w_fs w')
       = if existsb (fun e => reg_entry e
                      && path_eqb k (resolve (w_cwd w) (dd0 ^^ "/") ++ [d_name e])) es
            && is_reg (fs_lookup k (w_fs w))
            && negb (is_reg (fs_lookup (resolve (w_cwd w) (sd0 ^^ "/") ++ [last k ""]) (w_fs w)))
            && negb (w_fails w (SUnlink k))
         then None else fs_lookup k (w_fs w).
Proof.
  revert w; induction es as [|e es IH]; intros w Hes Hne.
  - exists w. repeat split.
  - set (ksd := resolve (w_cwd w) (sd0 ^^ "/")) in *.
    set (kd := resolve (w_cwd w) (dd0 ^^ "/")) in *.
    assert (Hes' : forall e', In e' es -> reg_entry e' = true -> name_okb (d_name e') = true)
      by (intros; apply Hes; [right|]; assumption).
    destruct (reg_entry e) eqn:Er.
    + destruct (cleanup_step sd0 dd0 e es w Er (Hes e (or_introl eq_refl) Er) Hne)
        as (w1 & E1 & Hc1 & Hf1 & Hl1).
      fold ksd kd in Hl1.
      destruct (IH w1 Hes') as (w' & E' & Hc' & Hf' & Hl'); [rewrite Hc1; exact Hne|].
      rewrite Hc1 in Hl'. fold ksd kd in Hl'.
      exists w'. rewrite E1. split; [exact E'|]. split; [congruence|]. split; [congruence|].
      intros k. rewrite Hl', Hf1. cbn [existsb]. rewrite Er, andb_true_l.
      destruct (path_eqb k (kd ++ [d_name e])) eqn:Ek.
      * apply path_eqb_true in Ek. subst k. rewrite last_last.
        rewrite Hl1, path_eqb_refl, andb_true_l.
        destruct (is_reg (fs_lookup (kd ++ [d_name e]) (w_fs w))) eqn:R1;
          [|rewrite !andb_false_r, !andb_false_l, R1; cbn; rewrite andb_false_r; reflexivity].
        destruct (is_reg (fs_lookup (ksd ++ [d_name e]) (w_fs w))) eqn:R2;
          destruct (w_fails w (SUnlink (kd ++ [d_name e]))) eqn:R3; cbn;
          rewrite ?R1, ?R2, ?R3, ?Hl1, ?path_app_tail_neq by exact Hne; cbn;
          rewrite ?R2, ?andb_false_r; try reflexivity.
      * rewrite Hl1, Ek, !andb_false_l, orb_false_l.
        rewrite (Hl1 (ksd ++ [last k ""])), path_app_tail_neq by exact Hne.
        reflexivity.
    + rewrite cleanup_skip by exact Er.
      destruct (IH w Hes' Hne) as (w' & E' & Hc' & Hf' & Hl').
      exists w'. split; [exact E'|]. split; [exact Hc'|]. split; [exact Hf'|].
      intros k. rewrite Hl'. cbn [existsb]. rewrite Er. reflexivity.
Qed.

Lemma fs_lookup_In k f n : fs_lookup k f = Some n -> In (k, n) f.
Proof.
  induction f as [|[k1 n1] f IH]; cbn; [discriminate|].
  destruct (path_eqb k k1) eqn:E; [apply path_eqb_true in E; subst; intros H; injection H as <-; left; reflexivity|].
  intros H; right; apply IH, H.
Qed.

Lemma last_In (k : path) d : k <> [] -> In (last k d) k.
Proof.
  intros H. rewrite (app_removelast_last d H) at 2. apply in_or_app. right. left. reflexivity.
Qed.

Lemma in_dir_entries e kd f :
  In e (dir_entries kd f) ->
  d_type e = DT_DIR
  \/ exists k n, In (k, n) f /\ k <> [] /\ removelast k = kd
                 /\ e = mkDirent (last k "") (dtype_of_node n).
Proof.
  unfold dir_entries. intros [<-|[<-|H]]; [left; reflexivity | left; reflexivity|].
  right. apply in_flat_map in H as ([k n] & Hin & He). cbn in He.
  destruct k as [|c k']; [destruct He|].
  destruct (path_eqb (removelast (c :: k')) kd) eqn:E; [|destruct He].
  destruct He as [<-|[]]. apply path_eqb_true in E.
  exists (c :: k'), n. repeat split; try assumption; discriminate.
Qed.

Lemma entries_reg_child kd f k :
  existsb (fun e => reg_entry e && path_eqb k (kd ++ [d_name e])) (dir_entries kd f)
  && is_reg (fs_lookup k f)
  = is_child kd k && is_reg (fs_lookup k f).
Proof.
  destruct (is_reg (fs_lookup k f)) eqn:Er; [|rewrite !andb_false_r; reflexivity].
  rewrite !andb_true_r.
  destruct (existsb _ _) eqn:Ex; symmetry.
  - apply existsb_exists in Ex as (e & Hin & He). apply andb_prop in He as [He1 He2].
    apply path_eqb_true in He2. subst k.
    unfold is_child. destruct (kd ++ [d_name e]) eqn:E; [destruct kd; discriminate|].
    rewrite <- E, removelast_last. apply path_eqb_refl.
  - destruct (is_child kd k) eqn:Ec; [|reflexivity]. exfalso.
    unfold is_child in Ec. destruct k as [|c k']; [discriminate|].
    apply path_eqb_true in Ec.
    destruct (fs_lookup (c :: k') f) as [[|d i p data sec nsec]|] eqn:El; try discriminate.
    apply fs_lookup_In in El.
    assert (Hin : In (mkDirent (last (c :: k') "") DT_REG) (dir_entries kd f)).
    { unfold dir_entries. right; right. apply in_flat_map. exists ((c :: k'), NReg d i p data sec nsec).
      split; [exact El|]. cbn [fst snd]. rewrite Ec, path_eqb_refl. left. reflexivity. }
    assert (Hx : existsb (fun e => reg_entry e && path_eqb (c :: k') (kd ++ [d_name e]))
                   (dir_entries kd f) = true).
    { apply existsb_exists. eexists; split; [exact Hin|].
      unfold reg_entry; cbn [d_type d_name]. change (Z.land DT_REG DT_REG =? DT_REG) with true.
      rewrite andb_true_l, <- Ec. rewrite <- app_removelast_last by discriminate.
      apply path_eqb_refl. }
    rewrite Hx in Ex. discriminate.
Qed.

Lemma sys_opendir_dir s w d i p :
  fs_lookup (resolve (w_cwd w) s) (w_fs w) = Some (NDir d i p) ->
  w_fails w (SOpendir (resolve (w_cwd w) s)) = false ->
  sys_opendir s w = (Some (Some (dir_entries (resolve (w_cwd w) s) (w_fs w))), w).
Proof.
  intros Hl Hf. unfold sys_opendir, resolved, failing, lookup_node, gets, bind, ret.
  cbn -[resolve dir_entries]. rewrite Hf, Hl. reflexivity.
Qed.

Lemma mirror_cleanup_spec sd0 dd0 w d i p :
  let ksd := resolve (w_cwd w) (sd0 ^^ "/") in
  let kd := resolve (w_cwd w) (dd0 ^^ "/") in
  ksd <> kd ->
  fs_lookup kd (w_fs w) = Some (NDir d i p) ->
  w_fails w (SOpendir kd) = false ->
  (forall k n, In (k, n) (w_fs w) -> forallb name_okb k = true) ->
  exists w', tc_mirror_cleanup false (sd0 ^^ "/") (dd0 ^^ "/") w = (Some tt, w')
    /\ forall k, fs_lookup k (w_fs w')
       = if is_child kd k && is_reg (fs_lookup k (w_fs w))
            && negb (is_reg (fs_lookup (ksd ++ [last k ""]) (w_fs w)))
            && negb (w_fails w (SUnlink k))
         then None else fs_lookup k (w_fs w).
Proof.
  intros ksd kd Hne Hd Hf Hwf. unfold tc_mirror_cleanup.
  rewrite (bind_run _ _ _ _ _ (sys_opendir_dir _ _ _ _ _ Hd Hf)). cbv beta iota.
  destruct (cleanup_walk_spec sd0 dd0 (dir_entries kd (w_fs w)) w) as (w' & E & _ & _ & Hl);
    [| exact Hne |].
  - intros e Hin Hr. apply in_dir_entries in Hin as [Ht|(k & n & Hin & Hk & _ & ->)].
    + unfold reg_entry in Hr. rewrite Ht in Hr. discriminate.
    + cbn [d_name]. specialize (Hwf _ _ Hin). rewrite forallb_forall in Hwf.
      apply Hwf, last_In, Hk.
  - exists w'. split; [exact E|]. intros k. rewrite Hl. fold ksd kd.
    rewrite entries_reg_child. reflexivity.
Qed.

Lemma tcf_delete_source_mode gT m m' src dst e :
  (m =? TCPY_MODE_DEL) = (m' =? TCPY_MODE_DEL) ->
  tcf_delete_source gT m src dst e = tcf_delete_source gT m' src dst e.
Proof. intros H. unfold tcf_delete_source. rewrite H. reflexivity. Qed.

Lemma TimedCopyFile_mirror_copy gF gT fuel src dst :
  TimedCopyFile gF gT fuel TCPY_MODE_MIRROR src dst = TimedCopyFile gF gT fuel TCPY_MODE_COPY src dst.
Proof. unfold TimedCopyFile, tcf_delete_source. reflexivity. Qed.

Lemma TimedCopy_single_mirror gF gT fuel sd sf dd df :
  sf <> "" ->
  TimedCopy gF gT fuel TCPY_MODE_MIRROR sd sf dd df = TimedCopy gF gT fuel TCPY_MODE_COPY sd sf dd df.
Proof.
  intros Hsf. destruct fuel as [|f]; [reflexivity|]. cbn [TimedCopy].
  assert (E : String.eqb sf "" = false) by (apply String.eqb_neq; exact Hsf).
  rewrite E. cbv beta iota delta [negb]. rewrite !TimedCopyFile_mirror_copy. reflexivity.
Qed.

Lemma sys_unlink_some s w : exists b w', sys_unlink s w = (Some b, w').
Proof.
  unfold sys_unlink, emit, modify, resolved, failing, lookup_node, update_fs, gets, bind, ret.
  cbn -[resolve fs_remove].
  destruct (fs_lookup _ _) as [[|]|]; [| destruct (w_fails _ _) |]; eexists; eexists; reflexivity.
Qed.

Lemma cleanup_walk_total gT sd dd es w :
  exists w', tc_cleanup_walk gT sd dd es w = (Some tt, w').
Proof.
  revert w; induction es as [|e es IH]; intros w; cbn [tc_cleanup_walk].
  - eexists; reflexivity.
  - assert (Hs : exists w1, (if Z.land (d_type e) DT_REG =? DT_REG then
         ' (ex, _) <- FilenameExist (sd ^^ d_name e) stat0;;
         if ex then ret tt
         else EchoPrint ("Delete " ^^ dd ^^ d_name e);;
              if gT then ret tt
              else ok <- sys_unlink (dd ^^ d_name e);;
                   if ok then ret tt
                   else EchoPrint ("WARNING: Failed to delete " ^^ dd ^^ d_name e)
       else ret tt) w = (Some tt, w1)).
    { destruct (_ =? DT_REG); [|eexists; reflexivity].
      unfold bind at 1. rewrite FilenameExist_run. cbv beta iota.
      destruct (match fs_lookup _ _ with Some n => _ | None => _ end) as [ex st].
      destruct ex; [eexists; reflexivity|].
      rewrite (bind_run _ _ _ _ _ (EchoPrint_run _ _)).
      destruct gT; [eexists; reflexivity|].
      destruct (sys_unlink_some (dd ^^ d_name e) (add_out (ELog ("Delete " ^^ dd ^^ d_name e)) w))
        as (b & w2 & Eu).
      rewrite (bind_run _ _ _ _ _ Eu). destruct b; [eexists; reflexivity|].
      rewrite EchoPrint_run. eexists; reflexivity. }
    destruct Hs as (w1 & Hs). rewrite (bind_run _ _ _ _ _ Hs). apply IH.
Qed.

Lemma mirror_cleanup_total gT sd dd w :
  exists w', tc_mirror_cleanup gT sd dd w = (Some tt, w').
Proof.
  unfold tc_mirror_cleanup. unfold bind at 1.
  destruct (sys_opendir dd w) as [o w0] eqn:E.
  assert (Ho : exists v, o = Some v).
  { revert E. unfold sys_opendir, resolved, failing, lookup_node, gets, bind, ret. cbn -[resolve].
    repeat match goal with |- context [match ?x with _ => _ end] => destruct x end;
      intros H; injection H as <- <-; eexists; reflexivity. }
  destruct Ho as ([es|] & ->); [apply cleanup_walk_total | eexists; reflexivity].
Qed.

Lemma cleanup_unlink_warning sd dd e es w :
  (Z.land (d_type e) DT_REG =? DT_REG) = true ->
  is_reg (fs_lookup (resolve (w_cwd w) (sd ^^ d_name e)) (w_fs w)) = false ->
  is_reg (fs_lookup (resolve (w_cwd w) (dd ^^ d_name e)) (w_fs w))
    && negb (w_fails w (SUnlink (resolve (w_cwd w) (dd ^^ d_name e)))) = false ->
  tc_cleanup_walk false sd dd (e :: es) w
  = tc_cleanup_walk false sd dd es
      (add_outs [ELog ("Delete " ^^ dd ^^ d_name e); EUnlink (dd ^^ d_name e);
                 ELog ("WARNING: Failed to delete " ^^ dd ^^ d_name e)] w).
Proof.
  intros Hr Hs Hu. cbn [tc_cleanup_walk]. rewrite Hr.
  destruct (FilenameExist_is_reg (sd ^^ d_name e) stat0 w) as [F1 F2].
  destruct (FilenameExist (sd ^^ d_name e) stat0 w) as [o w0] eqn:EF.
  cbn [fst snd] in F1, F2. subst o w0.
  unfold bind at 1 2. rewrite EF. cbv beta iota. rewrite Hs.
  rewrite (bind_run _ _ _ _ _ (EchoPrint_run _ _)). cbv beta iota.
  unfold sys_unlink, emit, modify, resolved, failing, lookup_node, update_fs, gets, bind, ret,
    EchoPrint. cbn -[resolve fs_remove String.append].
  destruct (fs_lookup (resolve (w_cwd w) (dd ^^ d_name e)) (w_fs w)) as [[|]|];
    cbn in Hu; [| destruct (w_fails w _); [|discriminate Hu] |];
    unfold emit, modify; cbv beta iota; rewrite !add_out_outs, !add_outs_app; reflexivity.
Qed.

Lemma sys_opendir_pure s w : snd (sys_opendir s w) = w.
Proof.
  unfold sys_opendir, resolved, failing, lookup_node, gets, bind, ret. cbn -[resolve dir_entries].
  destruct (fs_lookup _ _) as [[|]|]; [destruct (w_fails _ _)| |]; reflexivity.
Qed.

Ltac run_in H a w' E :=
  lazymatch type of H with
  | bind ?m ?k ?w = _ =>
    destruct (m w) as [[a|] w'] eqn:E;
    [rewrite (bind_run _ _ _ _ _ E) in H; cbv beta iota in H
    |rewrite (bind_stop _ _ _ _ E) in H; discriminate H]
  end.

Lemma mirror_dir_ends_with_cleanup gF gT f sd dd df w w2 :
  String.eqb sd dd = false ->
  TimedCopy gF gT (S f) TCPY_MODE_MIRROR sd "" dd df w = (Some 0, w2) ->
  exists w0 o w1,
    sys_opendir sd w0 = (Some o, w0)
    /\ (match o with
        | Some es => tc_walk (tc_entry gF gT f TCPY_MODE_MIRROR sd dd
                                (fun s d => TimedCopy gF gT f TCPY_MODE_MIRROR s "" d "")) es
        | None => ret 0
        end) w0 = (Some 0, w1)
    /\ tc_mirror_cleanup gT sd dd w1 = (Some tt, w2).
Proof.
  intros Hne H. cbn [TimedCopy] in H. rewrite Hne in H.
  change (String.eqb "" "") with true in H. cbv beta iota delta [negb] in H.
  run_in H p wa Ea. destruct p as [ex st]. cbv beta iota in H.
  run_in H g wb Eb. run_in H e wc Ec.
  destruct (e =? 0) eqn:He; [|injection H as -> _; discriminate He].
  run_in H o wd Ed.
  pose proof (sys_opendir_pure sd wc) as Hp. rewrite Ed in Hp. cbn [snd] in Hp. subst wd.
  run_in H e' we Ee. run_in H u wf Ef.
  injection H as -> ->.
  exists wc, o, we. split; [exact Ed|]. split; [exact Ee|].
  cbv beta iota zeta delta [andb TCPY_MODE_MIRROR Z.eqb] in Ef. destruct u. exact Ef.
Qed.

Lemma thr_TimedCopyFile gF gT fuel m src dst :
  Sat R_thr (TimedCopyFile gF gT fuel m src dst).
Proof.
  apply g_TimedCopyFile; [intros w H; exact H | intros a b c Hab Hbc H; auto | ..];
    unfold Sat, R_thr; intros; open_prim; try assumption.
  all: try (apply (thr_inv_update _ t0 t1 n); assumption).
Qed.

(** * The claims *)

Lemma guard_from_destination gF gT fuel m sd sf dd df w ds is ps d i p :
  String.eqb sd dd = false ->
  giSt_dev (w_glob w) = 0 -> giSt_ino (w_glob w) = 0 ->
  fs_lookup (resolve (w_cwd w) sd) (w_fs w) = Some (NDir ds is ps) -> (ds, is) <> (0, 0) ->
  fs_lookup (resolve (w_cwd w) dd) (w_fs w) = Some (NDir d i p) -> (d, i) <> (0, 0) ->
  let w' := snd (TimedCopy gF gT (S fuel) m sd sf dd df w) in
  giSt_dev (w_glob w') = d /\ giSt_ino (w_glob w') = i.
Proof.
  intros Hsd Hd0 Hi0 Hs Hsn Hd Hdn w'. unfold w'.
  destruct (TimedCopy gF gT (S fuel) m sd sf dd df w) as [r w''] eqn:E. cbn [snd].
  cbn [TimedCopy] in E. rewrite Hsd in E. cbn [negb] in E.
  rewrite (bind_run _ _ _ _ _ (DirectoryExist_dir _ stat0 _ _ _ _ Hs)) in E.
  unfold get_glob at 1 in E. rewrite bind_run with (a := w_glob w) (w1 := w) in E by reflexivity.
  cbn [st_dev st_ino stat_of_node] in E. rewrite Hd0, Hi0 in E.
  assert (Hc : (ds =? 0) && (is =? 0) = false).
  { destruct (Z.eqb_spec ds 0), (Z.eqb_spec is 0); subst; cbn; congruence. }
  rewrite Hc in E. cbn [Z.eqb] in E.
  rewrite bind_assoc_run, (bind_run _ _ _ _ _ (DirectoryExist_dir _ stat0 _ _ _ _ Hd)) in E.
  cbn [st_dev st_ino stat_of_node] in E. rewrite bind_assoc_run in E.
  assert (Hg : record_guard d i w = (Some tt, snd (set_guard d i w))).
  { unfold record_guard, get_glob, gets, bind. cbv beta iota. rewrite Hd0, Hi0. reflexivity. }
  rewrite (bind_run _ _ _ _ _ Hg), bind_ret_run in E. cbn [Z.eqb] in E.
  set (w1 := snd (set_guard d i w)) in E.
  assert (G1 : giSt_dev (w_glob w1) = d /\ giSt_ino (w_glob w1) = i) by (split; reflexivity).
  assert (Gs : guard_set (w_glob w1)).
  { unfold guard_set; destruct G1 as [-> ->].
    destruct (Z.eq_dec d 0); [right; intros ->; apply Hdn; congruence | left; assumption]. }
  match type of E with
  | ?X w1 = _ => assert (HX : Sat R_guard X)
  end.
  { destruct (negb (String.eqb sf "")); [apply guard_TimedCopyFile|].
    pose proof R_guard_refl as Hr; pose proof R_guard_trans as Ht.
    sat_solve; first [ apply (sat_sys_opendir _ Hr Ht) | apply guard_tc_walk
                     | apply guard_tc_mirror_cleanup ]. }
  specialize (HX w1 Gs). rewrite E in HX. cbn [snd] in HX.
  destruct HX as [E1 E2]. rewrite E1, E2. exact G1.
Qed.

(** ** C1 *)

(** C1. Two regular files [src] and [dst] (distinct), no failing call, no
    pending key, both short enough for the loop bounds, not a test run.
    If size, mtime seconds, mtime nanoseconds and content checksum all
    agree, the transfer returns 0 and only logs and polls.  Otherwise
    [dst] is deleted first, under a log line [Delete dst (diff ...)] that
    names the size delta, " sec", " nsec", and " chk" only when the sizes
    are equal and the checksums differ; then the copy starts. *)
Theorem copy_skip_iff_equal gF fuel src dst w a b c ds ss ns a' b' c' dd sd nd :
  fs_lookup (resolve (w_cwd w) src) (w_fs w) = Some (NReg a b c ds ss ns) ->
  fs_lookup (resolve (w_cwd w) dst) (w_fs w) = Some (NReg a' b' c' dd sd nd) ->
  resolve (w_cwd w) dst <> resolve (w_cwd w) src ->
  (forall k, w_fails w k = false) ->
  w_polls w = [] ->
  (List.length ds < Z.to_nat LNBIGBUFFER * fuel)%nat ->
  (List.length dd < Z.to_nat LNBIGBUFFER * fuel)%nat ->
  let sS := stat_of_node (NReg a b c ds ss ns) in
  let sD := stat_of_node (NReg a' b' c' dd sd nd) in
  let cS := ChecksumAdd ds 0 in
  let cD := ChecksumAdd dd 0 in
  let same := (st_size sS =? st_size sD) && (st_sec sS =? st_sec sD)
              && (st_nsec sS =? st_nsec sD) && (cS =? cD) in
  (same = true ->
   exists l, forallb benign l = true
     /\ tcf_transfer gF false fuel src dst w = (Some 0, add_outs l w))
  /\ (same = false ->
   exists l1 l2, forallb benign l1 = true
     /\ w_out (snd (tcf_transfer gF false fuel src dst w))
        = w_out w ++ l1
          ++ [ELog ("Delete " ^^ dst ^^ " (diff"
                    ^^ (if st_size sS =? st_size sD then ""
                        else " " ^^ z_to_string (st_size sD - st_size sS) ^^ " bytes")
                    ^^ (if st_sec sS =? st_sec sD then "" else " sec")
                    ^^ (if st_nsec sS =? st_nsec sD then "" else " nsec")
                    ^^ (if (st_size sS =? st_size sD) && negb (cS =? cD) then " chk" else "")
                    ^^ ")");
              EUnlink dst; ELog ("Copy " ^^ src ^^ " to " ^^ dst); EOpenW dst]
          ++ l2).
Proof.
  intros Hs Hd Hne Hf Hp Hfs Hfd sS sD cS cD same.
  assert (Hpr := tcf_probe_reg_reg src dst w _ _ Hs Hd
                   ltac:(intros; discriminate) ltac:(intros; discriminate)).
  destruct (tcf_precheck_reg fuel src dst w _ _ _ _ _ _ _ _ _ _ _ _ Hs Hd Hf Hp Hfs Hfd)
    as (l & Hl & Hpc).
  pose proof (chk_pair ds dd) as Hcp. cbv zeta in Hpc, Hcp. fold cS cD in Hpc, Hcp.
  unfold tcf_transfer. rewrite (bind_run _ _ _ _ _ Hpr). cbv beta iota.
  fold sS sD. fold sS sD in Hpc.
  rewrite (bind_run _ _ _ _ _ Hpc). cbv beta iota. change ((0 =? 0) && ?x) with x.
  set (both := negb _ && negb _ && _) in Hcp |- *.
  assert (Hdiff : tcf_differ sS sD (if both then cS else 0) (if both then cD else 0) = negb same).
  { unfold tcf_differ, same. rewrite Hcp. unfold sS, sD. cbn [stat_of_node st_size st_sec st_nsec].
    fold cS cD.
    destruct (_ =? _); destruct (ss =? sd); destruct (ns =? nd); destruct (cS =? cD); reflexivity. }
  rewrite Hdiff. split; intros Hsame; rewrite Hsame; cbn [negb].
  - exists l. split; [exact Hl | reflexivity].
  - assert (Hline : delete_line dst sS sD (if both then cS else 0) (if both then cD else 0)
                    = "Delete " ^^ dst ^^ " (diff"
                      ^^ (if st_size sS =? st_size sD then ""
                          else " " ^^ z_to_string (st_size sD - st_size sS) ^^ " bytes")
                      ^^ (if st_sec sS =? st_sec sD then "" else " sec")
                      ^^ (if st_nsec sS =? st_nsec sD then "" else " nsec")
                      ^^ (if (st_size sS =? st_size sD) && negb (cS =? cD) then " chk" else "")
                      ^^ ")").
    { unfold delete_line. rewrite Hcp. unfold sS, sD. cbn [stat_of_node st_size].
      fold cS cD. destruct (_ =? _); destruct (cS =? cD); reflexivity. }
    rewrite Hline.
    rewrite (bind_run _ _ _ _ _ (tcf_delete_dest_reg dst _ (add_outs l w) _ _ _ _ _ _ Hd (Hf _))).
    cbv beta iota. change (0 =? 0) with true. cbv iota.
    unfold tcf_copy. run_binds.
    rewrite (bind_run _ _ _ _ _ (EchoPrint_run _ _)). run_binds.
    match goal with |- context [bind (sys_open_read src) _ ?w0] =>
      assert (Hs0 : fs_lookup (resolve (w_cwd w0) src) (w_fs w0) = Some (NReg a b c ds ss ns))
        by (cbn -[resolve fs_remove]; rewrite fs_lookup_remove, path_eqb_false by congruence;
            exact Hs);
      rewrite (bind_run _ _ _ _ _ (sys_open_read_ok src w0 _ Hs0 (Hf _))) end.
    run_binds. change (0 =? 0) with true. cbv iota. run_binds.
    match goal with |- context [bind (sys_open_write dst ?md) ?K ?w0] =>
      destruct (open_write_prefix dst md K w0) as [l2 Hl2]; [|rewrite Hl2] end.
    + intros x. pose proof R_base_refl. pose proof R_base_trans. sat_solve.
    + exists l, l2. split; [exact Hl|]. cbn. rewrite <- !app_assoc. reflexivity.
Qed.

Lemma copy_skip_iff_equal_witness :
  exists l1 l2, forallb benign l1 = true
    /\ w_out (snd (tcf_transfer false false 10 "s/f" "d/f" w_c1))
       = w_out w_c1 ++ l1
         ++ [ELog "Delete d/f (diff -2 bytes)"; EUnlink "d/f"; ELog "Copy s/f to d/f";
             EOpenW "d/f"] ++ l2.
Proof.
  refine (proj2 (copy_skip_iff_equal false 10 "s/f" "d/f" w_c1 1 4 420 [1; 2; 3] 100 5
                   1 6 420 [5] 100 5 _ _ _ _ _ _ _) _).
  - reflexivity.
  - reflexivity.
  - vm_compute. discriminate.
  - intros k. reflexivity.
  - reflexivity.
  - apply Nat.ltb_lt. reflexivity.
  - apply Nat.ltb_lt. reflexivity.
  - vm_compute. reflexivity.
Defined.

(** C1, counterexample: the contents differ ([ChecksumAdd] gives 6 and 10)
    but the sizes differ too, so the log line names only the size. *)
Lemma delete_line_omits_checksum :
  ChecksumAdd [1; 2; 3] 0 = 6 /\ ChecksumAdd [5] 0 = 10
  /\ fst (TimedCopyFile false false 10 TCPY_MODE_COPY "s/f" "d/f" w_c1) = Some 0
  /\ w_out (snd (TimedCopyFile false false 10 TCPY_MODE_COPY "s/f" "d/f" w_c1))
     = [ELog "Delete d/f (diff -2 bytes)"; EUnlink "d/f"; ELog "Copy s/f to d/f";
        EOpenW "d/f"; ENanosleep 0 0; EWrite "d/f" 3; EPoll; EUtimens "d/f";
        ELog "Verify d/f"; EPoll].
Proof. vm_compute. repeat split. Qed.

(** ** C2 *)

(** C2. The spec's checksum (XOR the low byte, rotate the 32-bit word
    left) is [ChecksumAdd] on a 32-bit [unsigned long] only.  With the
    64-bit [unsigned long] of the program (LP64), bit 31 is copied to bit
    0 but also kept at bit 32: a 1 followed by 31 zero bytes gives
    0x100000001 where the rotation gives 1.  The checksum is order
    sensitive: [1; 0] and [0; 1] differ. *)
Theorem checksum_not_rotation_on_lp64 :
  (forall buf, ChecksumAddW 32 buf 0 = spec_checksum buf)
  /\ ChecksumAdd (1 :: repeat 0 31) 0 = 4294967297
  /\ spec_checksum (1 :: repeat 0 31) = 1
  /\ ChecksumAdd [1; 0] 0 <> ChecksumAdd (rev [1; 0]) 0.
Proof.
  split; [exact ChecksumAddW_32_spec|].
  vm_compute. split; [reflexivity|split; [reflexivity|discriminate]].
Qed.

(** ** C3 *)



(** ** C4 *)

(** C4. [NanoTime] returns 0 when [clock_gettime] succeeds (returns 0):
    the test is inverted.  After a write timed by succeeding clock
    readings, [giNanoPrev] and [giNanoFastest] stay 0. *)
Theorem NanoTime_zero_on_success :
  (forall sec nsec r w,
      NanoTime (set_clock ((0, (sec, nsec)) :: r) w) = (Some 0, set_clock r w))
  /\ giNanoPrev (w_glob (snd (tcf_copy_step false "d/f" [7] 0 w_c4))) = 0
  /\ giNanoFastest (w_glob (snd (tcf_copy_step false "d/f" [7] 0 w_c4))) = 0
  /\ fst (tcf_copy_step false "d/f" [7] 0 w_c4) = Some (0, 14).
Proof.
  split; [intros; reflexivity|].
  vm_compute. repeat split.
Qed.

(** ** C5 *)


(** ** C6 *)

(** C6 (code bug).  In Move mode an empty source with mtime (0, 0) and
    no destination is deleted: the absent destination gets the zero
    snapshot of lines 528-534, the comparison finds the two equal, nothing
    is copied or verified, and no copy of the file is left anywhere. *)
Lemma move_deletes_uncopied_source :
  let r := TimedCopyFile false false 10 TCPY_MODE_DEL "s/e" "d/e" w_c10 in
  fst r = Some 0
  /\ fs_lookup ["s"; "e"] (w_fs (snd r)) = None
  /\ fs_lookup ["d"; "e"] (w_fs (snd r)) = None
  /\ w_out (snd r) = [ELog "Delete s/e"; EUnlink "s/e"].
Proof. vm_compute. repeat split. Qed.

(** ** C7 *)

(** C7. The guard starts as (0, 0); [record_guard] sets it only while it
    is (0, 0).  A [TimedCopy] call made while the guard is (0, 0), on
    distinct existing source and destination directories, sets it to the
    destination's identity (device, inode), whatever the call does next.
    Once set, no run changes it.  A call of [TimedCopy] on a source
    directory whose identity equals the guard returns the Circular error
    and leaves the world unchanged. *)
Theorem traversal_guard_kept_and_checked :
  giSt_dev globals0 = 0 /\ giSt_ino globals0 = 0
  /\ (forall dev ino w,
       snd (record_guard dev ino w)
       = if (giSt_dev (w_glob w) =? 0) && (giSt_ino (w_glob w) =? 0)
         then snd (set_guard dev ino w) else w)
  /\ (forall gF gT fuel m sd sf dd df w ds is ps d i p,
       String.eqb sd dd = false ->
       giSt_dev (w_glob w) = 0 -> giSt_ino (w_glob w) = 0 ->
       fs_lookup (resolve (w_cwd w) sd) (w_fs w) = Some (NDir ds is ps) -> (ds, is) <> (0, 0) ->
       fs_lookup (resolve (w_cwd w) dd) (w_fs w) = Some (NDir d i p) -> (d, i) <> (0, 0) ->
       let w' := snd (TimedCopy gF gT (S fuel) m sd sf dd df w) in
       giSt_dev (w_glob w') = d /\ giSt_ino (w_glob w') = i)
  /\ (forall gF gT fuel m sd sf dd df,
       Sat R_guard (TimedCopy gF gT fuel m sd sf dd df))
  /\ (forall gF gT fuel m sd sf dd df w d i p,
       String.eqb sd dd = false ->
       fs_lookup (resolve (w_cwd w) sd) (w_fs w) = Some (NDir d i p) ->
       giSt_dev (w_glob w) = d -> giSt_ino (w_glob w) = i ->
       TimedCopy gF gT (S fuel) m sd sf dd df w = (Some ERROR_TCPY_CIRC, w)).
Proof.
  split; [reflexivity|]. split; [reflexivity|].
  split; [|split; [exact guard_from_destination |
                   split; [exact guard_TimedCopy | exact TimedCopy_circular]]].
  intros dev ino w. unfold record_guard, get_glob, gets, bind.
  cbv beta iota. destruct (_ && _); reflexivity.
Qed.

Lemma traversal_guard_kept_and_checked_witness :
  let w' := snd (TimedCopy false false 19%nat TCPY_MODE_COPY "s/" "" "d/" "" w_c3) in
  giSt_dev (w_glob w') = 1 /\ giSt_ino (w_glob w') = 6.
Proof.
  refine (proj1 (proj2 (proj2 (proj2 traversal_guard_kept_and_checked)))
            false false 18%nat TCPY_MODE_COPY "s/" "" "d/" "" w_c3 1 3 493 1 6 493
            _ _ _ _ _ _ _).
  all: first [ reflexivity | discriminate ].
Defined.

(** C7, counterexample: copying [s/] into [s/sub/] records [s/sub] as the
    guard; [s/f] is written to [s/sub/f] and [s/sub/sub] is created before
    the recursion into [s/sub/] reports the Circular error. *)
Lemma circular_detected_after_writes :
  let r := TimedCopy false false 20 TCPY_MODE_COPY "s/" "" "s/sub/" "" w_c3 in
  fst r = Some ERROR_TCPY_CIRC
  /\ (giSt_dev (w_glob (snd r)), giSt_ino (w_glob (snd r))) = (1, 5)
  /\ fs_lookup ["s"; "sub"] (w_fs w_c3) = Some (NDir 1 5 493)
  /\ fs_lookup ["s"; "sub"; "f"] (w_fs w_c3) = None
  /\ fs_lookup ["s"; "sub"; "f"] (w_fs (snd r)) = Some (NReg 1 100 420 [1; 2; 3] 100 5)
  /\ fs_lookup ["s"; "sub"; "sub"] (w_fs (snd r)) = Some (NDir 1 101 493).
Proof. vm_compute. repeat split. Qed.

(** ** C8 *)

(** C8. Mirror mode.  With an explicit file name it behaves as Copy mode
    (no cleanup).  A successful whole-directory call ends with
    [tc_mirror_cleanup] after the copy pass.  The cleanup deletes exactly
    the regular files directly inside the destination directory for which
    the source has no regular file of the same name (unless the unlink
    fails); it never aborts; a failed unlink logs a warning and the walk
    goes on.  On the spec's example, [c] is deleted and [a], [b] are kept,
    and a single-file run deletes nothing. *)
Theorem mirror_cleanup_behaviour :
  (forall gF gT fuel sd sf dd df, sf <> "" ->
     TimedCopy gF gT fuel TCPY_MODE_MIRROR sd sf dd df
     = TimedCopy gF gT fuel TCPY_MODE_COPY sd sf dd df)
  /\ (forall gF gT f sd dd df w w2,
       String.eqb sd dd = false ->
       TimedCopy gF gT (S f) TCPY_MODE_MIRROR sd "" dd df w = (Some 0, w2) ->
       exists w0 o w1,
         sys_opendir sd w0 = (Some o, w0)
         /\ (match o with
             | Some es => tc_walk (tc_entry gF gT f TCPY_MODE_MIRROR sd dd
                                     (fun s d => TimedCopy gF gT f TCPY_MODE_MIRROR s "" d "")) es
             | None => ret 0
             end) w0 = (Some 0, w1)
         /\ tc_mirror_cleanup gT sd dd w1 = (Some tt, w2))
  /\ (forall sd0 dd0 w d i p,
       let ksd := resolve (w_cwd w) (sd0 ^^ "/") in
       let kd := resolve (w_cwd w) (dd0 ^^ "/") in
       ksd <> kd ->
       fs_lookup kd (w_fs w) = Some (NDir d i p) ->
       w_fails w (SOpendir kd) = false ->
       (forall k n, In (k, n) (w_fs w) -> forallb name_okb k = true) ->
       exists w', tc_mirror_cleanup false (sd0 ^^ "/") (dd0 ^^ "/") w = (Some tt, w')
         /\ forall k, fs_lookup k (w_fs w')
            = if is_child kd k && is_reg (fs_lookup k (w_fs w))
                 && negb (is_reg (fs_lookup (ksd ++ [last k ""]) (w_fs w)))
                 && negb (w_fails w (SUnlink k))
              then None else fs_lookup k (w_fs w))
  /\ (forall gT sd dd w, exists w', tc_mirror_cleanup gT sd dd w = (Some tt, w'))
  /\ (forall sd dd e es w,
       (Z.land (d_type e) DT_REG =? DT_REG) = true ->
       is_reg (fs_lookup (resolve (w_cwd w) (sd ^^ d_name e)) (w_fs w)) = false ->
       is_reg (fs_lookup (resolve (w_cwd w) (dd ^^ d_name e)) (w_fs w))
         && negb (w_fails w (SUnlink (resolve (w_cwd w) (dd ^^ d_name e)))) = false ->
       tc_cleanup_walk false sd dd (e :: es) w
       = tc_cleanup_walk false sd dd es
           (add_outs [ELog ("Delete " ^^ dd ^^ d_name e); EUnlink (dd ^^ d_name e);
                      ELog ("WARNING: Failed to delete " ^^ dd ^^ d_name e)] w))
  /\ (let r := TimedCopy false false 20 TCPY_MODE_MIRROR "s/" "" "d/" "" w_c8 in
      fst r = Some 0
      /\ w_fs (snd r) = removelast fs_c8
      /\ last fs_c8 ([], NDir 0 0 0) = (["d"; "c"], NReg 1 9 420 [4] 12 0))
  /\ (let r := TimedCopy false false 20 TCPY_MODE_MIRROR "s/" "a" "d/" "a" w_c8 in
      fst r = Some 0 /\ w_fs (snd r) = fs_c8).
Proof.
  split; [exact TimedCopy_single_mirror|].
  split; [exact mirror_dir_ends_with_cleanup|].
  split; [exact mirror_cleanup_spec|].
  split; [exact mirror_cleanup_total|].
  split; [exact cleanup_unlink_warning|].
  split; vm_compute; repeat split.
Qed.

(** ** C9 *)

(** C9. An iteration of the keyboard loop with no pending key polls
    once and then, when paused, polls again at once, with no sleep; when
    not paused it returns 0 (Continue). *)
Theorem kc_loop_paused_no_sleep f p w r :
  w_polls w = None :: r ->
  kc_loop (S f) p 0 w
  = (if p then kc_loop f p 0 else ret 0) (set_polls r (add_out EPoll w)).
Proof.
  intros H. cbn [kc_loop]. unfold sys_select_getchar, emit, modify, gets, bind at 1.
  unfold bind at 1. cbn -[kc_loop]. rewrite H. cbn -[kc_loop]. destruct p; reflexivity.
Qed.

Lemma kc_loop_paused_no_sleep_witness :
  kc_loop 3 true 0 w_c9 = kc_loop 2 true 0 (set_polls [None; Some 32] (add_out EPoll w_c9)).
Proof. apply (kc_loop_paused_no_sleep 2 true w_c9 [None; Some 32]). reflexivity. Defined.

(** ** C10 *)

(** C10. An absent destination is read as the zeroed snapshot: for an
    empty source with mtime (0, 0) and no destination, [TimedCopyFile]
    returns 0 without creating or writing any file, the destination is
    still absent, and in Move mode the source is deleted. *)
Theorem absent_dest_zero_snapshot gF fuel iMode src dst w d i p :
  fs_lookup (resolve (w_cwd w) src) (w_fs w) = Some (NReg d i p [] 0 0) ->
  fs_lookup (resolve (w_cwd w) dst) (w_fs w) = None ->
  giPauseAfterVerif (w_glob w) = 0 ->
  w_fails w (SUnlink (resolve (w_cwd w) src)) = false ->
  exists w',
    TimedCopyFile gF false fuel iMode src dst w = (Some 0, w')
    /\ fs_lookup (resolve (w_cwd w) dst) (w_fs w') = None
    /\ fs_lookup (resolve (w_cwd w) src) (w_fs w')
       = (if iMode =? TCPY_MODE_DEL then None else Some (NReg d i p [] 0 0))
    /\ exists l, w_out w' = w_out w ++ l /\ existsb creates_file l = false.
Proof.
  intros Hs Hd Hp Hf. unfold TimedCopyFile.
  rewrite (bind_run _ _ _ _ _ (tcf_transfer_empty_absent gF false fuel _ _ _ _ _ _ Hs Hd)).
  destruct (iMode =? TCPY_MODE_DEL) eqn:Em.
  - apply Z.eqb_eq in Em; subst iMode.
    rewrite (bind_run _ _ _ _ _ (tcf_delete_source_move_ok _ dst _ _ _ _ _ _ _ Hs Hf)).
    destruct (tcf_bookkeeping_ok gF fuel
                (set_fs (fs_remove (resolve (w_cwd w) src) (w_fs w))
                   (add_out (EUnlink src) (add_out (ELog ("Delete " ^^ src)) w))) Hp)
      as (w' & Hb & Hfs & l & Ho & Hl).
    exists w'; split; [exact Hb|]. rewrite Hfs. cbn -[resolve fs_remove].
    assert (Hne : resolve (w_cwd w) dst <> resolve (w_cwd w) src) by congruence.
    rewrite !fs_lookup_remove, path_eqb_false, Hd, path_eqb_refl by exact Hne.
    split; [reflexivity|split; [reflexivity|]].
    exists ([ELog ("Delete " ^^ src); EUnlink src] ++ l). rewrite Ho. cbn.
    rewrite <- !app_assoc. split; [reflexivity|].
    revert Hl. clear. induction l as [|e l IH]; [reflexivity|].
    cbn. destruct e; cbn; try discriminate; exact IH.
  - unfold tcf_delete_source. rewrite Em, andb_false_r.
    unfold bind at 1, ret at 1. cbv beta iota.
    destruct (tcf_bookkeeping_ok gF fuel w Hp) as (w' & Hb & Hfs & l & Ho & Hl).
    exists w'; split; [exact Hb|]. rewrite Hfs, Hd, Hs.
    split; [reflexivity|split; [reflexivity|]].
    exists l; split; [exact Ho|].
    revert Hl. clear. induction l as [|e l IH]; [reflexivity|].
    cbn. destruct e; cbn; try discriminate; exact IH.
Qed.

Lemma absent_dest_zero_snapshot_witness :
  exists w',
    TimedCopyFile false false 10 TCPY_MODE_DEL "s/e" "d/e" w_c10 = (Some 0, w')
    /\ fs_lookup (resolve (w_cwd w_c10) "d/e") (w_fs w') = None
    /\ fs_lookup (resolve (w_cwd w_c10) "s/e") (w_fs w')
       = (if TCPY_MODE_DEL =? TCPY_MODE_DEL then None else Some (NReg 1 4 420 [] 0 0))
    /\ exists l, w_out w' = w_out w_c10 ++ l /\ existsb creates_file l = false.
Proof.
  apply (absent_dest_zero_snapshot false 10 TCPY_MODE_DEL "s/e" "d/e" w_c10 1 4 420);
    reflexivity.
Defined.

(** * Further properties of the code *)

(** ** Lemmas used by them *)

Lemma string_length_append (a b : string) :
  String.length (a ^^ b) = (String.length a + String.length b)%nat.
Proof. induction a; cbn; [reflexivity | rewrite IHa; reflexivity]. Qed.

Lemma substring_length n m (s : string) :
  String.length (String.substring n m s) = Nat.min m (String.length s - n).
Proof.
  revert n m; induction s as [|c s IH]; intros n m.
  - destruct n, m; reflexivity.
  - destruct n as [|n].
    + destruct m as [|m]; [reflexivity|]. cbn. rewrite IH, Nat.sub_0_r. reflexivity.
    + cbn. apply IH.
Qed.

Lemma msb_test c : (Z.land c 2147483648 =? 0) = negb (Z.testbit c 31).
Proof.
  change 2147483648 with (2 ^ 31).
  destruct (Z.testbit c 31) eqn:T; cbn [negb].
  - apply Z.eqb_neq; intros H0.
    assert (Z.testbit (Z.land c (2 ^ 31)) 31 = true)
      by (rewrite Z.land_spec, Z.pow2_bits_true by lia; rewrite T; reflexivity).
    rewrite H0, Z.bits_0 in H; discriminate.
  - apply Z.eqb_eq. apply Z.bits_inj'; intros n Hn.
    rewrite Z.land_spec, Z.pow2_bits_eqb, Z.bits_0 by lia.
    destruct (Z.eqb_spec 31 n); [subst; rewrite T; reflexivity | apply andb_false_r].
Qed.

(** Bit [n] of one step on a [w]-bit word, [n < w]. *)

Lemma ChecksumStepW_bit w c b n :
  0 <= n < Z.of_nat w ->
  Z.testbit (ChecksumStepW w c b) n
  = if n =? 0 then Z.testbit c 31
    else xorb (Z.testbit c (n - 1)) (Z.testbit b (n - 1) && (n - 1 <? 8)).
Proof.
  intros Hn. unfold ChecksumStepW. rewrite msb_test.
  assert (H2 : Z.testbit (Z.land (Z.shiftl (Z.lxor c (Z.land b 255)) 1) (Z.ones (Z.of_nat w))) n
               = if n =? 0 then false
                 else xorb (Z.testbit c (n - 1)) (Z.testbit b (n - 1) && (n - 1 <? 8))).
  { rewrite Z.land_spec, Z.testbit_ones_nonneg, (proj2 (Z.ltb_lt _ _)) by lia.
    rewrite andb_true_r, Z.shiftl_spec by lia.
    destruct (Z.eqb_spec n 0) as [->|Hn0].
    - apply Z.testbit_neg_r; lia.
    - rewrite Z.lxor_spec. change 255 with (Z.ones 8).
      rewrite Z.land_spec, Z.testbit_ones_nonneg by lia. reflexivity. }
  destruct (Z.testbit c 31); cbn [negb].
  - rewrite Z.lor_spec, H2. destruct (Z.eqb_spec n 0) as [->|Hn0]; [reflexivity|].
    change 1 with (2 ^ 0). rewrite Z.pow2_bits_false by lia. apply orb_false_r.
  - rewrite H2. destruct (n =? 0); reflexivity.
Qed.

Lemma ChecksumStep_low32 c b :
  Z.land (ChecksumStepW ULONG_BITS c b) (Z.ones 32)
  = spec_checksum_step (Z.land c (Z.ones 32)) b.
Proof.
  assert (Hc : 0 <= Z.land c (Z.ones 32) < 2 ^ 32)
    by (rewrite Z.land_ones by lia; apply Z.mod_pos_bound; lia).
  rewrite <- ChecksumStepW_32 by exact Hc.
  apply Z.bits_inj'; intros n Hn.
  rewrite Z.land_spec, Z.testbit_ones_nonneg by lia.
  destruct (Z.ltb_spec n 32) as [Hlt|Hge].
  - rewrite andb_true_r, !ChecksumStepW_bit by (cbn; lia).
    destruct (Z.eqb_spec n 0); rewrite Z.land_spec, ?Z.testbit_ones_nonneg by lia;
      [rewrite (proj2 (Z.ltb_lt 31 32)) by lia; rewrite andb_true_r; reflexivity|].
    rewrite (proj2 (Z.ltb_lt (n - 1) 32)) by lia. rewrite andb_true_r. reflexivity.
  - rewrite andb_false_r. symmetry. apply testbit_high; [apply ChecksumStepW_32_range | lia].
Qed.

Lemma kc_loop_codes fuel p e w r w' :
  (e = 0 \/ e = ERROR_TCPY_STOP) ->
  kc_loop fuel p e w = (Some r, w') -> r = 0 \/ r = ERROR_TCPY_STOP.
Proof.
  revert p e w. induction fuel as [|f IH]; intros p e w He H; [discriminate|].
  cbn [kc_loop] in H.
  unfold sys_select_getchar, emit, modify, gets, bind, ret in H. cbn -[kc_loop] in H.
  destruct (w_polls _) as [|[i|] rest].
  - destruct ((e =? 0) && p); [eapply IH; eauto | injection H as <- _; exact He].
  - cbn -[kc_loop] in H.
    destruct ((i =? 32) || (i =? 112) || (i =? 80)); [|destruct ((i =? 27) || (i =? 113) || (i =? 81)); [|destruct ((i =? 118) || (i =? 86))]];
    unfold set_pause_after_verif, EchoPrint, usleep, emit, modify, put_glob, get_glob, gets, bind, ret in H;
    cbn -[kc_loop] in H;
    repeat match type of H with
           | context [if ?b then _ else _] =>
               lazymatch b with context [kc_loop] => fail | _ => destruct b end
           end; cbn -[kc_loop] in H;
    first [ injection H as <- _; first [exact He | right; reflexivity]
          | eapply IH; [|exact H]; first [exact He | right; reflexivity] ].
  - destruct ((e =? 0) && p); [eapply IH; eauto | injection H as <- _; exact He].
Qed.

Lemma kc_loop_resume f w w' :
  kc_loop f true 0 w = (Some 0, w') ->
  exists l, w_out w' = w_out w ++ l /\ In (ELog "Resume...") l.
Proof.
  revert w. induction f as [|f IH]; intros w H; [discriminate|].
  cbn [kc_loop] in H.
  unfold sys_select_getchar, emit, modify, gets, bind, ret in H. cbn -[kc_loop] in H.
  destruct (w_polls _) as [|[i|] rest].
  - apply IH in H as [l [Hl Hin]]. exists (EPoll :: l). split; [rewrite Hl; cbn; rewrite <- app_assoc; reflexivity | right; exact Hin].
  - cbn -[kc_loop] in H.
    destruct ((i =? 32) || (i =? 112) || (i =? 80)); [|destruct ((i =? 27) || (i =? 113) || (i =? 81)); [|destruct ((i =? 118) || (i =? 86))]];
    unfold set_pause_after_verif, EchoPrint, usleep, emit, modify, put_glob, get_glob, gets, bind, ret in H;
    cbn -[kc_loop] in H.
    + injection H as <-. eexists; split; [cbn; rewrite <- !app_assoc; reflexivity | cbn; right; left; reflexivity].
    + discriminate H.
    + apply IH in H as [l [Hl Hin]]. eexists; split;
        [rewrite Hl; cbn; rewrite <- !app_assoc; reflexivity | repeat (apply in_or_app; right); exact Hin].
    + apply IH in H as [l [Hl Hin]]. eexists; split;
        [rewrite Hl; cbn; rewrite <- !app_assoc; reflexivity | repeat (apply in_or_app; right); exact Hin].
  - apply IH in H as [l [Hl Hin]]. exists (EPoll :: l). split; [rewrite Hl; cbn; rewrite <- app_assoc; reflexivity | right; exact Hin].
Qed.

Lemma reg_not_dir p : Z.land (Z.lor S_IFREG (Z.land p 4095)) S_IFDIR = 0.
Proof.
  rewrite Z.land_lor_distr_l, <- Z.land_assoc. change (Z.land 4095 S_IFDIR) with 0.
  rewrite Z.land_0_r. reflexivity.
Qed.

Lemma DirectoryExist_run s b w :
  DirectoryExist s b w
  = (Some (match fs_lookup (resolve (w_cwd w) s) (w_fs w) with
           | Some n => (is_dir n, stat_of_node n)
           | None => (false, b)
           end), w).
Proof.
  unfold DirectoryExist. rewrite (bind_run _ _ _ _ _ (sys_stat_run s w)).
  destruct (fs_lookup _ _) as [[d i p|d i p data sec nsec]|]; cbn [option_map];
    [cbn [stat_of_node st_mode]; rewrite land_lor_same
    |cbn [stat_of_node st_mode]; rewrite reg_not_dir|]; reflexivity.
Qed.

Lemma string_last_split (s : string) n :
  String.length s = S n ->
  exists ch, String.get n s = Some ch /\ s = String.substring 0 n s ^^ String ch "".
Proof.
  revert n; induction s as [|c s IH]; intros n H; [discriminate|].
  destruct n as [|n].
  - destruct s; [|discriminate]. exists c. split; reflexivity.
  - cbn in H. injection H as H. destruct (IH n H) as [ch [H1 H2]].
    exists ch. split; [exact H1|]. cbn. rewrite <- H2. reflexivity.
Qed.

Lemma resolve_slash cwd c :
  c <> "" -> resolve cwd (c ^^ "/") = resolve cwd c.
Proof.
  intros Hc. rewrite !resolve_eq.
  assert (Hg : String.get 0 (c ^^ "/") = String.get 0 c) by (destruct c; [congruence | reflexivity]).
  rewrite Hg. change "/" with (String "/" "") at 1. rewrite split_slash_app_slash.
  cbn [split_slash].
  rewrite (app_removelast_last "" (split_slash_nonempty c "")) at 3.
  replace (removelast (split_slash c "") ++ [last (split_slash c "") ""; ""])
    with ((removelast (split_slash c "") ++ [last (split_slash c "") ""]) ++ [""])
    by (rewrite <- app_assoc; reflexivity).
  rewrite norm_components_app. reflexivity.
Qed.

Lemma sys_mkdir_true c m w w' :
  sys_mkdir c m w = (Some true, w') ->
  w_cwd w' = w_cwd w /\
  exists d i, fs_lookup (resolve (w_cwd w') c) (w_fs w') = Some (NDir d i (Z.land m 511)).
Proof.
  unfold sys_mkdir, emit, resolved, failing, lookup_node, fresh_ino, update_fs,
    gets, modify, bind, ret. cbn -[fs_set resolve].
  destruct (resolve (w_cwd w) c) as [|x xs] eqn:Ek; [intros H; discriminate H|].
  destruct (fs_lookup (x :: xs) (w_fs w)); [intros H; discriminate H|].
  destruct (fs_lookup (removelast (x :: xs)) (w_fs w)) as [[d i p|]|]; try (intros H; discriminate H).
  destruct (w_fails w (SMkdir (x :: xs))); [intros H; discriminate H|].
  intros H. injection H as <-. cbn -[fs_set resolve]. split; [reflexivity|].
  rewrite Ek, fs_lookup_set, path_eqb_refl. eauto.
Qed.

Lemma stat_into_run s b w :
  stat_into s b w = (Some (match fs_lookup (resolve (w_cwd w) s) (w_fs w) with
                           | Some n => stat_of_node n | None => b end), w).
Proof. unfold stat_into; rewrite (bind_run _ _ _ _ _ (sys_stat_run s w)).
  destruct (fs_lookup _ _); reflexivity. Qed.

Ltac bind_case H x w1 E :=
  lazymatch type of H with
  | bind ?m ?k ?w0 = _ =>
      destruct (m w0) as [[x|] w1] eqn:E;
      [rewrite (bind_run m k w0 x w1 E) in H | rewrite (bind_stop m k w0 w1 E) in H; discriminate H]
  end.

Lemma bind_get_glob {A} (k : Globals -> M A) w : bind get_glob k w = k (w_glob w) w.
Proof. reflexivity. Qed.

Lemma kc_loop_file_count fuel p e w r w' :
  kc_loop fuel p e w = (Some r, w') -> giFileCount (w_glob w') = giFileCount (w_glob w).
Proof.
  revert p e w. induction fuel as [|f IH]; intros p e w H; [discriminate|].
  cbn [kc_loop] in H.
  unfold sys_select_getchar, emit, modify, gets, bind, ret in H. cbn -[kc_loop] in H.
  destruct (w_polls _) as [|[i|] rest].
  - destruct ((e =? 0) && p); [apply IH in H; exact H | injection H as _ <-; reflexivity].
  - cbn -[kc_loop] in H.
    destruct ((i =? 32) || (i =? 112) || (i =? 80)); [|destruct ((i =? 27) || (i =? 113) || (i =? 81)); [|destruct ((i =? 118) || (i =? 86))]];
    unfold set_pause_after_verif, EchoPrint, usleep, emit, modify, put_glob, get_glob, gets, bind, ret in H;
    cbn -[kc_loop] in H;
    repeat match type of H with
           | context [if ?b then _ else _] =>
               lazymatch b with context [kc_loop] => fail | _ => destruct b end
           end; cbn -[kc_loop] in H;
    first [ injection H as _ <-; reflexivity | injection H as <-; reflexivity
          | apply IH in H; exact H ].
  - destruct ((e =? 0) && p); [apply IH in H; exact H | injection H as _ <-; reflexivity].
Qed.

Lemma set_counts_run a b c w :
  set_counts a b c w
  = (Some tt, set_glob (mkGlobals a (giPauseAfterVerif (w_glob w)) (giNanoFastest (w_glob w))
                          (giNanoPrev (w_glob w)) b c (giSt_dev (w_glob w))
                          (giSt_ino (w_glob w)) (gszErr (w_glob w))) w).
Proof. reflexivity. Qed.

Lemma KeyboardCheck_file_count fuel b w r w' :
  KeyboardCheck fuel b w = (Some r, w') -> giFileCount (w_glob w') = giFileCount (w_glob w).
Proof.
  unfold KeyboardCheck. intros H. destruct b.
  - rewrite (bind_run _ _ _ _ _ (EchoPrint_run _ _)) in H. apply kc_loop_file_count in H. exact H.
  - apply kc_loop_file_count in H. exact H.
Qed.

Lemma get_beyond s k : (String.length s <= k)%nat -> String.get k s = None.
Proof.
  revert k; induction s as [|c s IH]; intros k Hk; [reflexivity|].
  destruct k as [|k]; cbn in Hk; [lia|]. cbn. apply IH. lia.
Qed.

Lemma no_slash_get s : no_slash s = true <-> forall k, is_slash (String.get k s) = false.
Proof.
  induction s as [|c s IH]; cbn.
  - split; [reflexivity | intros _; reflexivity].
  - rewrite andb_true_iff, negb_true_iff, IH. split.
    + intros [Hc Hs] [|k]; [exact Hc | apply Hs].
    + intros H. split; [exact (H 0%nat) | intros k; exact (H (S k))].
Qed.

Lemma scan_back_spec s j :
  (scan_back s j <= j)%nat
  /\ (forall k, (scan_back s j < k <= j)%nat -> is_slash (String.get k s) = false)
  /\ (is_slash (String.get (scan_back s j) s) = true \/ scan_back s j = 0%nat).
Proof.
  induction j as [|j IH]; cbn [scan_back].
  - split; [lia | split; [intros; lia | right; reflexivity]].
  - destruct (is_slash (String.get (S j) s)) eqn:E.
    + split; [lia | split; [intros; lia | left; exact E]].
    + destruct IH as (H1 & H2 & H3). split; [lia | split; [|exact H3]].
      intros k Hk. destruct (Nat.eq_dec k (S j)) as [->|Hne]; [exact E|]. apply H2; lia.
Qed.

Lemma substring_full s : String.substring 0 (String.length s) s = s.
Proof. induction s as [|c s IH]; cbn; [reflexivity | rewrite IH; reflexivity]. Qed.

Lemma substring_split s n :
  (n <= String.length s)%nat ->
  String.substring 0 n s ^^ String.substring n (String.length s - n) s = s.
Proof.
  revert n; induction s as [|c s IH]; intros n Hn.
  - destruct n; reflexivity.
  - destruct n as [|n].
    + cbn. rewrite substring_full. reflexivity.
    + cbn in Hn |- *. rewrite IH by lia. reflexivity.
Qed.

Lemma substring_get0 s m p : (p < m)%nat -> String.get p (String.substring 0 m s) = String.get p s.
Proof.
  intros H. rewrite (substring_correct1 s 0 m p H). rewrite Nat.add_0_r. reflexivity.
Qed.

Lemma split_path_spec_aux s :
  no_slash (snd (split_path s)) = true
  /\ (if no_slash s then split_path s = ("./", s)
      else fst (split_path s) ^^ snd (split_path s) = s
           /\ String.get (String.length (fst (split_path s)) - 1) (fst (split_path s))
              = Some "/"%char).
Proof.
  unfold split_path.
  destruct (scan_back_spec s (String.length s)) as (H1 & H2 & H3).
  set (j := scan_back s (String.length s)) in *.
  destruct (is_slash (String.get j s)) eqn:Ej.
  - assert (Hj : (j < String.length s)%nat).
    { destruct (Nat.lt_ge_cases j (String.length s)) as [|Hge]; [assumption|].
      rewrite get_beyond in Ej by exact Hge. discriminate. }
    assert (Hns : no_slash s = false).
    { destruct (no_slash s) eqn:E; [|reflexivity].
      rewrite (proj1 (no_slash_get s) E j) in Ej. discriminate. }
    rewrite Hns. cbn [fst snd]. split; [|split].
    + apply no_slash_get. intros k.
      destruct (Nat.lt_ge_cases k (String.length s - S j)) as [Hk|Hk].
      * rewrite (substring_correct1 s (S j) _ k Hk). apply H2. lia.
      * rewrite get_beyond; [reflexivity|]. rewrite substring_length. lia.
    + apply substring_split. lia.
    + rewrite substring_length, Nat.sub_0_r, Nat.min_l by lia.
      replace (S j - 1)%nat with j by lia. rewrite substring_get0 by lia.
      destruct (String.get j s) as [c|] eqn:Ec; [|discriminate].
      cbn in Ej. apply Ascii.eqb_eq in Ej. subst c. reflexivity.
  - destruct H3 as [H3|H3]; [congruence|].
    assert (Hall : forall k, is_slash (String.get k s) = false).
    { intros k. destruct k as [|k]; [rewrite <- H3; exact Ej|].
      destruct (Nat.le_gt_cases (S k) (String.length s)) as [Hk|Hk].
      - apply H2. lia.
      - rewrite get_beyond by lia. reflexivity. }
    rewrite (proj2 (no_slash_get s) Hall). cbn [fst snd].
    split; [apply no_slash_get; exact Hall | reflexivity].
Qed.

Lemma set_err_run s w :
  set_err s w
  = (Some tt, set_glob (mkGlobals (giFileCount (w_glob w)) (giPauseAfterVerif (w_glob w))
                          (giNanoFastest (w_glob w)) (giNanoPrev (w_glob w))
                          (giCopyByteCount (w_glob w)) (giTotalByteCount (w_glob w))
                          (giSt_dev (w_glob w)) (giSt_ino (w_glob w)) s) w).
Proof. reflexivity. Qed.

Lemma parse_args_stopped fuel p args w :
  ps_err p <> 0 -> parse_args fuel p args w = (Some p, w).
Proof.
  intros H; destruct args; cbn; [reflexivity|]. rewrite (proj2 (Z.eqb_neq _ _) H). reflexivity.
Qed.

Lemma bind_parse_stopped {A} fuel p args (k : ParseState -> M A) w :
  ps_err p <> 0 -> bind (parse_args fuel p args) k w = k p w.
Proof. intros H. apply bind_run, parse_args_stopped, H. Qed.

Lemma main_tail_run iErr w :
  (EchoPrint "";; g <- get_glob;; printf_line (report_msg iErr (gszErr g));; ret 0) w
  = (Some 0, add_out (ELog (report_msg iErr (gszErr (w_glob w)))) (add_out (ELog "") w)).
Proof. reflexivity. Qed.

Ltac run_parse H :=
  repeat (cbv beta iota zeta in H;
    first
    [ rewrite (bind_run _ _ _ _ _ (FilenameExist_run _ _ _)) in H
    | rewrite (bind_run _ _ _ _ _ (DirectoryExist_run _ _ _)) in H
    | match type of H with
      | context [match ?x with Some _ => _ | None => _ end] => destruct x
      | (if ?b then _ else _) _ = _ => destruct b
      | bind (DirectoryValidate _ _ _) _ _ = _ =>
          let x := fresh "x" in let w1 := fresh "w" in let E := fresh "E" in
          bind_case H x w1 E; destruct x
      end ]).

Lemma parse_path_flags fuel p a w p' w' :
  parse_path fuel p a w = (Some p', w') ->
  ps_mode p' = ps_mode p /\ ps_faster p' = ps_faster p /\ ps_test p' = ps_test p.
Proof.
  unfold parse_path. intros H.
  destruct (ps_src p) as [[sd sf]|]; run_parse H;
    unfold ret in H; injection H as <- <-; cbn; auto.
Qed.

Lemma parse_arg_test fuel p a w p' w' :
  parse_arg fuel p a w = (Some p', w') -> ps_test p' = ps_test p || String.eqb a "-t".
Proof.
  unfold parse_arg. intros H.
  destruct (String.eqb_spec a "-del") as [->|_].
  { unfold ret in H; injection H as <- <-. destruct (negb _); cbn; apply eq_sym, orb_false_r. }
  destruct (String.eqb_spec a "-mir") as [->|_].
  { unfold ret in H; injection H as <- <-. destruct (negb _); cbn; apply eq_sym, orb_false_r. }
  destruct (String.eqb_spec a "-sync") as [->|_].
  { destruct (negb _); [unfold ret in H; injection H as <- <-; cbn; apply eq_sym, orb_false_r|].
    rewrite (bind_run _ _ _ _ _ (set_err_run _ _)) in H. unfold ret in H.
    injection H as <- <-. cbn; apply eq_sym, orb_false_r. }
  destruct (String.eqb_spec a "-f") as [->|_].
  { unfold ret in H; injection H as <- <-. cbn; apply eq_sym, orb_false_r. }
  destruct (String.eqb_spec a "-t") as [->|Ht].
  { unfold ret in H; injection H as <- <-. cbn. rewrite orb_true_r. reflexivity. }
  rewrite orb_false_r.
  apply parse_path_flags in H. apply H.
Qed.

Lemma parse_args_test fuel args p w p' w' :
  parse_args fuel p args w = (Some p', w') ->
  ps_test p = true \/ In "-t" args -> ps_test p' = true \/ ps_err p' <> 0.
Proof.
  revert p w. induction args as [|a r IH]; intros p w H Hin; cbn [parse_args] in H.
  - unfold ret in H; injection H as <- <-. destruct Hin as [Ht|[]]. left; exact Ht.
  - destruct (Z.eqb_spec (ps_err p) 0) as [E|E].
    + bind_case H p1 w1 E1. apply (IH p1 w1 H).
      rewrite (parse_arg_test _ _ _ _ _ _ E1).
      destruct Hin as [Ht|[<-|Hr]].
      * left; rewrite Ht; reflexivity.
      * left; rewrite String.eqb_refl; apply orb_true_r.
      * right; exact Hr.
    + unfold ret in H; injection H as <- <-. right; exact E.
Qed.

Lemma dry_set_err s : Sat R_dry (set_err s).
Proof. intros w. open_prim. dry_tac. Qed.

Lemma dry_DirectoryValidate fuel s b : Sat R_dry (DirectoryValidate fuel s b).
Proof.
  apply g_DirectoryValidate; [exact R_dry_refl | exact R_dry_trans | ..];
    unfold Sat; intros; try discriminate; open_prim; dry_tac.
Qed.

Lemma dry_parse_args fuel p args : Sat R_dry (parse_args fuel p args).
Proof.
  assert (HE : forall s b, Sat R_dry (FilenameExist s b)) by
    (intros; apply (g_FilenameExist R_dry R_dry_refl R_dry_trans)).
  assert (HD : forall s b, Sat R_dry (DirectoryExist s b)) by
    (intros; apply (g_DirectoryExist R_dry R_dry_refl R_dry_trans)).
  pose proof R_dry_refl as Hr. pose proof R_dry_trans as Ht.
  pose proof (dry_DirectoryValidate fuel) as HV. pose proof dry_set_err as HS.
  revert p; induction args as [|a r IH]; intros p; cbn [parse_args].
  - apply sat_ret; assumption.
  - destruct (ps_err p =? 0); [|apply sat_ret; assumption].
    apply sat_bind; [assumption | assumption | | intros; apply IH].
    unfold parse_arg, parse_path. sat_solve.
Qed.

Lemma lookup_set_glob g w k :
  fs_lookup (resolve (w_cwd (set_glob g w)) k) (w_fs (set_glob g w))
  = fs_lookup (resolve (w_cwd w) k) (w_fs w).
Proof. reflexivity. Qed.

Lemma parse_arg_path fuel p a :
  ~ In a ["-del"; "-mir"; "-sync"; "-f"; "-t"] -> parse_arg fuel p a = parse_path fuel p a.
Proof.
  intros Hf. unfold parse_arg.
  repeat match goal with
         | |- context [String.eqb a ?b] =>
             let E := fresh in
             destruct (String.eqb_spec a b) as [E|_]; [exfalso; apply Hf; rewrite E; cbn; tauto|]
         end.
  reflexivity.
Qed.

Lemma split_path_no_slash s : no_slash s = true -> split_path s = ("./", s).
Proof.
  intros H. pose proof (proj2 (split_path_spec_aux s)) as H2. rewrite H in H2. exact H2.
Qed.

Lemma reg_is_file d i m data sec nsec :
  negb (Z.land (st_mode (stat_of_node (NReg d i m data sec nsec))) S_IFREG =? 0) = true.
Proof. cbn [stat_of_node st_mode]. rewrite land_lor_same. reflexivity. Qed.

Lemma argc_ok n : (2 <= n <= 6)%nat ->
  (Z.of_nat n <? 2) || (Z.of_nat n >? 6) = false.
Proof.
  intros H. apply orb_false_iff; split; [apply Z.ltb_ge | rewrite Z.gtb_ltb; apply Z.ltb_ge]; lia.
Qed.

Lemma dry_printf_line s : Sat R_dry (printf_line s).
Proof. intros w. open_prim. unfold printf_line. open_prim. dry_tac. Qed.

Lemma dir_is_not_file d i m :
  negb (Z.land (st_mode (stat_of_node (NDir d i m))) S_IFREG =? 0) = false.
Proof. cbn [stat_of_node st_mode]. rewrite dir_not_reg. reflexivity. Qed.

Lemma dry_implies_out w w' : R_dry w w' -> exists l, w_out w' = w_out w ++ l.
Proof. intros [(l & H & _) _]. exists l; exact H. Qed.

Lemma bind_parse_args_app {A} fuel p l1 l2 (k : ParseState -> M A) w :
  bind (parse_args fuel p (l1 ++ l2)) k w
  = bind (parse_args fuel p l1) (fun p' => bind (parse_args fuel p' l2) k) w.
Proof.
  revert p w; induction l1 as [|a l1 IH]; intros p w; [reflexivity|].
  cbn [app parse_args]. destruct (Z.eqb_spec (ps_err p) 0) as [E|E].
  - rewrite !bind_assoc_run. unfold bind at 1 3.
    destruct (parse_arg fuel p a w) as [[p1|] w1]; [apply IH | reflexivity].
  - rewrite bind_ret_run, bind_ret_run, bind_parse_stopped by exact E. reflexivity.
Qed.

Ltac not_flag := cbn; intros [Hf|[Hf|[Hf|[Hf|[Hf|[]]]]]]; discriminate Hf.

Lemma R_dv_refl w : R_dv w w.
Proof. split; [apply R_dry_refl | exists []; rewrite app_nil_r; split; reflexivity]. Qed.
Lemma R_dv_trans a b c : R_dv a b -> R_dv b c -> R_dv a c.
Proof.
  intros [D1 (l1 & H1 & F1)] [D2 (l2 & H2 & F2)]; split; [exact (R_dry_trans _ _ _ D1 D2)|].
  exists (l1 ++ l2); rewrite H2, H1, app_assoc, forallb_app, F1, F2; split; reflexivity.
Qed.

Ltac dv_tac :=
  split; [dry_tac
         | cbn; first [ exists []; rewrite app_nil_r; split; reflexivity
                      | eexists; rewrite <- ?app_assoc; split; reflexivity ]].

Lemma dv_DirectoryExist s b : Sat R_dv (DirectoryExist s b).
Proof.
  pose proof R_dv_refl as Hr; pose proof R_dv_trans as Ht.
  unfold DirectoryExist; sat_solve; apply (sat_sys_stat _ Hr Ht).
Qed.

Lemma dv_DirectoryValidate fuel s b : Sat R_dv (DirectoryValidate fuel s b).
Proof.
  pose proof R_dv_refl as Hr; pose proof R_dv_trans as Ht.
  revert s b; induction fuel; intros; simpl; sat_solve.
  all: first [ apply IHfuel | apply dv_DirectoryExist
             | apply (sat_stat_into _ R_dv_refl R_dv_trans)
             | unfold Sat; intros; open_prim; dv_tac ].
Qed.

(** ** The properties *)

(** X1. StringShortner on a string of at least [iMax >= 5] characters keeps its first [h] and last [h] characters around " ... ", for an [h] with [2 * h <= iMax] and [2 * h + 5 <= length]; the result has [2 * h + 5] characters. *)
Theorem StringShortner_long s iMax :
  5 <= iMax -> iMax <= Z.of_nat (String.length s) ->
  let i := Z.of_nat (String.length s) in
  exists h, 0 <= h /\ 2 * h + 5 <= i /\ 2 * h <= iMax
    /\ StringShortner s iMax
       = String.substring 0 (Z.to_nat h) s ^^ " ... "
         ^^ String.substring (Z.to_nat (i - h)) (Z.to_nat h) s
    /\ Z.of_nat (String.length (StringShortner s iMax)) = 2 * h + 5.
Proof.
  intros H5 Hi i. unfold StringShortner. fold i.
  rewrite (proj2 (Z.ltb_ge _ _)) by lia.
  set (m := if i <=? iMax + 5 then iMax - 5 else iMax).
  assert (Hm : 0 <= m /\ m <= iMax /\ (m + 5 <= i)).
  { unfold m; destruct (Z.leb_spec i (iMax + 5)); lia. }
  rewrite Z.quot_div_nonneg by lia.
  set (h := m / 2).
  assert (Hh : 0 <= h /\ 2 * h <= m).
  { unfold h. split; [apply Z.div_pos; lia|]. apply Z.mul_div_le; lia. }
  exists h. repeat split; try lia.
  rewrite !string_length_append, !substring_length. cbn [String.length].
  fold i. lia.
Qed.

Lemma StringShortner_long_witness :
  5 <= 10 /\ 10 <= Z.of_nat (String.length "abcdefghij")
  /\ (let i := Z.of_nat (String.length "abcdefghij") in
      exists h, 0 <= h /\ 2 * h + 5 <= i /\ 2 * h <= 10
        /\ StringShortner "abcdefghij" 10
           = String.substring 0 (Z.to_nat h) "abcdefghij" ^^ " ... "
             ^^ String.substring (Z.to_nat (i - h)) (Z.to_nat h) "abcdefghij"
        /\ Z.of_nat (String.length (StringShortner "abcdefghij" 10)) = 2 * h + 5).
Proof.
  split; [lia|]. split; [cbn; lia|].
  apply (StringShortner_long "abcdefghij" 10); cbn; lia.
Defined.

(** X2. The low 32 bits of the 64-bit ChecksumAdd state are the 32-bit rotate-and-xor checksum of the buffer, started from the low 32 bits of the seed. *)
Theorem ChecksumAdd_low32 buf c :
  Z.land (ChecksumAdd buf c) (Z.ones 32)
  = fold_left spec_checksum_step buf (Z.land c (Z.ones 32)).
Proof.
  unfold ChecksumAdd, ChecksumAddW. revert c.
  induction buf as [|b buf IH]; intros c; cbn [fold_left]; [reflexivity|].
  rewrite IH, ChecksumStep_low32. reflexivity.
Qed.

(** X3. FilenameChecksum of a readable regular file, with fuel for all its buffers, returns 0 and ChecksumAdd of the whole content from seed 0; the only events are keyboard polls, and nothing else changes. *)
Theorem FilenameChecksum_whole_file fuel s w d i p data sec nsec :
  fs_lookup (resolve (w_cwd w) s) (w_fs w) = Some (NReg d i p data sec nsec) ->
  w_fails w (SOpenR (resolve (w_cwd w) s)) = false ->
  w_polls w = [] ->
  (List.length data < Z.to_nat LNBIGBUFFER * fuel)%nat ->
  exists n, FilenameChecksum fuel s w
            = (Some (0, ChecksumAdd data 0), add_outs (repeat EPoll n) w).
Proof. exact (FilenameChecksum_reg fuel s w d i p data sec nsec). Qed.

Lemma FilenameChecksum_whole_file_witness :
  fs_lookup (resolve (w_cwd w_c6) "s/f") (w_fs w_c6) = Some (NReg 1 4 420 [1; 2; 3] 100 5)
  /\ w_fails w_c6 (SOpenR (resolve (w_cwd w_c6) "s/f")) = false
  /\ w_polls w_c6 = []
  /\ (List.length [1; 2; 3] < Z.to_nat LNBIGBUFFER * 1)%nat
  /\ exists n, FilenameChecksum 1 "s/f" w_c6
               = (Some (0, ChecksumAdd [1; 2; 3] 0), add_outs (repeat EPoll n) w_c6).
Proof.
  assert (H1 : fs_lookup (resolve (w_cwd w_c6) "s/f") (w_fs w_c6)
               = Some (NReg 1 4 420 [1; 2; 3] 100 5)) by reflexivity.
  assert (H4 : (List.length [1; 2; 3] < Z.to_nat LNBIGBUFFER * 1)%nat) by (apply Nat.ltb_lt; reflexivity).
  split; [exact H1|]. split; [reflexivity|]. split; [reflexivity|]. split; [exact H4|].
  exact (FilenameChecksum_whole_file 1 "s/f" w_c6 1 4 420 [1; 2; 3] 100 5 H1 eq_refl eq_refl H4).
Defined.

(** X4. KeyboardCheck returns only 0 or ERROR_TCPY_STOP. *)
Theorem KeyboardCheck_codes fuel b w r w' :
  KeyboardCheck fuel b w = (Some r, w') -> r = 0 \/ r = ERROR_TCPY_STOP.
Proof.
  unfold KeyboardCheck. intros H. destruct b.
  - rewrite (bind_run _ _ _ _ _ (EchoPrint_run _ _)) in H.
    eapply kc_loop_codes; [left; reflexivity | exact H].
  - eapply kc_loop_codes; [left; reflexivity | exact H].
Qed.

Lemma KeyboardCheck_codes_witness :
  KeyboardCheck 5 false w_c9 = (Some 0, snd (KeyboardCheck 5 false w_c9))
  /\ (0 = 0 \/ 0 = ERROR_TCPY_STOP).
Proof.
  assert (H : KeyboardCheck 5 false w_c9 = (Some 0, snd (KeyboardCheck 5 false w_c9)))
    by (vm_compute; reflexivity).
  split; [exact H | exact (KeyboardCheck_codes 5 false w_c9 0 _ H)].
Defined.

(** X5. KeyboardCheck called with an induced pause that returns 0 has logged "Pause..." and, later, "Resume...". *)
Theorem KeyboardCheck_induced_pause_resumes fuel w w' :
  KeyboardCheck fuel true w = (Some 0, w') ->
  exists l, w_out w' = w_out w ++ ELog "Pause..." :: l /\ In (ELog "Resume...") l.
Proof.
  unfold KeyboardCheck. intros H.
  rewrite (bind_run _ _ _ _ _ (EchoPrint_run _ _)) in H.
  apply kc_loop_resume in H as [l [Hl Hin]]. exists l. split; [|exact Hin].
  rewrite Hl. cbn. rewrite <- app_assoc. reflexivity.
Qed.

Lemma KeyboardCheck_induced_pause_resumes_witness :
  KeyboardCheck 10 true w_c9 = (Some 0, snd (KeyboardCheck 10 true w_c9))
  /\ exists l, w_out (snd (KeyboardCheck 10 true w_c9))
               = w_out w_c9 ++ ELog "Pause..." :: l /\ In (ELog "Resume...") l.
Proof.
  assert (H : KeyboardCheck 10 true w_c9 = (Some 0, snd (KeyboardCheck 10 true w_c9)))
    by (vm_compute; reflexivity).
  split; [exact H | exact (KeyboardCheck_induced_pause_resumes 10 w_c9 _ H)].
Defined.

(** X6. Outside a pause, one pending key that is not a pause key is consumed: Esc, q or Q return ERROR_TCPY_STOP; v or V log "Pause Requested!" and set giPauseAfterVerif to 1; other keys do nothing more. The file system is untouched. *)
Theorem KeyboardCheck_unpaused_key fuel w c rest :
  w_polls w = Some c :: rest ->
  (c =? 32) || (c =? 112) || (c =? 80) = false ->
  let quit := (c =? 27) || (c =? 113) || (c =? 81) in
  let v := negb quit && ((c =? 118) || (c =? 86)) in
  exists w', KeyboardCheck (S fuel) false w = (Some (if quit then ERROR_TCPY_STOP else 0), w')
    /\ w_fs w' = w_fs w /\ w_polls w' = rest
    /\ w_out w' = w_out w ++ EPoll :: (if v then [ELog "Pause Requested!"] else [])
    /\ giPauseAfterVerif (w_glob w') = (if v then 1 else giPauseAfterVerif (w_glob w)).
Proof.
  intros Hp Hc quit v. unfold KeyboardCheck. cbn [kc_loop].
  unfold sys_select_getchar, emit, modify, gets, bind, ret. cbn -[kc_loop].
  rewrite Hp. cbn -[kc_loop]. rewrite Hc. fold quit. unfold v.
  destruct quit; cbn [negb andb].
  - eexists; repeat split; cbn; rewrite ?app_nil_r; reflexivity.
  - destruct ((c =? 118) || (c =? 86));
    unfold set_pause_after_verif, EchoPrint, usleep, emit, modify, put_glob, get_glob, gets, bind, ret;
    cbn -[kc_loop]; eexists; repeat split; cbn; rewrite <- ?app_assoc; reflexivity.
Qed.

Lemma KeyboardCheck_unpaused_key_witness :
  w_polls w_key_v = Some 118 :: []
  /\ (118 =? 32) || (118 =? 112) || (118 =? 80) = false
  /\ (let quit := (118 =? 27) || (118 =? 113) || (118 =? 81) in
      let v := negb quit && ((118 =? 118) || (118 =? 86)) in
      exists w', KeyboardCheck 3 false w_key_v = (Some (if quit then ERROR_TCPY_STOP else 0), w')
        /\ w_fs w' = w_fs w_key_v /\ w_polls w' = []
        /\ w_out w' = w_out w_key_v ++ EPoll :: (if v then [ELog "Pause Requested!"] else [])
        /\ giPauseAfterVerif (w_glob w')
           = (if v then 1 else giPauseAfterVerif (w_glob w_key_v))).
Proof.
  split; [reflexivity|]. split; [reflexivity|].
  exact (KeyboardCheck_unpaused_key 2 w_key_v 118 [] eq_refl eq_refl).
Defined.

(** X7. When the root is a directory and DirectoryValidate returns 0 for a non-empty path, the path names a directory afterwards and the returned stat buffer is that directory's. *)
Theorem DirectoryValidate_ok_is_dir fuel s b w st w' :
  (exists d i p, fs_lookup [] (w_fs w) = Some (NDir d i p)) ->
  DirectoryValidate fuel s b w = (Some (0, st), w') ->
  s = "" \/ exists d i p, fs_lookup (resolve (w_cwd w') s) (w_fs w') = Some (NDir d i p)
                         /\ st = stat_of_node (NDir d i p).
Proof.
  intros Hroot H. destruct fuel as [|f]; [discriminate H|]. cbn [DirectoryValidate] in H.
  destruct (Nat.eqb_spec (String.length s) 0) as [E0|E0].
  - left. destruct s; [reflexivity | discriminate E0].
  - right. rewrite (bind_run _ _ _ _ _ (DirectoryExist_run s b w)) in H.
    destruct (fs_lookup (resolve (w_cwd w) s) (w_fs w)) as [n|] eqn:En.
    1: destruct n as [d i p|d i p data sec nsec].
    1: { cbn in H. injection H as <- <-. exists d, i, p. split; [exact En | reflexivity]. }
    all: assert (Hnd : forall d i p, fs_lookup (resolve (w_cwd w) s) (w_fs w) <> Some (NDir d i p))
           by (rewrite En; discriminate).
    all: cbn [is_dir] in H; clear En; cbv beta iota zeta in H.
    all: match type of H with context [stat_into "/" ?bb] => generalize dependent bb | _ => idtac end.
    all: try (intros bb H).
    all: match type of H with context [stat_into "/" ?bb] => set (b0 := bb) in H end.
    all: destruct (is_slash (String.get (String.length s - 1) s)) eqn:Es; cbv beta iota zeta in H.
    all: bind_case H x w1 E1; destruct x as [e1 b1]; cbv beta iota in H.
    all: destruct (Z.eqb_spec e1 0) as [->|He1];
           [| injection H as H _; exfalso; apply He1; congruence].
    all: rewrite (bind_run _ _ _ _ _ (EchoPrint_run _ _)) in H.
    all: bind_case H ok w3 E3.
    all: destruct ok; [|unfold set_err, get_glob, put_glob, gets, modify, bind, ret in H;
                        cbn in H; discriminate H].
    all: destruct (sys_mkdir_true _ _ _ _ E3) as [Hcwd [dN [iN Hl]]].
    all: rewrite (bind_run _ _ _ _ _ (stat_into_run _ _ _)), Hl in H.
    all: injection H as <- <-.
    all: exists dN, iN, (Z.land (st_mode b1) 511); split; [|reflexivity].
    2,4: exact Hl.
    all: destruct (string_last_split s (String.length s - 1)) as [ch [Hch Hs]]; [lia|].
    all: rewrite Hch in Es; cbn [is_slash] in Es; apply Ascii.eqb_eq in Es; subst ch.
    all: destruct (String.eqb_spec (String.substring 0 (String.length s - 1) s) "") as [Ec|Ec];
           [ exfalso; rewrite Ec in Hs; cbn in Hs; subst s; destruct Hroot as (d0 & i0 & p0 & Hr);
             apply (Hnd d0 i0 p0); exact Hr |].
    all: rewrite Hs at 1; rewrite resolve_slash by exact Ec; exact Hl.
Qed.

Lemma DirectoryValidate_ok_is_dir_witness :
  (exists d i p, fs_lookup [] (w_fs w_c6) = Some (NDir d i p))
  /\ DirectoryValidate 10 "new/" stat0 w_c6
     = (Some (0, mkStat 16877 512 0 0 1 100), snd (DirectoryValidate 10 "new/" stat0 w_c6))
  /\ ("new/" = "" \/ exists d i p,
        fs_lookup (resolve (w_cwd (snd (DirectoryValidate 10 "new/" stat0 w_c6))) "new/")
                  (w_fs (snd (DirectoryValidate 10 "new/" stat0 w_c6))) = Some (NDir d i p)
        /\ mkStat 16877 512 0 0 1 100 = stat_of_node (NDir d i p)).
Proof.
  assert (Hr : exists d i p, fs_lookup [] (w_fs w_c6) = Some (NDir d i p))
    by (exists 1, 2, 493; reflexivity).
  assert (H : DirectoryValidate 10 "new/" stat0 w_c6
              = (Some (0, mkStat 16877 512 0 0 1 100), snd (DirectoryValidate 10 "new/" stat0 w_c6)))
    by (vm_compute; reflexivity).
  split; [exact Hr|]. split; [exact H|].
  exact (DirectoryValidate_ok_is_dir 10 "new/" stat0 w_c6 _ _ Hr H).
Defined.

(** X8. DirectoryValidate keeps every existing object, creates only directories, and its only events are log lines and mkdir calls. *)
Theorem DirectoryValidate_only_adds_directories fuel s b :
  Sat R_dv (DirectoryValidate fuel s b).
Proof. exact (dv_DirectoryValidate fuel s b). Qed.

(** X9. The split of a path argument into directory and file parts cuts after the last slash: the file part has no slash, the directory part ends with a slash and the two concatenate to the argument; without a slash the parts are "./" and the whole argument. *)
Theorem split_path_last_slash s :
  no_slash (snd (split_path s)) = true
  /\ (if no_slash s then split_path s = ("./", s)
      else fst (split_path s) ^^ snd (split_path s) = s
           /\ String.get (String.length (fst (split_path s)) - 1) (fst (split_path s))
              = Some "/"%char).
Proof. exact (split_path_spec_aux s). Qed.

(** X11. TimedCopy with distinct source and destination directory strings returns ERROR_TCPY_USAGE and changes nothing when the source is not a directory, or when it is not the guarded directory and the destination is not a directory. *)
Theorem TimedCopy_requires_directories gF gT fuel m sd sf dd df w :
  String.eqb sd dd = false ->
  dir_at w sd = false
  \/ (dir_at w dd = false
      /\ forall d i p, fs_lookup (resolve (w_cwd w) sd) (w_fs w) = Some (NDir d i p) ->
                       d <> giSt_dev (w_glob w) \/ i <> giSt_ino (w_glob w)) ->
  TimedCopy gF gT (S fuel) m sd sf dd df w = (Some ERROR_TCPY_USAGE, w).
Proof.
  intros Hsd Hc. cbn [TimedCopy]. rewrite Hsd. cbn [negb].
  rewrite (bind_run _ _ _ _ _ (DirectoryExist_run sd stat0 w)).
  unfold dir_at in Hc.
  destruct (fs_lookup (resolve (w_cwd w) sd) (w_fs w)) as [[d i p|d i p data sec nsec]|] eqn:Es.
  all: cbv beta iota.
  - destruct Hc as [Hc | [Hdd Hg]]; [discriminate Hc|].
    rewrite bind_get_glob. cbv beta.
    cbv beta iota. cbn [stat_of_node st_dev st_ino is_dir].
    destruct (Hg d i p eq_refl) as [Hn|Hn];
      [rewrite (proj2 (Z.eqb_neq _ _) Hn) | rewrite (proj2 (Z.eqb_neq _ _) Hn), andb_false_r];
      cbn [andb Z.eqb]; rewrite bind_assoc_run;
      rewrite (bind_run _ _ _ _ _ (DirectoryExist_run dd stat0 w));
      destruct (fs_lookup (resolve (w_cwd w) dd) (w_fs w)) as [[]|]; cbn in Hdd;
      try discriminate Hdd; reflexivity.
  - rewrite bind_get_glob. cbv beta. reflexivity.
  - rewrite bind_get_glob. cbv beta. reflexivity.
Qed.

Lemma TimedCopy_requires_directories_witness :
  String.eqb "s/" "x/" = false
  /\ (dir_at w_c6 "s/" = false
      \/ (dir_at w_c6 "x/" = false
          /\ forall d i p, fs_lookup (resolve (w_cwd w_c6) "s/") (w_fs w_c6) = Some (NDir d i p) ->
                           d <> giSt_dev (w_glob w_c6) \/ i <> giSt_ino (w_glob w_c6)))
  /\ TimedCopy false false 3 TCPY_MODE_COPY "s/" "" "x/" "" w_c6 = (Some ERROR_TCPY_USAGE, w_c6).
Proof.
  assert (Hd : dir_at w_c6 "s/" = false
      \/ (dir_at w_c6 "x/" = false
          /\ forall d i p, fs_lookup (resolve (w_cwd w_c6) "s/") (w_fs w_c6) = Some (NDir d i p) ->
                           d <> giSt_dev (w_glob w_c6) \/ i <> giSt_ino (w_glob w_c6))).
  { right. split; [reflexivity|]. intros d i p Hl. vm_compute in Hl.
    injection Hl as <- <- <-. left. discriminate. }
  split; [reflexivity|]. split; [exact Hd|].
  exact (TimedCopy_requires_directories false false 2 TCPY_MODE_COPY "s/" "" "x/" "" w_c6 eq_refl Hd).
Defined.

(** X12. Outside faster mode the bookkeeping after a file keeps the file counter within [0, COPYCOUNT); a successful copy that brings the counter to COPYCOUNT, with no pause requested, logs "50 files done, 10 sec. Pause...", sleeps 10 s and resets the counter. *)
Theorem tcf_bookkeeping_file_count fuel iErr w r w' :
  0 <= giFileCount (w_glob w) < COPYCOUNT ->
  tcf_bookkeeping false fuel iErr w = (Some r, w') ->
  0 <= giFileCount (w_glob w') < COPYCOUNT
  /\ (iErr = 0 -> giPauseAfterVerif (w_glob w) = 0 -> giFileCount (w_glob w) = COPYCOUNT - 1 ->
      w_out w' = w_out w ++ [ELog "50 files done, 10 sec. Pause..."; EUsleep 10000000]
      /\ giFileCount (w_glob w') = 0).
Proof.
  intros Hc H. unfold tcf_bookkeeping in H.
  destruct (Z.eqb_spec iErr 0) as [->|Hne].
  2: { unfold ret in H. injection H as _ <-. split; [exact Hc | intros; contradiction]. }
  rewrite bind_get_glob in H. cbv beta zeta in H.
  rewrite (bind_run _ _ _ _ _ (set_counts_run _ _ _ _)) in H. cbv beta in H.
  destruct (Z.eqb_spec (giPauseAfterVerif (w_glob w)) 0) as [Hp|Hp]; cbn [negb] in H.
  - rewrite Z.geb_leb in H.
    destruct (Z.leb_spec COPYCOUNT (giFileCount (w_glob w) + 1)) as [Hf|Hf]; cbn [andb negb] in H.
    + unfold EchoPrint, usleep, emit, modify, ret, bind, set_counts, get_glob, put_glob, gets in H.
      cbn -[z_to_string] in H. injection H as _ <-. cbn -[z_to_string]. split; [unfold COPYCOUNT; lia|].
      intros _ _ _. split; [rewrite <- app_assoc; reflexivity | reflexivity].
    + split; [|intros _ _ Hn; unfold COPYCOUNT in *; lia].
      destruct (_ >? 1073741824).
      * unfold EchoPrint, usleep, emit, modify, ret, bind, set_counts, get_glob, put_glob, gets in H.
        cbn -[z_to_string] in H; injection H as _ <-; cbn; unfold COPYCOUNT; lia.
      * unfold ret in H. injection H as _ <-. cbn. lia.
  - split; [|intros _ Hp'; contradiction].
    rewrite (bind_run _ _ _ _ _ (set_counts_run _ _ _ _)) in H.
    unfold set_pause_after_verif in H. rewrite bind_assoc_run, bind_get_glob in H.
    unfold put_glob, modify, bind at 1 in H. cbv beta iota in H.
    apply KeyboardCheck_file_count in H. rewrite H. cbn. unfold COPYCOUNT; lia.
Qed.

Lemma tcf_bookkeeping_file_count_witness :
  0 <= giFileCount (w_glob w_count49) < COPYCOUNT
  /\ tcf_bookkeeping false 3 0 w_count49 = (Some 0, snd (tcf_bookkeeping false 3 0 w_count49))
  /\ (0 <= giFileCount (w_glob (snd (tcf_bookkeeping false 3 0 w_count49))) < COPYCOUNT
      /\ (0 = 0 -> giPauseAfterVerif (w_glob w_count49) = 0 ->
          giFileCount (w_glob w_count49) = COPYCOUNT - 1 ->
          w_out (snd (tcf_bookkeeping false 3 0 w_count49))
          = w_out w_count49 ++ [ELog "50 files done, 10 sec. Pause..."; EUsleep 10000000]
          /\ giFileCount (w_glob (snd (tcf_bookkeeping false 3 0 w_count49))) = 0)).
Proof.
  assert (Hc : 0 <= giFileCount (w_glob w_count49) < COPYCOUNT) by (unfold COPYCOUNT; cbn; lia).
  assert (H : tcf_bookkeeping false 3 0 w_count49
              = (Some 0, snd (tcf_bookkeeping false 3 0 w_count49))) by (vm_compute; reflexivity).
  split; [exact Hc|]. split; [exact H|].
  exact (tcf_bookkeeping_file_count 3 0 w_count49 0 _ Hc H).
Defined.

(** X13. main with fewer than 2 or more than 6 arguments (program name included) prints an empty line and the usage text, changes no file and returns 0. *)
Theorem main_usage_argc fuel argv w :
  (List.length argv < 2 \/ 6 < List.length argv)%nat ->
  exists w', main fuel argv w = (Some 0, w') /\ w_fs w' = w_fs w
             /\ w_out w' = w_out w ++ [ELog ""; ELog USAGE_TEXT].
Proof.
  intros Hlen. unfold main.
  rewrite (bind_run _ _ _ _ _ (set_err_run _ _)). cbv beta zeta.
  replace ((Z.of_nat (List.length argv) <? 2) || (Z.of_nat (List.length argv) >? 6)) with true
    by (symmetry; apply orb_true_iff; destruct Hlen; [left; apply Z.ltb_lt | right; apply Z.gtb_lt]; lia).
  rewrite bind_parse_stopped by (cbn; discriminate).
  cbv beta zeta. unfold ps_set_err. cbn [ps_err ps_src]. unfold ERROR_TCPY_USAGE, ERROR_TCPY. cbn [Z.eqb]. rewrite bind_ret_run, main_tail_run.
  eexists; split; [reflexivity|]. split; [reflexivity|]. cbn. rewrite <- app_assoc. reflexivity.
Qed.

Lemma main_usage_argc_witness :
  (List.length ["tcpy"] < 2 \/ 6 < List.length ["tcpy"])%nat
  /\ exists w', main 10 ["tcpy"] w_c6 = (Some 0, w') /\ w_fs w' = w_fs w_c6
                /\ w_out w' = w_out w_c6 ++ [ELog ""; ELog USAGE_TEXT].
Proof.
  assert (H : (List.length ["tcpy"] < 2 \/ 6 < List.length ["tcpy"])%nat) by (left; cbn; lia).
  split; [exact H | exact (main_usage_argc 10 ["tcpy"] w_c6 H)].
Defined.

(** X14. main whose first two options are two mode options (-del or -mir, then -del, -mir or -sync) prints the usage text and changes no file. *)
Theorem main_two_modes fuel prog m1 m2 rest w :
  In m1 ["-del"; "-mir"] -> In m2 ["-del"; "-mir"; "-sync"] ->
  (List.length rest <= 3)%nat ->
  exists w', main fuel (prog :: m1 :: m2 :: rest) w = (Some 0, w') /\ w_fs w' = w_fs w
             /\ w_out w' = w_out w ++ [ELog ""; ELog USAGE_TEXT].
Proof.
  intros H1 H2 Hlen. unfold main.
  rewrite (bind_run _ _ _ _ _ (set_err_run _ _)). cbv beta zeta.
  rewrite argc_ok by (cbn [List.length]; lia).
  cbn [tl]. change (m1 :: m2 :: rest) with ([m1; m2] ++ rest).
  rewrite bind_parse_args_app.
  set (w1 := set_glob _ w).
  assert (Hp : exists p, ps_err p = ERROR_TCPY_USAGE
                 /\ parse_args fuel (mkParse 0 TCPY_MODE_COPY false false None None) [m1; m2] w1
                    = (Some p, w1)).
  { destruct H1 as [<-|[<-|[]]]; destruct H2 as [<-|[<-|[<-|[]]]];
      eexists; split; [|reflexivity| |reflexivity| |reflexivity| |reflexivity| |reflexivity| |reflexivity];
      reflexivity. }
  destruct Hp as (p & Ep & Hp). rewrite (bind_run _ _ _ _ _ Hp).
  rewrite bind_parse_stopped by (rewrite Ep; discriminate).
  cbv beta zeta. rewrite Ep. unfold ERROR_TCPY_USAGE. cbn [Z.eqb].
  rewrite bind_ret_run, main_tail_run.
  eexists; split; [reflexivity|]. split; [reflexivity|]. cbn. rewrite <- app_assoc. reflexivity.
Qed.

Lemma main_two_modes_witness :
  In "-del" ["-del"; "-mir"] /\ In "-mir" ["-del"; "-mir"; "-sync"]
  /\ (List.length ["s/f"] <= 3)%nat
  /\ exists w', main 10 ("tcpy" :: "-del" :: "-mir" :: ["s/f"]) w_c6 = (Some 0, w')
                /\ w_fs w' = w_fs w_c6 /\ w_out w' = w_out w_c6 ++ [ELog ""; ELog USAGE_TEXT].
Proof.
  assert (H1 : In "-del" ["-del"; "-mir"]) by (left; reflexivity).
  assert (H2 : In "-mir" ["-del"; "-mir"; "-sync"]) by (right; left; reflexivity).
  assert (H3 : (List.length ["s/f"] <= 3)%nat) by (cbn; lia).
  split; [exact H1|]. split; [exact H2|]. split; [exact H3|].
  exact (main_two_modes 10 "tcpy" "-del" "-mir" ["s/f"] w_c6 H1 H2 H3).
Defined.

(** X15. main with -sync as first option prints "ERROR: Not Yet Implemented!" and changes no file. *)
Theorem main_sync_not_implemented fuel prog rest w :
  (List.length rest <= 4)%nat ->
  exists w', main fuel (prog :: "-sync" :: rest) w = (Some 0, w') /\ w_fs w' = w_fs w
             /\ w_out w' = w_out w ++ [ELog ""; ELog "ERROR: Not Yet Implemented!"].
Proof.
  intros Hlen. unfold main.
  rewrite (bind_run _ _ _ _ _ (set_err_run _ _)). cbv beta zeta.
  replace ((Z.of_nat (List.length (prog :: "-sync" :: rest)) <? 2)
           || (Z.of_nat (List.length (prog :: "-sync" :: rest)) >? 6)) with false
    by (cbn [List.length]; symmetry; apply orb_false_iff; split;
        [apply Z.ltb_ge | rewrite Z.gtb_ltb; apply Z.ltb_ge]; lia).
  cbn [tl parse_args ps_err Z.eqb]. unfold parse_arg. cbn [String.eqb Ascii.eqb Bool.eqb andb negb ps_mode Z.eqb].
  unfold TCPY_MODE_COPY. cbn [Z.eqb negb]. rewrite !bind_assoc_run, (bind_run _ _ _ _ _ (set_err_run _ _)). cbv beta. rewrite bind_ret_run.
  rewrite bind_parse_stopped by (cbn; discriminate).
  cbv beta zeta. unfold ps_set_err. cbn [ps_err ps_src]. unfold ERROR_TCPY_USAGE, ERROR_TCPY. cbn [Z.eqb]. rewrite bind_ret_run, main_tail_run.
  eexists; split; [reflexivity|]. split; [reflexivity|]. cbn. rewrite <- app_assoc. reflexivity.
Qed.

Lemma main_sync_not_implemented_witness :
  (List.length ["s/f"] <= 4)%nat
  /\ exists w', main 10 ("tcpy" :: "-sync" :: ["s/f"]) w_c6 = (Some 0, w') /\ w_fs w' = w_fs w_c6
                /\ w_out w' = w_out w_c6 ++ [ELog ""; ELog "ERROR: Not Yet Implemented!"].
Proof.
  assert (H : (List.length ["s/f"] <= 4)%nat) by (cbn; lia).
  split; [exact H | exact (main_sync_not_implemented 10 "tcpy" ["s/f"] w_c6 H)].
Defined.

(** X16. main whose first argument is not an option and names nothing prints the usage text and changes no file. *)
Theorem main_missing_source fuel prog a rest w :
  (List.length rest <= 4)%nat ->
  ~ In a ["-del"; "-mir"; "-sync"; "-f"; "-t"] ->
  fs_lookup (resolve (w_cwd w) a) (w_fs w) = None ->
  exists w', main fuel (prog :: a :: rest) w = (Some 0, w') /\ w_fs w' = w_fs w
             /\ w_out w' = w_out w ++ [ELog ""; ELog USAGE_TEXT].
Proof.
  intros Hlen Hf Ha. unfold main.
  rewrite (bind_run _ _ _ _ _ (set_err_run _ _)). cbv beta zeta.
  rewrite argc_ok by (cbn [List.length]; lia).
  cbn [tl parse_args ps_err Z.eqb]. rewrite parse_arg_path by exact Hf.
  unfold parse_path. cbn [ps_src]. rewrite !bind_assoc_run.
  rewrite (bind_run _ _ _ _ _ (FilenameExist_run _ _ _)), lookup_set_glob, Ha. cbv beta iota.
  rewrite ?bind_assoc_run, (bind_run _ _ _ _ _ (DirectoryExist_run _ _ _)), lookup_set_glob, Ha. cbv beta iota.
  rewrite bind_ret_run, bind_parse_stopped by (cbn; discriminate).
  cbv beta zeta. unfold ps_set_err. cbn [ps_err ps_src]. unfold ERROR_TCPY_USAGE. cbn [Z.eqb].
  rewrite bind_ret_run, main_tail_run.
  eexists; split; [reflexivity|]. split; [reflexivity|]. cbn. rewrite <- app_assoc. reflexivity.
Qed.

Lemma main_missing_source_witness :
  (List.length ["d"] <= 4)%nat
  /\ ~ In "nope" ["-del"; "-mir"; "-sync"; "-f"; "-t"]
  /\ fs_lookup (resolve (w_cwd w_c6) "nope") (w_fs w_c6) = None
  /\ exists w', main 10 ("tcpy" :: "nope" :: ["d"]) w_c6 = (Some 0, w') /\ w_fs w' = w_fs w_c6
                /\ w_out w' = w_out w_c6 ++ [ELog ""; ELog USAGE_TEXT].
Proof.
  assert (H1 : (List.length ["d"] <= 4)%nat) by (cbn; lia).
  assert (H2 : ~ In "nope" ["-del"; "-mir"; "-sync"; "-f"; "-t"]) by not_flag.
  assert (H3 : fs_lookup (resolve (w_cwd w_c6) "nope") (w_fs w_c6) = None) by reflexivity.
  split; [exact H1|]. split; [exact H2|]. split; [exact H3|].
  exact (main_missing_source 10 "tcpy" "nope" ["d"] w_c6 H1 H2 H3).
Defined.

(** X17. tcpy with a single argument naming a regular file of the working directory reports that the file can't be copied on itself, with the name as StringShortner(name, LNSZ - 60) renders it, and changes no file. *)
Theorem main_file_on_itself fuel prog f w :
  ~ In f ["-del"; "-mir"; "-sync"; "-f"; "-t"] -> f <> "" -> no_slash f = true ->
  (exists d i m data sec nsec,
      fs_lookup (resolve (w_cwd w) f) (w_fs w) = Some (NReg d i m data sec nsec)) ->
  exists w', main (S fuel) [prog; f] w = (Some 0, w') /\ w_fs w' = w_fs w
             /\ w_out w' = w_out w
                           ++ [ELog ""; ELog ("ERROR: Can't copy the " ^^ StringShortner f (LNSZ - 60)
                                              ^^ " file on itself!")].
Proof.
  intros Hf Hne Hs (d & i & m & data & sec & nsec & Hl).
  unfold main.
  rewrite (bind_run _ _ _ _ _ (set_err_run _ _)). cbv beta zeta.
  rewrite argc_ok by (cbn [List.length]; lia).
  cbn [tl parse_args ps_err Z.eqb]. rewrite parse_arg_path by exact Hf.
  unfold parse_path. cbn [ps_src]. rewrite !bind_assoc_run.
  rewrite (bind_run _ _ _ _ _ (FilenameExist_run _ _ _)), lookup_set_glob, Hl. cbv beta iota.
  rewrite reg_is_file, bind_ret_run, split_path_no_slash by exact Hs.
  cbn [parse_args]. rewrite bind_ret_run. cbv beta zeta.
  unfold ps_set_src. cbn [ps_err ps_src ps_dst ps_mode ps_test ps_faster Z.eqb].
  rewrite (proj2 (String.eqb_neq f "") Hne). unfold TCPY_MODE_COPY, TCPY_MODE_DEL.
  cbn [negb andb Z.gtb Z.compare Z.eqb String.eqb].
  rewrite bind_assoc_run, bind_ret_run. cbn [TimedCopy].
  rewrite String.eqb_refl, (proj2 (String.eqb_neq f "") Hne). cbn [negb].
  rewrite String.eqb_refl. cbn [negb]. rewrite bind_assoc_run, (bind_run _ _ _ _ _ (set_err_run _ _)), bind_ret_run.
  rewrite main_tail_run.
  eexists; split; [reflexivity|]. split; [reflexivity|]. cbn -[StringShortner]. rewrite <- app_assoc. reflexivity.
Qed.

Lemma main_file_on_itself_witness :
  ~ In long_name ["-del"; "-mir"; "-sync"; "-f"; "-t"] /\ long_name <> "" /\ no_slash long_name = true
  /\ (exists d i m data sec nsec,
        fs_lookup (resolve (w_cwd w_long) long_name) (w_fs w_long) = Some (NReg d i m data sec nsec))
  /\ StringShortner long_name (LNSZ - 60)
     = repeat_char 120 "a"%char ^^ " ... " ^^ repeat_char 120 "a"%char
  /\ exists w', main 1 ["tcpy"; long_name] w_long = (Some 0, w') /\ w_fs w' = w_fs w_long
                /\ w_out w' = w_out w_long
                              ++ [ELog ""; ELog ("ERROR: Can't copy the " ^^ StringShortner long_name (LNSZ - 60)
                                                 ^^ " file on itself!")].
Proof.
  assert (H1 : ~ In long_name ["-del"; "-mir"; "-sync"; "-f"; "-t"]) by not_flag.
  assert (H2 : long_name <> "") by discriminate.
  assert (H3 : no_slash long_name = true) by reflexivity.
  assert (H4 : exists d i m data sec nsec,
             fs_lookup (resolve (w_cwd w_long) long_name) (w_fs w_long) = Some (NReg d i m data sec nsec))
    by (exists 1, 3, 420, [1; 2], 10, 0; reflexivity).
  split; [exact H1|]. split; [exact H2|]. split; [exact H3|]. split; [exact H4|].
  split; [vm_compute; reflexivity|].
  exact (main_file_on_itself 0 "tcpy" long_name w_long H1 H2 H3 H4).
Defined.

(** X18. tcpy <file> <dir>, for an existing regular file and an existing directory, runs TimedCopy in copy mode, not faster, not a test run, from the file's directory and name into <dir> with a slash appended and the same file name, and then prints its report. *)
Theorem main_copy_into_directory fuel prog s d sd sf w :
  ~ In s ["-del"; "-mir"; "-sync"; "-f"; "-t"] ->
  ~ In d ["-del"; "-mir"; "-sync"; "-f"; "-t"] ->
  split_path s = (sd, sf) -> sf <> "" ->
  (exists dv i m data sec nsec,
      fs_lookup (resolve (w_cwd w) s) (w_fs w) = Some (NReg dv i m data sec nsec)) ->
  (exists dv i m, fs_lookup (resolve (w_cwd w) d) (w_fs w) = Some (NDir dv i m)) ->
  main fuel [prog; s; d] w
  = (iErr <- TimedCopy false false fuel TCPY_MODE_COPY sd sf (dir_arg d) sf;;
     EchoPrint "";; g <- get_glob;; printf_line (report_msg iErr (gszErr g));; ret 0)
      (snd (set_err "" w)).
Proof.
  intros Hfs Hfd Hsp Hne (dv & i & m & data & sec & nsec & Hls) (dv' & i' & m' & Hld).
  unfold main.
  rewrite (bind_run _ _ _ _ _ (set_err_run _ _)). cbv beta zeta.
  rewrite argc_ok by (cbn [List.length]; lia).
  cbn [tl parse_args ps_err Z.eqb]. rewrite parse_arg_path by exact Hfs.
  unfold parse_path. cbn [ps_src]. rewrite !bind_assoc_run.
  rewrite (bind_run _ _ _ _ _ (FilenameExist_run _ _ _)), lookup_set_glob, Hls. cbv beta iota.
  rewrite reg_is_file, bind_ret_run, Hsp.
  cbn [parse_args]. unfold ps_set_src. cbn [ps_err Z.eqb].
  rewrite bind_assoc_run, parse_arg_path by exact Hfd. unfold parse_path. cbn [ps_src].
  rewrite !bind_assoc_run.
  rewrite (bind_run _ _ _ _ _ (FilenameExist_run _ _ _)), lookup_set_glob, Hld. cbv beta iota.
  rewrite dir_is_not_file.
  rewrite ?bind_assoc_run, (bind_run _ _ _ _ _ (DirectoryExist_run _ _ _)), lookup_set_glob, Hld.
  cbv beta iota. cbn [is_dir]. rewrite bind_ret_run.
  cbn [parse_args]. rewrite bind_ret_run. cbv beta zeta.
  unfold ps_set_dst. cbn [ps_err ps_src ps_dst ps_mode ps_test ps_faster Z.eqb].
  rewrite (proj2 (String.eqb_neq sf "") Hne). unfold TCPY_MODE_COPY, TCPY_MODE_DEL.
  cbn [negb andb Z.gtb Z.compare Z.eqb String.eqb].
  rewrite bind_assoc_run, bind_ret_run. reflexivity.
Qed.

Lemma main_copy_into_directory_witness :
  ~ In "s/f" ["-del"; "-mir"; "-sync"; "-f"; "-t"]
  /\ ~ In "d" ["-del"; "-mir"; "-sync"; "-f"; "-t"]
  /\ split_path "s/f" = ("s/", "f") /\ "f" <> ""
  /\ (exists dv i m data sec nsec,
        fs_lookup (resolve (w_cwd w_c6) "s/f") (w_fs w_c6) = Some (NReg dv i m data sec nsec))
  /\ (exists dv i m, fs_lookup (resolve (w_cwd w_c6) "d") (w_fs w_c6) = Some (NDir dv i m))
  /\ main 10 ["tcpy"; "s/f"; "d"] w_c6
     = (iErr <- TimedCopy false false 10 TCPY_MODE_COPY "s/" "f" (dir_arg "d") "f";;
        EchoPrint "";; g <- get_glob;; printf_line (report_msg iErr (gszErr g));; ret 0)
         (snd (set_err "" w_c6)).
Proof.
  assert (H1 : ~ In "s/f" ["-del"; "-mir"; "-sync"; "-f"; "-t"]) by not_flag.
  assert (H2 : ~ In "d" ["-del"; "-mir"; "-sync"; "-f"; "-t"]) by not_flag.
  assert (H3 : split_path "s/f" = ("s/", "f")) by reflexivity.
  assert (H4 : "f" <> "") by discriminate.
  assert (H5 : exists dv i m data sec nsec,
             fs_lookup (resolve (w_cwd w_c6) "s/f") (w_fs w_c6) = Some (NReg dv i m data sec nsec))
    by (exists 1, 4, 420, [1; 2; 3], 100, 5; reflexivity).
  assert (H6 : exists dv i m, fs_lookup (resolve (w_cwd w_c6) "d") (w_fs w_c6) = Some (NDir dv i m))
    by (exists 1, 5, 493; reflexivity).
  split; [exact H1|]. split; [exact H2|]. split; [exact H3|]. split; [exact H4|].
  split; [exact H5|]. split; [exact H6|].
  exact (main_copy_into_directory 10 "tcpy" "s/f" "d" "s/" "f" w_c6 H1 H2 H3 H4 H5 H6).
Defined.

(** X19. A run of main with -t among its arguments keeps every existing object, creates only directories and produces only log lines, sleeps, polls and mkdir calls. *)
Theorem main_test_run_only_creates_directories fuel argv :
  In "-t" (tl argv) -> Sat R_dry (main fuel argv).
Proof.
  intros Ht w. unfold main.
  rewrite (bind_run _ _ _ _ _ (set_err_run _ _)). cbv beta zeta.
  set (w1 := set_glob _ w).
  assert (H1 : R_dry w w1) by (pose proof (dry_set_err "" w) as D; exact D).
  set (p0 := mkParse _ _ _ _ _ _).
  destruct (parse_args fuel p0 (tl argv) w1) as [[p|] w2] eqn:Ep.
  2: { rewrite (bind_stop _ _ _ _ Ep). cbn [snd].
       pose proof (dry_parse_args fuel p0 (tl argv) w1) as D. rewrite Ep in D.
       exact (R_dry_trans _ _ _ H1 D). }
  assert (H2 : R_dry w w2).
  { pose proof (dry_parse_args fuel p0 (tl argv) w1) as D. rewrite Ep in D.
    exact (R_dry_trans _ _ _ H1 D). }
  assert (Htp : ps_test p = true \/ ps_err p <> 0)
    by exact (parse_args_test _ _ _ _ _ _ Ep (or_intror Ht)).
  rewrite (bind_run _ _ _ _ _ Ep). cbv beta zeta.
  eapply R_dry_trans; [exact H2|].
  pose proof R_dry_refl as Hr. pose proof R_dry_trans as Htr.
  pose proof dry_printf_line as HP.
  assert (HE : forall s, Sat R_dry (EchoPrint s)) by (intros s w0; open_prim; dry_tac).
  match goal with |- R_dry w2 (snd (bind ?X ?K w2)) =>
    assert (HS : Sat R_dry (bind X K)); [|exact (HS w2)] end.
  apply sat_bind; [exact Hr | exact Htr | |].
  - destruct (Z.eqb_spec (ps_err p) 0) as [E|E].
    + destruct Htp as [Htp|Htp]; [|contradiction].
      destruct (ps_src p) as [[sd sf]|]; [|apply sat_ret; assumption].
      destruct (_ =? 0); [|apply sat_ret; assumption].
      destruct (match ps_dst p with Some d => d | None => _ end) as [dd df].
      rewrite Htp. apply sat_bind; [exact Hr | exact Htr | exact (HP _) | intros _].
      apply dry_TimedCopy.
    + cbv beta iota zeta. rewrite (proj2 (Z.eqb_neq _ _) E). apply sat_ret; assumption.
  - intros iErr. sat_solve.
Qed.

Lemma main_test_run_only_creates_directories_witness :
  In "-t" (tl ["tcpy"; "-t"; "s"; "d"]) /\ Sat R_dry (main 10 ["tcpy"; "-t"; "s"; "d"]).
Proof.
  assert (H : In "-t" (tl ["tcpy"; "-t"; "s"; "d"])) by (left; reflexivity).
  split; [exact H | exact (main_test_run_only_creates_directories 10 _ H)].
Defined.

(** X20. main always returns 0, whatever the outcome; its output ends with an empty line and the report of an error code. *)
Theorem main_exit_status_zero fuel argv w r w' :
  main fuel argv w = (Some r, w') ->
  r = 0 /\ exists l iErr,
    w_out w' = w_out w ++ l ++ [ELog ""; ELog (report_msg iErr (gszErr (w_glob w')))].
Proof.
  intros H. unfold main in H.
  rewrite (bind_run _ _ _ _ _ (set_err_run _ _)) in H. cbv beta zeta in H.
  set (w1 := set_glob _ w) in H. set (p0 := mkParse _ _ _ _ _ _) in H.
  bind_case H p w2 Ep.
  destruct (dry_implies_out w1 w2) as [l1 Hl1].
  { pose proof (dry_parse_args fuel p0 (tl argv) w1) as D. rewrite Ep in D. exact D. }
  bind_case H iErr w3 E3.
  assert (Hb : R_base w2 w3).
  { match type of E3 with ?X w2 = _ =>
      assert (HS : Sat R_base X); [|pose proof (HS w2) as D; rewrite E3 in D; exact D] end.
    pose proof R_base_refl as Hr. pose proof R_base_trans as Htr.
    pose proof base_TimedCopy as HT. pose proof base_prim_emit as HP.
    unfold printf_line. sat_solve. }
  destruct Hb as (_ & _ & l3 & Hl3).
  rewrite main_tail_run in H. injection H as <- <-. split; [reflexivity|].
  exists (l1 ++ l3), iErr. cbn. rewrite Hl3, Hl1. unfold w1. cbn.
  rewrite <- !app_assoc. reflexivity.
Qed.

Lemma main_exit_status_zero_witness :
  main 10 ["tcpy"; "s/f"; "d"] w_c6 = (Some 0, snd (main 10 ["tcpy"; "s/f"; "d"] w_c6))
  /\ (0 = 0 /\ exists l iErr,
        w_out (snd (main 10 ["tcpy"; "s/f"; "d"] w_c6))
        = w_out w_c6 ++ l
          ++ [ELog ""; ELog (report_msg iErr (gszErr (w_glob (snd (main 10 ["tcpy"; "s/f"; "d"] w_c6)))))]).
Proof.
  assert (H : main 10 ["tcpy"; "s/f"; "d"] w_c6 = (Some 0, snd (main 10 ["tcpy"; "s/f"; "d"] w_c6)))
    by (vm_compute; reflexivity).
  split; [exact H | exact (main_exit_status_zero 10 _ w_c6 0 _ H)].
Defined.

(** X21. In Move mode, outside a test run, with distinct source and destination paths, the transfer phase of TimedCopyFile (compare, and when needed delete, copy, verify and re-verify) leaves the source as it was; an error it reports is the result of TimedCopyFile, with nothing done after it; when it reports success and unlinking the source does not fail, the source existed and is absent after TimedCopyFile. *)
Theorem move_source_after_verified_transfer gF fuel src dst w e w1 :
  resolve (w_cwd w) dst <> resolve (w_cwd w) src ->
  tcf_transfer gF false fuel src dst w = (Some e, w1) ->
  fs_lookup (resolve (w_cwd w) src) (w_fs w1) = fs_lookup (resolve (w_cwd w) src) (w_fs w)
  /\ (e <> 0 -> TimedCopyFile gF false fuel TCPY_MODE_DEL src dst w = (Some e, w1))
  /\ (e = 0 -> w_fails w (SUnlink (resolve (w_cwd w) src)) = false ->
      (exists n, fs_lookup (resolve (w_cwd w) src) (w_fs w) = Some n)
      /\ fs_lookup (resolve (w_cwd w) src)
           (w_fs (snd (TimedCopyFile gF false fuel TCPY_MODE_DEL src dst w))) = None).
Proof.
  intros Hne Ht.
  pose proof (src_transfer gF fuel src dst (w_cwd w) Hne w) as HS.
  rewrite Ht in HS; cbn [snd] in HS. destruct (HS eq_refl) as (Hc & Hf & Hl).
  split; [exact Hl|]. split.
  - intros He. unfold TimedCopyFile. rewrite (bind_run _ _ _ _ _ Ht).
    unfold tcf_delete_source, tcf_bookkeeping.
    apply Z.eqb_neq in He. rewrite He. cbn [andb]. unfold bind, ret. rewrite He. reflexivity.
  - intros He Hu; subst e.
    destruct (tcf_transfer_ok_source _ _ _ _ _ _ _ Ht) as (d & i & p & data & sec & nsec & Hs).
    split; [eauto|].
    rewrite Hs in Hl. rewrite <- Hc in Hl, Hu. rewrite <- Hf in Hu.
    unfold TimedCopyFile. rewrite (bind_run _ _ _ _ _ Ht).
    rewrite (bind_run _ _ _ _ _ (tcf_delete_source_move_ok src dst w1 _ _ _ _ _ _ Hl Hu)).
    rewrite (fs_bookkeeping gF fuel 0 _). rewrite <- Hc. cbn -[resolve fs_remove].
    rewrite fs_lookup_remove, path_eqb_refl. reflexivity.
Qed.

Lemma move_source_after_verified_transfer_witness :
  fs_lookup (resolve (w_cwd w_c6) "s/f")
    (w_fs (snd (TimedCopyFile false false 10 TCPY_MODE_DEL "s/f" "d/f" w_c6))) = None.
Proof.
  refine (proj2 (proj2 (proj2 (move_source_after_verified_transfer false 10 "s/f" "d/f" w_c6 0
                  (snd (tcf_transfer false false 10 "s/f" "d/f" w_c6)) _ _)) eq_refl _)).
  - vm_compute. discriminate.
  - vm_compute. reflexivity.
  - reflexivity.
Defined.

(** X22. The throttle variables keep 0 <= giNanoFastest <= giNanoPrev < 2^64, with giNanoPrev = 0 while giNanoFastest = 0: this holds initially and after every run of TimedCopy and TimedCopyFile. Under it, giNanoPrev - giNanoFastest never wraps, the delay is never negative, it is 0 while giNanoFastest is 0, it is the difference for a full buffer, and for a partial buffer of n bytes it is (giNanoPrev - giNanoFastest) * n / 32768 when that product is below 2^64. A buffer is preceded by a nanosleep of the delay exactly when faster mode is off, and followed by its write. *)
Theorem throttle_delay_behaviour :
  thr_inv globals0
  /\ (forall gF gT fuel m sd sf dd df, Sat R_thr (TimedCopy gF gT fuel m sd sf dd df))
  /\ (forall gF gT fuel m src dst, Sat R_thr (TimedCopyFile gF gT fuel m src dst))
  /\ (forall g n, thr_inv g -> 0 < n <= LNBIGBUFFER ->
       let d := throttle_delay (giNanoPrev g) (giNanoFastest g) n in
       u64 (giNanoPrev g - giNanoFastest g) = giNanoPrev g - giNanoFastest g
       /\ 0 <= d
       /\ (giNanoFastest g = 0 -> d = 0)
       /\ (n = LNBIGBUFFER -> d = giNanoPrev g - giNanoFastest g)
       /\ ((giNanoPrev g - giNanoFastest g) * n < 2 ^ 64 ->
           d = (giNanoPrev g - giNanoFastest g) * n / LNBIGBUFFER))
  /\ (forall gF dst buf chk w,
       let g := w_glob w in
       let d := throttle_delay (giNanoPrev g) (giNanoFastest g) (Z.of_nat (List.length buf)) in
       w_out (snd (tcf_copy_step gF dst buf chk w))
       = w_out w ++ (if gF then [] else [ENanosleep (d / ONESECINNANO) (d mod ONESECINNANO)])
                 ++ [EWrite dst (Z.of_nat (List.length buf))]).
Proof.
  split; [unfold thr_inv; cbn; lia|].
  split; [exact thr_TimedCopy|].
  split; [exact thr_TimedCopyFile|].
  split; [exact throttle_delay_facts | exact tcf_copy_step_events].
Qed.

